(** * Website-Monitoring: the probe aggregator and the job scheduler

    A shallow embedding of [src/lib/monitor/comprehensiveMonitor.ts]
    (class [ComprehensiveMonitor]) and of the scheduler module that imports
    it (class [ScheduledMonitor]), with the properties of the design
    document stated against them.

    Conventions of the embedding.
    - JavaScript strings are Rocq strings; the code units that occur are
      those below 256.
    - Instants ([Date] time values) are integers, in milliseconds since the
      epoch; [None] stands for an invalid date (NaN).
    - A Number that is not an integer by construction (a reading of
      [performance.now()], a difference of readings, a [parseFloat]) is the
      rational that the double holds; arithmetic on them rounds as the
      arithmetic of doubles does ([Number_of]).
    - A computation that may throw returns a [Completion]; [try]/[catch] is
      [try_catch].
    - Everything the code obtains from outside the process (the network, the
      system commands, the clocks) and the platform functions it calls
      ([URL], [Date.parse], [psl]) is read from a [World] record. *)

From Stdlib Require Import ZArith QArith Qround Qabs Ascii String List Bool Lia.
From Stdlib Require Import DecimalString.
From stdpp Require Import base option list gmap strings.

Local Open Scope string_scope.
Local Open Scope list_scope.
Local Open Scope Z_scope.

(** ** JavaScript values used by the code *)

(** What a [throw] carries: an [Error] object with its message, or some other
    value (the code tests [error instanceof Error]). *)
Inductive Thrown : Type :=
| ErrorObj (message : string)
| OtherThrown.

Inductive Completion (A : Type) : Type :=
| Normal (a : A)
| Throw (e : Thrown).
Arguments Normal {A} a.
Arguments Throw {A} e.

#[global] Instance Completion_ret : MRet Completion := fun A a => Normal a.
#[global] Instance Completion_bind : MBind Completion := fun A B k c =>
  match c with
  | Normal a => k a
  | Throw e => Throw e
  end.

Definition try_catch {A} (body : Completion A) (handler : Thrown -> Completion A)
  : Completion A :=
  match body with
  | Normal a => Normal a
  | Throw e => handler e
  end.

(** [error instanceof Error ? error.message : dflt] *)
Definition message_or (e : Thrown) (dflt : string) : string :=
  match e with
  | ErrorObj m => m
  | OtherThrown => dflt
  end.

(** ** Characters and strings *)

Module JS.

Definition code (c : ascii) : Z := Z.of_N (N_of_ascii c).

Definition between (lo hi : Z) (c : ascii) : bool :=
  (lo <=? code c) && (code c <=? hi).

Definition is_digit : ascii -> bool := between 48 57.
Definition is_upper : ascii -> bool := between 65 90.
Definition is_lower : ascii -> bool := between 97 122.
Definition is_alpha (c : ascii) : bool := is_upper c || is_lower c.

(** Line terminators and white space ([\s], [trim]) below code 256. *)
Definition is_line_terminator (c : ascii) : bool :=
  (code c =? 10) || (code c =? 13).
Definition is_space (c : ascii) : bool :=
  between 9 13 c || (code c =? 32) || (code c =? 160).

(** [.] without the [s] flag. *)
Definition dot (c : ascii) : bool := negb (is_line_terminator c).

(** [Canonicalize] of a regular expression with the [i] flag and without the
    [u] flag: the upper-case code point when it is a single code unit, except
    that a non-ASCII character never folds to an ASCII one. *)
Definition canonicalize (c : ascii) : Z :=
  let n := code c in
  if is_lower c then n - 32
  else if (224 <=? n) && (n <=? 254) && negb (n =? 247) then n - 32
  else if n =? 181 then 924
  else if n =? 255 then 376
  else n.

Definition ci_eq (a b : ascii) : bool := canonicalize a =? canonicalize b.

Definition toLowerCase_char (c : ascii) : ascii :=
  if is_upper c then ascii_of_N (Z.to_N (code c + 32)) else c.

Definition chars (s : string) : list ascii := list_ascii_of_string s.
Definition str (l : list ascii) : string := string_of_list_ascii l.

Fixpoint drop_while (p : ascii -> bool) (l : list ascii) : list ascii :=
  match l with
  | c :: l' => if p c then drop_while p l' else l
  | [] => []
  end.

(** [String.prototype.trim] *)
Definition trim_chars (l : list ascii) : list ascii :=
  rev (drop_while is_space (rev (drop_while is_space l))).
Definition trim (s : string) : string := str (trim_chars (chars s)).

(** [s.padStart(2, '0')] *)
Definition padStart2 (l : list ascii) : list ascii :=
  match l with
  | [c] => ["0"%char; c]
  | [] => ["0"%char; "0"%char]
  | _ => l
  end.

Fixpoint digits_value (acc : Z) (l : list ascii) : Z :=
  match l with
  | c :: l' => digits_value (10 * acc + (code c - 48)) l'
  | [] => acc
  end.

(** [parseInt] on a string that starts with decimal digits; NaN otherwise.
    (The code applies it to the port of a parsed URL, which is empty or made
    of digits.) *)
Definition parseInt (s : string) : option Z :=
  let ds := take (length (chars s) - length (drop_while is_digit (chars s)))%nat (chars s) in
  match ds with
  | [] => None
  | _ => Some (digits_value 0 ds)
  end.

(** *** Numbers

    A finite Number is a double of IEEE 754 (binary64) and is represented by
    the rational it holds. [Number_of x] is the Number nearest to [x]: the
    significand has 53 bits, a tie goes to the even significand, and the
    exponent of the last bit is not below -1074 (subnormal numbers). Every
    result of an arithmetic operation on Numbers is rounded this way.
    Magnitudes from [2^1024] on, which the platform rounds to an infinity,
    are not covered: the rationals that are rounded here are clock readings
    in milliseconds, their differences, decimal numerals of a command's
    output, and integers. *)

(** The integer nearest to [n / d], for a positive [d]; a tie goes to the
    even one. *)
Definition round_half_even (n d : Z) : Z :=
  let q := n / d in
  match 2 * (n mod d) ?= d with
  | Lt => q
  | Gt => q + 1
  | Eq => if Z.even q then q else q + 1
  end.

(** The exponent [k] with [2^k <= n / d < 2^(k+1)], for positive [n], [d]. *)
Definition binade (n d : Z) : Z :=
  let k := Z.log2 n - Z.log2 d in
  if d * 2 ^ Z.max 0 k <=? n * 2 ^ Z.max 0 (- k) then k else k - 1.

Definition Number_of (x : Q) : Q :=
  let n := Z.abs (Qnum x) in
  let d := Zpos (Qden x) in
  if n =? 0 then 0%Q
  else
    let e := Z.max (binade n d - 52) (-1074) in
    let m := round_half_even (n * 2 ^ Z.max 0 (- e)) (d * 2 ^ Z.max 0 e) in
    Qred (Qmake (Z.sgn (Qnum x) * m * 2 ^ Z.max 0 e) (Z.to_pos (2 ^ Z.max 0 (- e)))).

(** [a - b] on Numbers. *)
Definition Number_sub (a b : Q) : Q := Number_of (a - b)%Q.

(** The Number that stands for an integer, which is an integer again. *)
Definition Number_of_Z (z : Z) : Z := Qfloor (Number_of (inject_Z z)).

Definition decimal (z : Z) : string := NilZero.string_of_int (Z.to_int z).

(** [Number::toString] on a positive integral Number [x] of [nd] decimal
    digits picks integers [n], [k], [s] such that [s] has [k] digits,
    [s * 10^(n-k)] is read back as [x], and [k] is as small as possible; of
    several [s] the one for which [s * 10^(n-k)] is closest to [x], and the
    even one of two that are equally close. [candidates] are the pairs
    [(s, n)] for one [k]; seventeen digits always suffice. *)
Definition candidates (x nd k : Z) : list (Z * Z) :=
  filter (fun c : Z * Z =>
            let (s, n) := c in
            (10 ^ (k - 1) <=? s) && (s <? 10 ^ k) && (k <=? n)
            && (Number_of_Z (s * 10 ^ (n - k)) =? x))
    (flat_map (fun n => [(x / 10 ^ (n - k), n); (x / 10 ^ (n - k) + 1, n)])
       [nd; nd + 1]).

Definition closer (x k : Z) (c1 c2 : Z * Z) : Z * Z :=
  let dist (c : Z * Z) := Z.abs (fst c * 10 ^ (snd c - k) - x) in
  match dist c1 ?= dist c2 with
  | Lt => c1
  | Gt => c2
  | Eq => if Z.even (fst c1) then c1 else c2
  end.

Fixpoint shortest (x nd : Z) (ks : list Z) : Z * Z * Z :=
  match ks with
  | [] => (x, nd, nd)
  | k :: ks' =>
      match candidates x nd k with
      | [] => shortest x nd ks'
      | c :: cs => let (s, n) := fold_left (closer x k) cs c in (s, n, k)
      end
  end.

(** Printing of an integral Number, as template literals do
    ([Number::toString]): the digits of [s] and [n - k] zeros when the number
    is below [10^21], which for an integer up to [2^53] are its decimal
    digits, and the exponent form from [10^21] on. *)
Definition show (z : Z) : string :=
  let x := Z.abs (Number_of_Z z) in
  if x =? 0 then "0"
  else
    let nd := Z.of_nat (String.length (decimal x)) in
    let '(s, n, k) :=
      shortest x nd [1; 2; 3; 4; 5; 6; 7; 8; 9; 10; 11; 12; 13; 14; 15; 16; 17] in
    let digits := decimal s in
    (if z <? 0 then "-" else "")
    +:+ (if n <=? 21 then digits +:+ str (repeat "0"%char (Z.to_nat (n - k)))
         else match digits with
              | String d EmptyString => String d ("e+" +:+ decimal (n - 1))
              | String d rest => String d ("." +:+ rest +:+ "e+" +:+ decimal (n - 1))
              | EmptyString => ""
              end).

(** *** Regular expressions

    The fragment of the regular-expression language that the code's literals
    use: character tests, concatenation, alternation, greedy quantifiers on a
    one-character atom, capture groups and the end-of-input assertion. The
    matcher backtracks the way the language defines it: a quantifier takes as
    many characters as it can and gives them back one at a time, and the first
    alternative that lets the rest match wins. *)
Inductive regex : Type :=
| Eps
| Chr (p : ascii -> bool)
| Cat (r1 r2 : regex)
| Alt (r1 r2 : regex)
| Rep (p : ascii -> bool) (min : nat) (max : option nat)
| Grp (i : nat) (r : regex)
| Eoi.

Definition Captures : Type := list (nat * list ascii).

Definition room (max : option nat) : bool :=
  match max with
  | Some O => false
  | _ => true
  end.

Fixpoint rep {R} (p : ascii -> bool) (min : nat) (max : option nat)
    (s : list ascii) (k : list ascii -> option R) : option R :=
  let stop := match min with O => k s | S _ => None end in
  match s with
  | c :: s' =>
      if p c && room max then
        match rep p (Nat.pred min) (Nat.pred <$> max) s' k with
        | Some x => Some x
        | None => stop
        end
      else stop
  | [] => stop
  end.

Fixpoint run {R} (r : regex) (s : list ascii) (caps : Captures)
    (k : list ascii -> Captures -> option R) : option R :=
  match r with
  | Eps => k s caps
  | Chr p =>
      match s with
      | c :: s' => if p c then k s' caps else None
      | [] => None
      end
  | Cat r1 r2 => run r1 s caps (fun s' caps' => run r2 s' caps' k)
  | Alt r1 r2 =>
      match run r1 s caps k with
      | Some x => Some x
      | None => run r2 s caps k
      end
  | Rep p min max => rep p min max s (fun s' => k s' caps)
  | Grp i r1 =>
      run r1 s caps
        (fun s' caps' => k s' ((i, take (length s - length s')%nat s) :: caps'))
  | Eoi =>
      match s with
      | [] => k s caps
      | _ :: _ => None
      end
  end.

(** A match of [r] that starts at the head of [s]: its length and captures. *)
Definition match_at (r : regex) (s : list ascii) : option (nat * Captures) :=
  run r s [] (fun s' caps => Some ((length s - length s')%nat, caps)).

(** The leftmost match ([RegExp.prototype.exec], [String.prototype.match]
    without the [g] flag): start index, length, captures. *)
Fixpoint search (r : regex) (s : list ascii) (i : nat) : option (nat * nat * Captures) :=
  match match_at r s with
  | Some (len, caps) => Some (i, len, caps)
  | None =>
      match s with
      | [] => None
      | _ :: s' => search r s' (S i)
      end
  end.

Definition exec (r : regex) (s : string) : option (nat * nat * Captures) :=
  search r (chars s) 0.

Definition test (r : regex) (s : string) : bool :=
  match exec r s with
  | Some _ => true
  | None => false
  end.

Fixpoint group (i : nat) (caps : Captures) : option (list ascii) :=
  match caps with
  | (j, v) :: caps' => if Nat.eqb i j then Some v else group i caps'
  | [] => None
  end.

(** The number of matches with the [g] flag ([s.match(re).length]): matches
    are found left to right, each search starting where the previous match
    ended, one character further after an empty match. [skip] counts the
    characters of the current match still to pass. *)
Fixpoint count_matches (r : regex) (s : list ascii) (skip : nat) : nat :=
  match s with
  | [] =>
      match skip, match_at r [] with
      | O, Some _ => 1
      | _, _ => 0
      end
  | _ :: s' =>
      match skip with
      | S n => count_matches r s' n
      | O =>
          match match_at r s with
          | Some (len, _) => S (count_matches r s' (Nat.pred len))
          | None => count_matches r s' 0
          end
      end
  end.

(** Literals. *)
Definition lit (c : ascii) : regex := Chr (fun x => code x =? code c).
Definition lit_i (c : ascii) : regex := Chr (ci_eq c).

Fixpoint word (f : ascii -> regex) (l : list ascii) : regex :=
  match l with
  | [] => Eps
  | [c] => f c
  | c :: l' => Cat (f c) (word f l')
  end.

Definition text (s : string) : regex := word lit (chars s).
Definition text_i (s : string) : regex := word lit_i (chars s).

Fixpoint seq_re (l : list regex) : regex :=
  match l with
  | [] => Eps
  | [r] => r
  | r :: l' => Cat r (seq_re l')
  end.

Fixpoint alt_re (l : list regex) : regex :=
  match l with
  | [] => Eps
  | [r] => r
  | r :: l' => Alt r (alt_re l')
  end.

Definition star (p : ascii -> bool) : regex := Rep p 0 None.
Definition plus (p : ascii -> bool) : regex := Rep p 1 None.
Definition times (p : ascii -> bool) (lo hi : nat) : regex := Rep p lo (Some hi).

End JS.

(** ** Dates *)

Module Dates.
Import JS.

(** [1000 * 60 * 60 * 24] *)
Definition msPerDay : Z := 1000 * 60 * 60 * 24.

(** [Math.ceil(a / b)] for a positive [b]. *)
Definition ceil_div (a b : Z) : Z := - ((- a) / b).

(** [Math.ceil((expiry.getTime() - now.getTime()) / (1000 * 60 * 60 * 24))] *)
Definition daysUntil (expiry now : Z) : Z := ceil_div (expiry - now) msPerDay.

(** *** The date-time string format of the language

    [Date.parse] is a platform function. The language fixes its result on
    strings in the date-time string format and leaves every other string to
    the implementation. [ES_date_time] is that fixed part, for the UTC forms
    [YYYY-MM-DDTHH:mm:ssZ] and [YYYY-MM-DDTHH:mm:ss.sssZ]; it is used to state
    what a platform parser must do, and as the smallest platform parser. *)

Definition is_leap (y : Z) : bool :=
  ((y mod 4 =? 0) && negb (y mod 100 =? 0)) || (y mod 400 =? 0).

Definition days_in_month (y m : Z) : Z :=
  if m =? 2 then (if is_leap y then 29 else 28)
  else if (m =? 4) || (m =? 6) || (m =? 9) || (m =? 11) then 30
  else 31.

(** Days from 1970-01-01 to the given civil date. *)
Definition days_from_civil (y m d : Z) : Z :=
  let y' := if m <=? 2 then y - 1 else y in
  let era := y' / 400 in
  let yoe := y' - era * 400 in
  let doy := (153 * (if 2 <? m then m - 3 else m + 9) + 2) / 5 + d - 1 in
  let doe := yoe * 365 + yoe / 4 - yoe / 100 + doy in
  era * 146097 + doe - 719468.

Definition make_time (y mo d h mi s ms : Z) : Z :=
  (((days_from_civil y mo d * 24 + h) * 60 + mi) * 60 + s) * 1000 + ms.

Definition ES_date_time_re : regex :=
  seq_re [Grp 1 (times is_digit 4 4); lit "-"; Grp 2 (times is_digit 2 2); lit "-";
          Grp 3 (times is_digit 2 2); lit "T";
          Grp 4 (times is_digit 2 2); lit ":"; Grp 5 (times is_digit 2 2); lit ":";
          Grp 6 (times is_digit 2 2);
          Alt (Cat (lit ".") (Grp 7 (times is_digit 3 3))) Eps;
          lit "Z"; Eoi].

Definition num (i : nat) (caps : Captures) : Z :=
  digits_value 0 (default [] (group i caps)).

Definition ES_date_time (s : string) : option Z :=
  match match_at ES_date_time_re (chars s) with
  | Some (_, caps) =>
      let y := num 1 caps in
      let mo := num 2 caps in
      let d := num 3 caps in
      let h := num 4 caps in
      let mi := num 5 caps in
      let sec := num 6 caps in
      let ms := num 7 caps in
      if (1 <=? mo) && (mo <=? 12) && (1 <=? d) && (d <=? days_in_month y mo)
         && (h <=? 23) && (mi <=? 59) && (sec <=? 59)
      then Some (make_time y mo d h mi sec ms)
      else None
  | None => None
  end.

(** A platform parser honours the format when it agrees with it on every
    string the format accepts. *)
Definition honours_format (P : string -> option Z) : Prop :=
  forall s t, ES_date_time s = Some t -> P s = Some t.

(** *** [parseDateString]  (comprehensiveMonitor.ts, lines 261-286) *)

(** [/\s+GMT$/i] *)
Definition trailing_GMT_re : regex :=
  seq_re [plus is_space; text_i "GMT"; Eoi].

(** [s.replace(re, by)] for a pattern without the [g] flag and a replacement
    without [$]. *)
Definition replace (r : regex) (by_ : string) (s : string) : string :=
  match exec r s with
  | Some (i, len, _) =>
      str (take i (chars s) ++ chars by_ ++ drop (i + len) (chars s))
  | None => s
  end.

(** [[-\/ ]] *)
Definition is_sep (c : ascii) : bool :=
  (code c =? 45) || (code c =? 47) || (code c =? 32).

(** [/(\d{1,2})[-\/ ]([A-Za-z]{3,9})[-\/ ](\d{4})/] *)
Definition day_month_year_re : regex :=
  seq_re [Grp 1 (times is_digit 1 2); Chr is_sep; Grp 2 (times is_alpha 3 9);
          Chr is_sep; Grp 3 (times is_digit 4 4)].

Definition months : list (string * string) :=
  [("jan", "01"); ("feb", "02"); ("mar", "03"); ("apr", "04"); ("may", "05");
   ("jun", "06"); ("jul", "07"); ("aug", "08"); ("sep", "09"); ("oct", "10");
   ("nov", "11"); ("dec", "12")].

Fixpoint assoc (k : string) (l : list (string * string)) : option string :=
  match l with
  | (k', v) :: l' => if String.eqb k k' then Some v else assoc k l'
  | [] => None
  end.

(** The string the first step hands to the parser:
    [s.trim().replace(/\s+GMT$/i, 'Z')]. *)
Definition normalize (s : string) : string :=
  replace trailing_GMT_re "Z" (trim s).

(** The ISO string built from a match of the day/month-name/year pattern,
    when the month name is in the table. *)
Definition day_month_year_iso (s : string) : option string :=
  match exec day_month_year_re s with
  | Some (_, _, m) =>
      let day := padStart2 (default [] (group 1 m)) in
      let mon := str (map toLowerCase_char (take 3 (default [] (group 2 m)))) in
      match assoc mon months with
      | Some mm =>
          Some (str (default [] (group 3 m)) +:+ "-" +:+ mm +:+ "-" +:+ str day
                +:+ "T00:00:00Z")
      | None => None
      end
  | None => None
  end.

Section DateNormalizer.

(** [new Date(s).getTime()] and [Date.parse(s)]: the platform parser. *)
Variable Date_parse : string -> option Z.

Definition parseDateString (s : string) : option Z :=
  if String.eqb s "" then None
  else
    let s := normalize s in
    match Date_parse s with
    | Some d => Some d
    | None =>
        let last_resort := Date_parse s in
        match day_month_year_iso s with
        | Some iso =>
            match Date_parse iso with
            | Some d2 => Some d2
            | None => last_resort
            end
        | None => last_resort
        end
    end.

End DateNormalizer.

End Dates.

(** ** The report  (interface [MonitoringResult]) *)

Module Monitor.
Import JS Dates.

(** The status strings of all the categories. *)
Inductive Status : Type :=
| online | offline | error
| good | warning | critical
| resolved | failed
| valid | invalid | expired | expiring_soon
| open | closed | timeout
| success
| found | not_found.

#[global] Instance Status_eq_dec : EqDecision Status.
Proof. solve_decision. Defined.

Definition status_string (s : Status) : string :=
  match s with
  | online => "online" | offline => "offline" | error => "error"
  | good => "good" | warning => "warning" | critical => "critical"
  | resolved => "resolved" | failed => "failed"
  | valid => "valid" | invalid => "invalid" | expired => "expired"
  | expiring_soon => "expiring_soon"
  | open => "open" | closed => "closed" | timeout => "timeout"
  | success => "success"
  | found => "found" | not_found => "not_found"
  end.

Record WebsiteMonitoring : Type := {
  wm_status : Status;
  wm_statusCode : option Z;
  wm_error : option string }.

(** [unit] is always ['ms']. *)
Record ResponseTime : Type := {
  rt_value : Z;
  rt_status : Status }.

Record DnsRecords : Type := {
  dns_A : list string;
  dns_MX : list string;
  dns_TXT : list string;
  dns_NS : list string }.

Record DnsMonitoring : Type := {
  dns_status : Status;
  dns_records : option DnsRecords;
  dns_error : option string }.

(** A string produced by [toISOString] is represented by the instant it
    denotes. *)
Record Certificate : Type := {
  cert_issuer : string;
  cert_validFrom : Z;
  cert_validTo : Z;
  cert_daysUntilExpiry : Z }.

Record SslMonitoring : Type := {
  ssl_status : Status;
  ssl_certificate : option Certificate;
  ssl_error : option string }.

Record DomainExpiration : Type := {
  de_status : Status;
  de_expiryDate : option Z;
  de_daysUntilExpiry : option Z;
  de_error : option string }.

Record PortEntry : Type := {
  port_status : Status;
  port_responseTime : option Z }.

Record PingMonitoring : Type := {
  ping_status : Status;
  ping_responseTime : option Q;
  ping_error : option string }.

Record KeywordMonitoring : Type := {
  kw_status : Status;
  kw_keyword : option string;
  kw_occurrences : option nat;
  kw_error : option string }.

Record MonitoringResult : Type := {
  url : string;
  timestamp : Z;
  websiteMonitoring : WebsiteMonitoring;
  responseTime : ResponseTime;
  dnsMonitoring : DnsMonitoring;
  sslMonitoring : SslMonitoring;
  domainExpiration : DomainExpiration;
  portMonitoring : gmap Z PortEntry;
  pingMonitoring : PingMonitoring;
  keywordMonitoring : option KeywordMonitoring }.

(** Assignments to the fields of the report. *)
Definition set_websiteMonitoring (v : WebsiteMonitoring) (r : MonitoringResult) :=
  {| url := url r; timestamp := timestamp r; websiteMonitoring := v;
     responseTime := responseTime r; dnsMonitoring := dnsMonitoring r;
     sslMonitoring := sslMonitoring r; domainExpiration := domainExpiration r;
     portMonitoring := portMonitoring r; pingMonitoring := pingMonitoring r;
     keywordMonitoring := keywordMonitoring r |}.

Definition set_responseTime (v : ResponseTime) (r : MonitoringResult) :=
  {| url := url r; timestamp := timestamp r; websiteMonitoring := websiteMonitoring r;
     responseTime := v; dnsMonitoring := dnsMonitoring r;
     sslMonitoring := sslMonitoring r; domainExpiration := domainExpiration r;
     portMonitoring := portMonitoring r; pingMonitoring := pingMonitoring r;
     keywordMonitoring := keywordMonitoring r |}.

Definition set_dnsMonitoring (v : DnsMonitoring) (r : MonitoringResult) :=
  {| url := url r; timestamp := timestamp r; websiteMonitoring := websiteMonitoring r;
     responseTime := responseTime r; dnsMonitoring := v;
     sslMonitoring := sslMonitoring r; domainExpiration := domainExpiration r;
     portMonitoring := portMonitoring r; pingMonitoring := pingMonitoring r;
     keywordMonitoring := keywordMonitoring r |}.

Definition set_sslMonitoring (v : SslMonitoring) (r : MonitoringResult) :=
  {| url := url r; timestamp := timestamp r; websiteMonitoring := websiteMonitoring r;
     responseTime := responseTime r; dnsMonitoring := dnsMonitoring r;
     sslMonitoring := v; domainExpiration := domainExpiration r;
     portMonitoring := portMonitoring r; pingMonitoring := pingMonitoring r;
     keywordMonitoring := keywordMonitoring r |}.

Definition set_domainExpiration (v : DomainExpiration) (r : MonitoringResult) :=
  {| url := url r; timestamp := timestamp r; websiteMonitoring := websiteMonitoring r;
     responseTime := responseTime r; dnsMonitoring := dnsMonitoring r;
     sslMonitoring := sslMonitoring r; domainExpiration := v;
     portMonitoring := portMonitoring r; pingMonitoring := pingMonitoring r;
     keywordMonitoring := keywordMonitoring r |}.

(** [result.portMonitoring[port] = v] *)
Definition set_port (port : Z) (v : PortEntry) (r : MonitoringResult) :=
  {| url := url r; timestamp := timestamp r; websiteMonitoring := websiteMonitoring r;
     responseTime := responseTime r; dnsMonitoring := dnsMonitoring r;
     sslMonitoring := sslMonitoring r; domainExpiration := domainExpiration r;
     portMonitoring := <[port := v]> (portMonitoring r);
     pingMonitoring := pingMonitoring r;
     keywordMonitoring := keywordMonitoring r |}.

Definition set_pingMonitoring (v : PingMonitoring) (r : MonitoringResult) :=
  {| url := url r; timestamp := timestamp r; websiteMonitoring := websiteMonitoring r;
     responseTime := responseTime r; dnsMonitoring := dnsMonitoring r;
     sslMonitoring := sslMonitoring r; domainExpiration := domainExpiration r;
     portMonitoring := portMonitoring r; pingMonitoring := v;
     keywordMonitoring := keywordMonitoring r |}.

Definition set_keywordMonitoring (v : KeywordMonitoring) (r : MonitoringResult) :=
  {| url := url r; timestamp := timestamp r; websiteMonitoring := websiteMonitoring r;
     responseTime := responseTime r; dnsMonitoring := dnsMonitoring r;
     sslMonitoring := sslMonitoring r; domainExpiration := domainExpiration r;
     portMonitoring := portMonitoring r; pingMonitoring := pingMonitoring r;
     keywordMonitoring := Some v |}.

(** Entries with only a status, or a status and an error message. *)
Definition website_error (msg : option string) : WebsiteMonitoring :=
  {| wm_status := error; wm_statusCode := None; wm_error := msg |}.
Definition dns_failure (msg : option string) : DnsMonitoring :=
  {| dns_status := error; dns_records := None; dns_error := msg |}.
Definition ssl_failure (msg : option string) : SslMonitoring :=
  {| ssl_status := error; ssl_certificate := None; ssl_error := msg |}.
Definition domain_failure (msg : option string) : DomainExpiration :=
  {| de_status := error; de_expiryDate := None; de_daysUntilExpiry := None;
     de_error := msg |}.
Definition ping_failure (msg : option string) : PingMonitoring :=
  {| ping_status := error; ping_responseTime := None; ping_error := msg |}.
Definition keyword_failure (msg : option string) : KeywordMonitoring :=
  {| kw_status := error; kw_keyword := None; kw_occurrences := None;
     kw_error := msg |}.

(** ** The world outside the process *)

(** [new URL(url)]: the two components the code reads. *)
Record Url : Type := {
  hostname : string;
  port : string }.

(** A response of [fetch]; [response.text()] may itself fail. *)
Record Response : Type := {
  status : Z;
  statusText : string;
  text_ : Completion string }.

(** [response.ok], as the fetch library defines it. *)
Definition ok (r : Response) : bool := (200 <=? status r) && (status r <? 300).

Record MxRecord : Type := {
  exchange : string;
  priority : Z }.

(** [tls.PeerCertificate]; a field is [None] when the object lacks it. *)
Record PeerCertificate : Type := {
  issuer_CN : option string;
  valid_from : option string;
  valid_to : option string }.

(** One element of the [events] array of a registry answer: [eventAction]
    when it is a string, and [String(eventDate)] when [eventDate] is there. *)
Record RdapEvent : Type := {
  eventAction : option string;
  eventDate : option string }.

(** The registry answer: [rdapResp.ok], and the [events] array of
    [await rdapResp.json().catch(() => null)] when the JSON value is truthy
    and [events] is an array. An element on which a property access throws
    ([null]) is [None]. *)
Record RdapResponse : Type := {
  rdap_ok : bool;
  rdap_events : option (list (option RdapEvent)) }.

(** What happens on the socket of one port; for a connection, the clock
    before the attempt and at the [connect] event, in milliseconds. *)
Inductive SocketOutcome : Type :=
| Connected (startTime endTime : Q)
| SocketError
| SocketTimeout
| Rejected (e : Thrown).

Record World : Type := {
  (* platform functions *)
  URL_parse : string -> Completion Url;
  Date_parse : string -> option Z;
  psl_domain : string -> option string;
  RegExp_count : string -> string -> Completion nat;
  (* clocks *)
  now_timestamp : Z;
  now_ssl : Z;
  now_domain : Z;
  perf_start : Q;   (* the clock before and after the availability request, *)
  perf_end : Q;     (* in milliseconds *)
  (* network and system commands *)
  fetch_status : string -> Completion Response;
  resolve4 : string -> Completion (list string);
  resolveMx : string -> Completion (list MxRecord);
  resolveTxt : string -> Completion (list (list string));
  resolveNs : string -> Completion (list string);
  tls_connect : string -> option Z -> Completion PeerCertificate;
  fetch_rdap : string -> Completion RdapResponse;
  exec_whois : string -> Completion (string * string);
  net_connect : Z -> string -> SocketOutcome;
  exec_ping : string -> Completion string;
  fetch_keyword : string -> Completion Response }.

(** [performance.now()]: the reading of the clock as a Number. *)
Definition performance_now (reading : Q) : Q := Number_of reading.

(** [Math.round]: the nearest integer, the upper one of two. *)
Definition round (x : Q) : Z := Qfloor (x + (1 # 2))%Q.

(** [date.toISOString()], which throws on an invalid date. *)
Definition toISOString (d : option Z) : Completion Z :=
  match d with
  | Some t => Normal t
  | None => Throw (ErrorObj "Invalid time value")
  end.

(** [new Date(v)] for a string that may be missing. *)
Definition new_Date (P : string -> option Z) (v : option string) : option Z :=
  v ≫= P.

(** [x || dflt] on strings. *)
Definition or_string (x : option string) (dflt : string) : string :=
  match x with
  | Some s => if String.eqb s "" then dflt else s
  | None => dflt
  end.

(** Truthiness of an optional string. *)
Definition truthy (x : option string) : bool :=
  match x with
  | Some s => negb (String.eqb s "")
  | None => false
  end.

(** The classification both expiry checks apply:
    [days > 0 ? (days > 30 ? 'valid' : 'expiring_soon') : 'expired']. *)
Definition expiry_status (daysUntilExpiry : Z) : Status :=
  if 0 <? daysUntilExpiry
  then (if 30 <? daysUntilExpiry then valid else expiring_soon)
  else expired.

(** [responseTime < 1000 ? 'good' : responseTime < 3000 ? 'warning' : 'critical'] *)
Definition latency_status (responseTime : Q) : Status :=
  if Qlt_le_dec responseTime 1000 then good
  else if Qlt_le_dec responseTime 3000 then warning
  else critical.

(** ** Text helpers of the domain-expiration and ping probes *)

Definition LF : ascii := "010"%char.
Definition CR : ascii := "013"%char.
Definition DQ : ascii := "034"%char.

Definition ascii_eqb (a b : ascii) : bool := code a =? code b.

(** [s.split(sep)] for a one-character separator. *)
Fixpoint split_aux (sep : ascii) (cur : list ascii) (l : list ascii) : list (list ascii) :=
  match l with
  | [] => [rev cur]
  | c :: l' =>
      if ascii_eqb c sep then rev cur :: split_aux sep [] l'
      else split_aux sep (c :: cur) l'
  end.
Definition split (sep : ascii) (l : list ascii) : list (list ascii) := split_aux sep [] l.

(** [parts.join(sep)] *)
Fixpoint join (sep : ascii) (parts : list (list ascii)) : list ascii :=
  match parts with
  | [] => []
  | [p] => p
  | p :: parts' => p ++ sep :: join sep parts'
  end.

(** [hostname.split('.').slice(-2).join('.')] *)
Definition last_two_labels (hostname : string) : string :=
  let parts := split "."%char (chars hostname) in
  str (join "."%char (drop (length parts - 2)%nat parts)).

(** [text.split(/\r?\n/)]: a line ends at a line feed, and a carriage return
    just before that line feed belongs to the separator. *)
Fixpoint split_lines_aux (cur : list ascii) (l : list ascii) : list (list ascii) :=
  match l with
  | [] => [rev cur]
  | c :: l' =>
      if ascii_eqb c LF then
        rev (match cur with
             | c0 :: cur' => if ascii_eqb c0 CR then cur' else cur
             | [] => cur
             end) :: split_lines_aux [] l'
      else split_lines_aux (c :: cur) l'
  end.
Definition split_lines (l : list ascii) : list (list ascii) := split_lines_aux [] l.

(** [/expir|expiration|expire/i] *)
Definition rdap_action_re : regex :=
  alt_re [text_i "expir"; text_i "expiration"; text_i "expire"].

(** [rdapJson.events.find(e => typeof e.eventAction === 'string' && re.test(e.eventAction))] *)
Fixpoint find_expiry_event (events : list (option RdapEvent)) : Completion (option RdapEvent) :=
  match events with
  | [] => Normal None
  | None :: _ => Throw (ErrorObj "Cannot read properties of null")
  | Some e :: events' =>
      if match eventAction e with
         | Some a => test rdap_action_re a
         | None => false
         end
      then Normal (Some e)
      else find_expiry_event events'
  end.

(** The labels of the [patterns] array, in its order; each stands for
    [/<label>\s*(.+)/i]. *)
Definition whois_labels : list string :=
  ["Registry Expiry Date:"; "Registrar Registration Expiration Date:";
   "Expiration Date:"; "Expiry Date:"; "paid-till:"; "paid_till:";
   "Expires On:"; "expires:"; "Renewal Date:"; "domain_datebilled_until:";
   "Registry Expiry:"].

Definition whois_pattern (label : string) : regex :=
  seq_re [text_i label; star is_space; Grp 1 (plus dot)].

(** The [for (const re of patterns)] loop: the first pattern that matches
    sets [expiryStr = m[1].trim()] and ends the loop. *)
Fixpoint first_labelled (labels : list string) (whoisText : string) : option string :=
  match labels with
  | [] => None
  | label :: labels' =>
      match exec (whois_pattern label) whoisText with
      | Some (_, _, m) =>
          match group 1 m with
          | Some (c :: g) => Some (str (trim_chars (c :: g)))
          | _ => first_labelled labels' whoisText
          end
      | None => first_labelled labels' whoisText
      end
  end.

(** [/expir|expire|expiry|expires/i] *)
Definition loose_re : regex :=
  alt_re [text_i "expir"; text_i "expire"; text_i "expiry"; text_i "expires"].

(** The looser search: the first line that mentions expiry, and of it the
    part after the first colon when there is one. *)
Definition loose_scan (whoisText : string) : option string :=
  match List.find (fun line => test loose_re (str line)) (split_lines (chars whoisText)) with
  | Some (c :: l) =>
      let loose := c :: l in
      let parts := split ":"%char loose in
      if (1 <? length parts)%nat
      then Some (str (trim_chars (join ":"%char (drop 1 parts))))
      else Some (str (trim_chars loose))
  | _ => None
  end.

(** The expiry string after the two searches of the free-text answer: the
    labelled patterns, and the looser search when they leave it empty. *)
Definition whois_candidate (whoisText : string) : option string :=
  let expiryStr := first_labelled whois_labels whoisText in
  if truthy expiryStr then expiryStr
  else match loose_scan whoisText with
       | Some s => Some s
       | None => expiryStr
       end.

(** [/time=(\d+\.\d+)/] *)
Definition ping_re : regex :=
  seq_re [text "time="; Grp 1 (seq_re [plus is_digit; lit "."; plus is_digit])].

(** [parseFloat] on a capture of [\d+\.\d+]: the Number nearest to the
    decimal numeral. *)
Definition parseFloat (l : list ascii) : Q :=
  let ip := take (length l - length (drop_while is_digit l))%nat l in
  let fp := drop 1 (drop_while is_digit l) in
  Number_of (inject_Z (digits_value 0 ip)
             + Qmake (digits_value 0 fp) (Pos.pow 10 (Pos.of_nat (length fp))))%Q.

(** ** Keywords as patterns

    [new RegExp(keyword, 'gi')] reads the keyword as a pattern. The patterns
    in which every character is either an ordinary character (it matches
    itself, ignoring case) or a dot (it matches any character but a line
    terminator) are modelled here; the platform answers for the others. *)
Definition is_syntax_char (c : ascii) : bool :=
  existsb (ascii_eqb c) (chars "^$\.*+?()[]{}|").

Definition pattern_atom (c : ascii) : regex :=
  if ascii_eqb c "."%char then Chr dot else lit_i c.

Definition keyword_regex (keyword : string) : option regex :=
  if forallb (fun c => ascii_eqb c "."%char || negb (is_syntax_char c)) (chars keyword)
  then Some (word pattern_atom (chars keyword))
  else None.

(** A label: characters without a dot. *)
Definition dot_free (l : list ascii) : Prop :=
  forallb (fun c => negb (ascii_eqb c "."%char)) l = true.

(** A keyword without any of the syntax characters of patterns. *)
Definition ordinary (keyword : string) : Prop :=
  forallb (fun c => negb (is_syntax_char c)) (chars keyword) = true.

(** The ports of the scan, in the order of the loop. *)
Definition ports : list Z :=
  [21; 22; 23; 25; 53; 80; 110; 143; 443; 993; 995; 3306; 5432; 8080].

(** ** The probes and the aggregator  (class [ComprehensiveMonitor]) *)

Section Probes.

Variable w : World.

(** Lines 124-163. *)
Definition monitorWebsiteStatus (url : string) (result : MonitoringResult)
  : Completion MonitoringResult :=
  try_catch
    (let startTime := performance_now (perf_start w) in
     response ← fetch_status w url;
     let endTime := performance_now (perf_end w) in
     let responseTime := Number_sub endTime startTime in
     let result :=
       set_websiteMonitoring
         {| wm_status := if ok response then online else offline;
            wm_statusCode := Some (status response);
            wm_error := None |} result in
     mret (set_responseTime
             {| rt_value := round responseTime;
                rt_status := latency_status responseTime |} result))
    (fun e =>
       let result :=
         set_websiteMonitoring
           (website_error (Some (message_or e "Unknown error"))) result in
       mret (set_responseTime {| rt_value := 0; rt_status := critical |} result)).

(** [promise.catch(() => [])] *)
Definition or_empty {A} (c : Completion (list A)) : list A :=
  match c with
  | Normal l => l
  | Throw _ => []
  end.

(** Lines 165-192. *)
Definition monitorDNS (url : string) (result : MonitoringResult)
  : Completion MonitoringResult :=
  try_catch
    (u ← URL_parse w url;
     let hostname := hostname u in
     let aRecords := or_empty (resolve4 w hostname) in
     let mxRecords := or_empty (resolveMx w hostname) in
     let txtRecords := or_empty (resolveTxt w hostname) in
     let nsRecords := or_empty (resolveNs w hostname) in
     mret (set_dnsMonitoring
             {| dns_status := resolved;
                dns_records :=
                  Some {| dns_A := aRecords;
                          dns_MX := map exchange mxRecords;
                          dns_TXT := concat txtRecords;
                          dns_NS := nsRecords |};
                dns_error := None |} result))
    (fun e =>
       mret (set_dnsMonitoring
               (dns_failure (Some (message_or e "DNS resolution failed"))) result)).

(** Lines 194-240. The status and the day count are pure expressions; the
    first effect after the connection is [validFrom.toISOString()]. *)
Definition monitorSSL (url : string) (result : MonitoringResult)
  : Completion MonitoringResult :=
  try_catch
    (u ← URL_parse w url;
     let hostname := hostname u in
     u' ← URL_parse w url;
     let port := or_string (Some (port u')) "443" in
     certificate ← tls_connect w hostname (parseInt port);
     let now := now_ssl w in
     let validFrom := new_Date (Date_parse w) (valid_from certificate) in
     let validTo := new_Date (Date_parse w) (valid_to certificate) in
     validFromISO ← toISOString validFrom;
     validToISO ← toISOString validTo;
     let daysUntilExpiry := daysUntil validToISO now in
     mret (set_sslMonitoring
             {| ssl_status := expiry_status daysUntilExpiry;
                ssl_certificate :=
                  Some {| cert_issuer := or_string (issuer_CN certificate) "Unknown";
                          cert_validFrom := validFromISO;
                          cert_validTo := validToISO;
                          cert_daysUntilExpiry := daysUntilExpiry |};
                ssl_error := None |} result))
    (fun e =>
       mret (set_sslMonitoring
               (ssl_failure (Some (message_or e "SSL check failed"))) result)).

(** Step 1 of the domain check, lines 250-256: the domain the suffix list
    gives, or else the last two labels. *)
Definition registrable_domain (hostname : string) : string :=
  if truthy (psl_domain w hostname)
  then default "" (psl_domain w hostname)
  else last_two_labels hostname.

(** Step 2 of the domain check, lines 289-317: the registry answer, with
    every failure swallowed. *)
Definition rdap_expiry (domain : string) : Completion (option string) :=
  try_catch
    (rdapResp ← fetch_rdap w ("https://rdap.org/domain/" +:+ domain);
     if rdap_ok rdapResp then
       match rdap_events rdapResp with
       | Some events =>
           expEvent ← find_expiry_event events;
           match expEvent with
           | Some e =>
               if truthy (eventDate e)
               then mret (Some (trim (default "" (eventDate e))))
               else mret None
           | None => mret None
           end
       | None => mret None
       end
     else mret None)
    (fun _ => mret None).

(** Step 3, lines 320-365: either the entry of the early [return], or the
    expiry string. *)
Definition whois_expiry (domain : string) : Completion (DomainExpiration + string) :=
  '(stdout, stderr) ← exec_whois w ("whois " +:+ domain);
  let whoisText := stdout +:+ String LF "" +:+ stderr in
  let expiryStr := whois_candidate whoisText in
  if truthy expiryStr then mret (inr (default "" expiryStr))
  else mret (inl (domain_failure
                    (Some ("Could not find expiry date in RDAP or WHOIS output; sample WHOIS start: "
                           +:+ str (take 800 (chars whoisText)))))).

(** Lines 245-391. *)
Definition monitorDomainExpiration (url : string) (result : MonitoringResult)
  : Completion MonitoringResult :=
  try_catch
    (u ← URL_parse w url;
     let hostname := hostname u in
     let domain := registrable_domain hostname in
     expiryStr ← rdap_expiry domain;
     lookup ← (if truthy expiryStr then mret (inr (default "" expiryStr))
               else whois_expiry domain);
     match lookup with
     | inl entry => mret (set_domainExpiration entry result)
     | inr expiryStr =>
         match parseDateString (Date_parse w) expiryStr with
         | None =>
             mret (set_domainExpiration
                     (domain_failure
                        (Some ("Found expiry string but could not parse it: "
                              +:+ String DQ expiryStr +:+ String DQ "")))
                     result)
         | Some expiryDate =>
             let now := now_domain w in
             let daysUntilExpiry := daysUntil expiryDate now in
             expiryISO ← toISOString (Some expiryDate);
             mret (set_domainExpiration
                     {| de_status := expiry_status daysUntilExpiry;
                        de_expiryDate := Some expiryISO;
                        de_daysUntilExpiry := Some daysUntilExpiry;
                        de_error := None |} result)
         end
     end)
    (fun e =>
       mret (set_domainExpiration
               (domain_failure (Some (message_or e "Domain expiration check failed")))
               result)).

(** The body of the loop of [monitorPorts], lines 399-430: one connection
    attempt inside its own [try]. *)
Definition scan_port (hostname : string) (result : MonitoringResult) (port : Z)
  : Completion MonitoringResult :=
  try_catch
    (match net_connect w port hostname with
     | Connected startTime endTime =>
         mret (set_port port
                 {| port_status := open;
                    port_responseTime :=
                      Some (round (Number_sub (performance_now endTime)
                                     (performance_now startTime))) |} result)
     | SocketError =>
         mret (set_port port {| port_status := closed; port_responseTime := None |} result)
     | SocketTimeout =>
         mret (set_port port {| port_status := timeout; port_responseTime := None |} result)
     | Rejected e => Throw e
     end)
    (fun _ =>
       mret (set_port port {| port_status := error; port_responseTime := None |} result)).

(** [for (const x of l) { ... }] threading the report. *)
Fixpoint for_of {A} (body : MonitoringResult -> A -> Completion MonitoringResult)
    (l : list A) (result : MonitoringResult) : Completion MonitoringResult :=
  match l with
  | [] => mret result
  | x :: l' => result' ← body result x; for_of body l' result'
  end.

(** Lines 394-432: the URL is parsed before the loop, outside every [try]. *)
Definition monitorPorts (url : string) (result : MonitoringResult)
  : Completion MonitoringResult :=
  u ← URL_parse w url;
  let hostname := hostname u in
  for_of (scan_port hostname) ports result.

(** Lines 434-458. *)
Definition monitorPing (url : string) (result : MonitoringResult)
  : Completion MonitoringResult :=
  try_catch
    (u ← URL_parse w url;
     let hostname := hostname u in
     stdout ← exec_ping w ("ping -c 1 " +:+ hostname);
     match exec ping_re stdout with
     | Some (_, _, m) =>
         mret (set_pingMonitoring
                 {| ping_status := success;
                    ping_responseTime := Some (parseFloat (default [] (group 1 m)));
                    ping_error := None |} result)
     | None =>
         mret (set_pingMonitoring
                 {| ping_status := failed; ping_responseTime := None;
                    ping_error := None |} result)
     end)
    (fun e =>
       mret (set_pingMonitoring
               (ping_failure (Some (message_or e "Ping failed"))) result)).

(** [(content.match(new RegExp(keyword, 'gi')) || []).length] *)
Definition count_occurrences (keyword content : string) : Completion nat :=
  match keyword_regex keyword with
  | Some re => Normal (count_matches re (chars content) 0)
  | None => RegExp_count w keyword content
  end.

(** Lines 460-496. *)
Definition monitorKeyword (url keyword : string) (result : MonitoringResult)
  : Completion MonitoringResult :=
  try_catch
    (response ← fetch_keyword w url;
     if negb (ok response) then
       mret (set_keywordMonitoring
               (keyword_failure
                  (Some ("HTTP " +:+ show (status response) +:+ ": "
                         +:+ statusText response))) result)
     else
       content ← text_ response;
       occurrences ← count_occurrences keyword content;
       mret (set_keywordMonitoring
               {| kw_status := if (0 <? occurrences)%nat then found else not_found;
                  kw_keyword := Some keyword;
                  kw_occurrences := Some occurrences;
                  kw_error := None |} result))
    (fun e =>
       mret (set_keywordMonitoring
               (keyword_failure (Some (message_or e "Keyword monitoring failed")))
               result)).

(** The report as [monitorWebsite] creates it, lines 86-96. *)
Definition initial_result (url : string) : MonitoringResult :=
  {| url := url;
     timestamp := now_timestamp w;
     websiteMonitoring := website_error None;
     responseTime := {| rt_value := 0; rt_status := critical |};
     dnsMonitoring := dns_failure None;
     sslMonitoring := ssl_failure None;
     domainExpiration := domain_failure None;
     portMonitoring := ∅;
     pingMonitoring := ping_failure None;
     keywordMonitoring := None |}.

(** Lines 85-122. *)
Definition monitorWebsite (url : string) (keyword : option string)
  : Completion MonitoringResult :=
  let result := initial_result url in
  result ← monitorWebsiteStatus url result;
  result ← monitorDNS url result;
  result ← monitorSSL url result;
  result ← monitorDomainExpiration url result;
  result ← monitorPorts url result;
  result ← monitorPing url result;
  result ← (if truthy keyword
            then monitorKeyword url (default "" keyword) result
            else mret result);
  mret result.

End Probes.

(** The status vocabulary of each category. *)
Definition website_statuses : list Status := [online; offline; error].
Definition latency_statuses : list Status := [good; warning; critical].
Definition dns_statuses : list Status := [resolved; error].
Definition expiry_statuses : list Status := [valid; expiring_soon; expired; error].
Definition port_statuses : list Status := [open; closed; timeout; error].
Definition ping_statuses : list Status := [success; failed; error].
Definition keyword_statuses : list Status := [found; not_found; error].

(** The entry a port gets for what happened on its socket. *)
Definition port_entry (o : SocketOutcome) : PortEntry :=
  match o with
  | Connected startTime endTime =>
      {| port_status := open;
         port_responseTime :=
           Some (round (Number_sub (performance_now endTime)
                          (performance_now startTime))) |}
  | SocketError => {| port_status := closed; port_responseTime := None |}
  | SocketTimeout => {| port_status := timeout; port_responseTime := None |}
  | Rejected _ => {| port_status := error; port_responseTime := None |}
  end.

(** The last step of [monitorWebsite]: the keyword entry is written when
    [keyword] is truthy. *)
Definition with_keyword (keyword : option string) (entry : KeywordMonitoring)
    (result : MonitoringResult) : MonitoringResult :=
  if truthy keyword then set_keywordMonitoring entry result else result.

(** The same world with another answer of the [whois] command. *)
Definition with_whois (answer : string -> Completion (string * string)) (w : World)
  : World :=
  {| URL_parse := URL_parse w; Date_parse := Date_parse w; psl_domain := psl_domain w;
     RegExp_count := RegExp_count w; now_timestamp := now_timestamp w;
     now_ssl := now_ssl w; now_domain := now_domain w; perf_start := perf_start w;
     perf_end := perf_end w; fetch_status := fetch_status w; resolve4 := resolve4 w;
     resolveMx := resolveMx w; resolveTxt := resolveTxt w; resolveNs := resolveNs w;
     tls_connect := tls_connect w; fetch_rdap := fetch_rdap w;
     exec_whois := answer; net_connect := net_connect w; exec_ping := exec_ping w;
     fetch_keyword := fetch_keyword w |}.

(** The report after the loop of [monitorPorts] over the ports [l]. *)
Definition scan_all (w : World) (hostname : string) (l : list Z)
    (result : MonitoringResult) : MonitoringResult :=
  fold_left (fun r p => set_port p (port_entry (net_connect w p hostname)) r) l result.

End Monitor.

(** ** The scheduler  (class [ScheduledMonitor]) *)

Module Scheduled.
Import JS Monitor.

Record Smtp : Type := {
  smtp_host : string;
  smtp_port : Z;
  smtp_secure : bool;
  smtp_user : string;
  smtp_pass : string }.

Record EmailNotifications : Type := {
  enabled : bool;
  recipients : list string;
  smtp : Smtp }.

(** The interface declares three numbers; a configuration arrives as JSON and
    may lack any of them, which the guards of [checkAlerts] allow for. *)
Record AlertThresholds : Type := {
  th_responseTime : option Z;
  th_sslExpiryDays : option Z;
  th_domainExpiryDays : option Z }.

Record MonitoringConfig : Type := {
  cfg_url : string;
  cfg_keyword : option string;
  schedule : string;
  emailNotifications : option EmailNotifications;
  alertThresholds : option AlertThresholds }.

Record MonitoringJob : Type := {
  id : string;
  config : MonitoringConfig;
  lastRun : option Z;
  lastResult : option MonitoringResult;
  isActive : bool }.

(** A call of [transporter.sendMail]; of the HTML body only the alerts it
    lists are kept. *)
Record Mail : Type := {
  mail_from : string;
  mail_to : list string;
  mail_subject : string;
  mail_alerts : list string }.

(** A call of [runJob] that waits for its probe run. *)
Record Execution : Type := {
  ex_job : nat;
  ex_url : string;
  ex_keyword : option string }.

(** The state of the scheduler. Job objects live in [heap] and are referred
    to by their index: the map [jobs] and the callbacks of the cron tasks hold
    references to them, so that a change of [isActive] is seen by both.
    [tasks] are the cron tasks registered so far (none is ever stopped),
    [running] the executions in flight, [outbox] the mails handed to the
    transport. *)
Record Scheduler : Type := {
  heap : list MonitoringJob;
  jobs : gmap string nat;
  tasks : list (string * nat);
  running : list Execution;
  outbox : list Mail }.

Definition empty_scheduler : Scheduler :=
  {| heap := []; jobs := ∅; tasks := []; running := []; outbox := [] |}.

Definition set_heap (v : list MonitoringJob) (s : Scheduler) : Scheduler :=
  {| heap := v; jobs := jobs s; tasks := tasks s; running := running s;
     outbox := outbox s |}.
Definition set_jobs (v : gmap string nat) (s : Scheduler) : Scheduler :=
  {| heap := heap s; jobs := v; tasks := tasks s; running := running s;
     outbox := outbox s |}.
Definition set_tasks (v : list (string * nat)) (s : Scheduler) : Scheduler :=
  {| heap := heap s; jobs := jobs s; tasks := v; running := running s;
     outbox := outbox s |}.
Definition set_running (v : list Execution) (s : Scheduler) : Scheduler :=
  {| heap := heap s; jobs := jobs s; tasks := tasks s; running := v;
     outbox := outbox s |}.
Definition set_outbox (v : list Mail) (s : Scheduler) : Scheduler :=
  {| heap := heap s; jobs := jobs s; tasks := tasks s; running := running s;
     outbox := v |}.

(** [job.isActive = false] *)
Definition deactivate (job : MonitoringJob) : MonitoringJob :=
  {| id := id job; config := config job; lastRun := lastRun job;
     lastResult := lastResult job; isActive := false |}.

(** [job.lastRun = new Date(); job.lastResult = result] *)
Definition record_run (now : Z) (result : MonitoringResult) (job : MonitoringJob)
  : MonitoringJob :=
  {| id := id job; config := config job; lastRun := Some now;
     lastResult := Some result; isActive := isActive job |}.

(** *** The alert rules  (checkAlerts, lines 121-169) *)

(** Truthiness of a number that may be missing. *)
Definition truthy_num (x : option Z) : bool :=
  match x with
  | Some n => negb (n =? 0)
  | None => false
  end.

Definition threshold (f : AlertThresholds -> option Z) (config : MonitoringConfig)
  : option Z :=
  alertThresholds config ≫= f.

Definition ssl_days (result : MonitoringResult) : option Z :=
  cert_daysUntilExpiry <$> ssl_certificate (sslMonitoring result).

Definition domain_days (result : MonitoringResult) : option Z :=
  de_daysUntilExpiry (domainExpiration result).

Definition status_is (a b : Status) : bool := bool_decide (a = b).

(** [if (cond) alerts.push(msg)] *)
Definition push_if (cond : bool) (msg : string) (alerts : list string) : list string :=
  if cond then alerts ++ [msg] else alerts.

(** The array [alerts] when the six [if] statements have run. *)
Definition alerts_of (config : MonitoringConfig) (result : MonitoringResult)
  : list string :=
  let alerts := [] in
  let alerts :=
    push_if (truthy_num (threshold th_responseTime config)
             && (default 0 (threshold th_responseTime config)
                 <? rt_value (responseTime result)))
      ("Response time " +:+ show (rt_value (responseTime result))
       +:+ "ms exceeds threshold of "
       +:+ show (default 0 (threshold th_responseTime config)) +:+ "ms")
      alerts in
  let alerts :=
    push_if (truthy_num (threshold th_sslExpiryDays config)
             && truthy_num (ssl_days result)
             && (default 0 (ssl_days result)
                 <=? default 0 (threshold th_sslExpiryDays config)))
      ("SSL certificate expires in " +:+ show (default 0 (ssl_days result)) +:+ " days")
      alerts in
  let alerts :=
    push_if (truthy_num (threshold th_domainExpiryDays config)
             && truthy_num (domain_days result)
             && (default 0 (domain_days result)
                 <=? default 0 (threshold th_domainExpiryDays config)))
      ("Domain expires in " +:+ show (default 0 (domain_days result)) +:+ " days")
      alerts in
  let alerts :=
    push_if (negb (status_is (wm_status (websiteMonitoring result)) online))
      ("Website is " +:+ status_string (wm_status (websiteMonitoring result)))
      alerts in
  let alerts :=
    push_if (status_is (ssl_status (sslMonitoring result)) expired)
      "SSL certificate has expired" alerts in
  let alerts :=
    push_if (status_is (de_status (domainExpiration result)) expired)
      "Domain has expired" alerts in
  alerts.

(** [config.emailNotifications?.enabled] *)
Definition notifications_enabled (config : MonitoringConfig) : bool :=
  match emailNotifications config with
  | Some n => enabled n
  | None => false
  end.

(** [sendAlertEmail], lines 171-209: the mail is handed to the transport; a
    failure of the transport is logged and goes no further. *)
Definition sendAlertEmail (job : MonitoringJob) (result : MonitoringResult)
    (alerts : list string) (s : Scheduler) : Scheduler :=
  match emailNotifications (config job) with
  | Some n =>
      set_outbox
        (outbox s ++
         [{| mail_from := smtp_user (smtp n);
             mail_to := recipients n;
             mail_subject := "Website Monitoring Alert - " +:+ url result;
             mail_alerts := alerts |}]) s
  | None => s
  end.

Definition checkAlerts (job : MonitoringJob) (result : MonitoringResult)
    (s : Scheduler) : Scheduler :=
  let config := config job in
  if negb (notifications_enabled config) then s
  else
    let alerts := alerts_of config result in
    if (0 <? length alerts)%nat then sendAlertEmail job result alerts s else s.

(** *** The operations *)

(** What the caller of an operation, or the owner of a promise, observes. *)
Inductive Outcome : Type :=
| Returned                                   (* the operation returned *)
| Threw (e : Thrown)                         (* the operation threw *)
| Pending                                    (* [runJob] was called and waits *)
| Inactive                                   (* the cron callback found its job inactive *)
| Null                                       (* [runJobNow] returned [null] *)
| Settled (c : Completion MonitoringResult)  (* the promise of [runJob] settled *)
| Nothing.                                   (* no such task or execution *)

(** The cron library: whether it accepts an expression, and what
    [cron.schedule] throws on one that it does not accept. *)
Record Cron : Type := {
  valid_expression : string -> bool;
  schedule_error : string -> Thrown }.

Section Operations.

Variable cron : Cron.

(** Lines 53-73. The callback of the new task keeps a reference to the new
    job object. *)
Definition addJob (id : string) (config : MonitoringConfig) (s : Scheduler)
  : Scheduler * Outcome :=
  let job := {| id := id; config := config; lastRun := None; lastResult := None;
                isActive := true |} in
  let ref := length (heap s) in
  let s := set_heap (heap s ++ [job]) s in
  let s := set_jobs (<[id := ref]> (jobs s)) s in
  if valid_expression cron (schedule config)
  then (set_tasks (tasks s ++ [(schedule config, ref)]) s, Returned)
  else (s, Threw (schedule_error cron (schedule config))).

(** Lines 75-82. *)
Definition removeJob (id : string) (s : Scheduler) : Scheduler :=
  match jobs s !! id with
  | Some ref =>
      let s := set_heap (alter deactivate ref (heap s)) s in
      set_jobs (delete id (jobs s)) s
  | None => s
  end.

(** Lines 84-86. *)
Definition getJob (id : string) (s : Scheduler) : option MonitoringJob :=
  jobs s !! id ≫= fun ref => heap s !! ref.

(** Lines 211-217. *)
Definition getJobStatus (id : string) (s : Scheduler) : option MonitoringJob * bool :=
  (getJob id s,
   match getJob id s with
   | Some job => isActive job
   | None => false
   end).

(** Lines 219-228. *)
Definition updateJobConfig (id : string) (config : MonitoringConfig) (s : Scheduler)
  : Scheduler * Outcome :=
  match jobs s !! id with
  | Some ref =>
      let s := set_heap (alter deactivate ref (heap s)) s in
      addJob id config s
  | None => (s, Returned)
  end.

(** [runJob], lines 101-119, up to its [await]: the probe run is started on
    the URL and keyword of the job. *)
Definition runJob_call (ref : nat) (job : MonitoringJob) (s : Scheduler) : Scheduler :=
  set_running
    (running s ++
     [{| ex_job := ref; ex_url := cfg_url (config job);
         ex_keyword := cfg_keyword (config job) |}]) s.

(** [runJob] from its [await] on, given how the probe run settled. *)
Definition runJob_resume (ref : nat) (outcome : Completion MonitoringResult)
    (now : Z) (s : Scheduler) : Scheduler * Completion MonitoringResult :=
  match outcome with
  | Normal result =>
      let s := set_heap (alter (record_run now result) ref (heap s)) s in
      match heap s !! ref with
      | Some job => (checkAlerts job result s, Normal result)
      | None => (s, Normal result)
      end
  | Throw e => (s, Throw e)
  end.

(** The callback of a cron task, lines 63-67. *)
Definition cron_callback (ref : nat) (s : Scheduler) : Scheduler * Outcome :=
  match heap s !! ref with
  | Some job => if isActive job then (runJob_call ref job s, Pending) else (s, Inactive)
  | None => (s, Nothing)
  end.

(** Lines 92-99. *)
Definition runJobNow (id : string) (s : Scheduler) : Scheduler * Outcome :=
  match jobs s !! id with
  | Some ref =>
      match heap s !! ref with
      | Some job => if isActive job then (runJob_call ref job s, Pending) else (s, Null)
      | None => (s, Null)
      end
  | None => (s, Null)
  end.

(** *** The event loop

    The process runs one callback at a time; callbacks interleave at each
    [await]. An event is a call of the public interface, the firing of a
    registered cron task, or the settling of the probe run an execution waits
    for (in the world of that run, at the time the clock then shows). *)
Inductive Event : Type :=
| AddJob (id : string) (config : MonitoringConfig)
| RemoveJob (id : string)
| UpdateJobConfig (id : string) (config : MonitoringConfig)
| RunJobNow (id : string)
| Tick (k : nat)
| Settle (n : nat) (w : World) (now : Z).

Definition step (s : Scheduler) (ev : Event) : Scheduler * Outcome :=
  match ev with
  | AddJob id config => addJob id config s
  | RemoveJob id => (removeJob id s, Returned)
  | UpdateJobConfig id config => updateJobConfig id config s
  | RunJobNow id => runJobNow id s
  | Tick k =>
      match tasks s !! k with
      | Some (_, ref) => cron_callback ref s
      | None => (s, Nothing)
      end
  | Settle n w now =>
      match running s !! n with
      | Some ex =>
          let s := set_running (delete n (running s)) s in
          let '(s, c) :=
            runJob_resume (ex_job ex)
              (monitorWebsite w (ex_url ex) (ex_keyword ex)) now s in
          (s, Settled c)
      | None => (s, Nothing)
      end
  end.

Definition run_events (s : Scheduler) (evs : list Event) : Scheduler :=
  fold_left (fun s ev => fst (step s ev)) evs s.

(** The executions of the job registered as [id] that are in flight. *)
Definition executes (s : Scheduler) (id_ : string) (ex : Execution) : bool :=
  match heap s !! ex_job ex with
  | Some job => String.eqb (id job) id_
  | None => false
  end.

Definition in_flight (id_ : string) (s : Scheduler) : nat :=
  length (filter (fun ex => executes s id_ ex = true) (running s)).

(** The cron tasks of [id] whose callback still runs its job. *)
Definition live (s : Scheduler) (id_ : string) (task : string * nat) : bool :=
  match heap s !! task.2 with
  | Some job => isActive job && String.eqb (id job) id_
  | None => false
  end.

Definition live_triggers (id_ : string) (s : Scheduler) : list (string * nat) :=
  filter (fun task => live s id_ task = true) (tasks s).

(** Every task refers to a job object. *)
Definition well_formed (s : Scheduler) : Prop :=
  Forall (fun task : string * nat => (task.2 < length (heap s))%nat) (tasks s).

End Operations.

(** What holds of the registry in every state the operations lead to: an id
    of the map refers to a job object that carries this id and is active. *)
Definition registry_invariant (s : Scheduler) : Prop :=
  forall (id_ : string) (ref : nat),
    jobs s !! id_ = Some ref ->
    exists job, heap s !! ref = Some job /\ id job = id_ /\ isActive job = true.

End Scheduled.

(** ** The HTTP handlers that call the monitor and the scheduler *)

Module Api.
Import JS Monitor Scheduled.

(** The JSON bodies the handlers send. *)
Inductive Body : Type :=
| ErrorBody (error_ : string) (details : option string)
| MessageBody (message jobId : string)
| ReportBody (result : MonitoringResult).

(** [res.status(code).json(body)] *)
Record ApiResponse : Type := {
  http_status : Z;
  body : Body }.

(** [error.message] of a caught value. *)
Definition thrown_message (e : Thrown) : option string :=
  match e with
  | ErrorObj m => Some m
  | OtherThrown => None
  end.

(** The handler of [pages/api/status.ts]: the request method and the
    [x-monitor-url] header are its input. *)
Definition status_handler (w : World) (method : string) (x_monitor_url : option string)
  : ApiResponse :=
  if negb (String.eqb method "GET")
  then {| http_status := 405; body := ErrorBody "Method not allowed" None |}
  else if negb (truthy x_monitor_url)
  then {| http_status := 400;
          body := ErrorBody "URL is required in x-monitor-url header" None |}
  else
    let url := default "" x_monitor_url in
    match URL_parse w url with
    | Throw _ => {| http_status := 400; body := ErrorBody "Invalid URL format" None |}
    | Normal _ =>
        match monitorWebsite w url None with
        | Normal result => {| http_status := 200; body := ReportBody result |}
        | Throw e =>
            {| http_status := 500;
               body := ErrorBody (or_string (thrown_message e) "Failed to monitor website")
                         None |}
        end
    end.

Section JobHandlers.

Variable cron : Cron.

(** [handleAddJob] of [pages/api/scheduled-monitor.ts]: [id] and [config] are
    the fields of the request body. A configuration whose [url] or [schedule]
    is missing is one in which it is the empty string: both are falsy. *)
Definition handleAddJob (id_ : option string) (config_ : option MonitoringConfig)
    (s : Scheduler) : Scheduler * ApiResponse :=
  match id_, config_ with
  | Some i, Some c =>
      if String.eqb i "" || String.eqb (cfg_url c) "" || String.eqb (schedule c) ""
      then (s, {| http_status := 400;
                  body := ErrorBody "Missing required fields: id, config.url, and config.schedule are required" None |})
      else
        match addJob cron i c s with
        | (s', Threw e) =>
            (s', {| http_status := 500;
                    body := ErrorBody "Failed to add monitoring job" (thrown_message e) |})
        | (s', _) =>
            (s', {| http_status := 201;
                    body := MessageBody "Monitoring job added successfully" i |})
        end
  | _, _ =>
      (s, {| http_status := 400;
             body := ErrorBody "Missing required fields: id, config.url, and config.schedule are required" None |})
  end.

(** [handleUpdateJob]: [id] is the query parameter when it is a string,
    [config] the field of the body. *)
Definition handleUpdateJob (id_ : option string) (config_ : option MonitoringConfig)
    (s : Scheduler) : Scheduler * ApiResponse :=
  if negb (truthy id_)
  then (s, {| http_status := 400; body := ErrorBody "Job ID is required" None |})
  else
    match config_ with
    | None => (s, {| http_status := 400; body := ErrorBody "Config is required" None |})
    | Some c =>
        match updateJobConfig cron (default "" id_) c s with
        | (s', Threw e) =>
            (s', {| http_status := 500;
                    body := ErrorBody "Failed to update monitoring job" (thrown_message e) |})
        | (s', _) =>
            (s', {| http_status := 200;
                    body := MessageBody "Monitoring job updated successfully"
                              (default "" id_) |})
        end
    end.

(** [handleRemoveJob]: [id] is the query parameter when it is a string. *)
Definition handleRemoveJob (id_ : option string) (s : Scheduler)
  : Scheduler * ApiResponse :=
  if negb (truthy id_)
  then (s, {| http_status := 400; body := ErrorBody "Job ID is required" None |})
  else
    (removeJob (default "" id_) s,
     {| http_status := 200;
        body := MessageBody "Monitoring job removed successfully" (default "" id_) |}).

End JobHandlers.

End Api.

(** ** The rules of the design document, in its words *)

Module Design.
Import JS Monitor Scheduled.

(** The alert rules as the document lists them: each rule on its own, all of
    them evaluated, in the order given. *)
Definition latency_rule (th : option AlertThresholds) (result : MonitoringResult)
  : list string :=
  match th ≫= th_responseTime with
  | Some max =>
      if max <? rt_value (responseTime result)
      then ["Response time " +:+ show (rt_value (responseTime result))
            +:+ "ms exceeds threshold of " +:+ show max +:+ "ms"]
      else []
  | None => []
  end.

Definition ssl_days_rule (th : option AlertThresholds) (result : MonitoringResult)
  : list string :=
  match th ≫= th_sslExpiryDays, ssl_days result with
  | Some min, Some days =>
      if days <=? min then ["SSL certificate expires in " +:+ show days +:+ " days"]
      else []
  | _, _ => []
  end.

Definition domain_days_rule (th : option AlertThresholds) (result : MonitoringResult)
  : list string :=
  match th ≫= th_domainExpiryDays, domain_days result with
  | Some min, Some days =>
      if days <=? min then ["Domain expires in " +:+ show days +:+ " days"]
      else []
  | _, _ => []
  end.

Definition availability_rule (result : MonitoringResult) : list string :=
  if decide (wm_status (websiteMonitoring result) = online) then []
  else ["Website is " +:+ status_string (wm_status (websiteMonitoring result))].

Definition ssl_expired_rule (result : MonitoringResult) : list string :=
  if decide (ssl_status (sslMonitoring result) = expired)
  then ["SSL certificate has expired"] else [].

Definition domain_expired_rule (result : MonitoringResult) : list string :=
  if decide (de_status (domainExpiration result) = expired)
  then ["Domain has expired"] else [].

Definition evaluator (th : option AlertThresholds) (result : MonitoringResult)
  : list string :=
  latency_rule th result ++ ssl_days_rule th result ++ domain_days_rule th result
  ++ availability_rule result ++ ssl_expired_rule result
  ++ domain_expired_rule result.

(** The occurrences of a keyword in a text, ignoring case: the positions at
    which the text continues with the keyword. *)
Fixpoint starts_with_i (kw s : list ascii) : bool :=
  match kw, s with
  | [], _ => true
  | k :: kw', c :: s' => ci_eq k c && starts_with_i kw' s'
  | _ :: _, [] => false
  end.

Fixpoint occurrences_i (kw s : list ascii) : nat :=
  match s with
  | [] => 0
  | _ :: s' => (if starts_with_i kw s then 1 else 0) + occurrences_i kw s'
  end.

(** A threshold that is set to zero counts as not configured: the guards
    of [checkAlerts] test the number itself. *)
Definition nonzero (x : option Z) : option Z :=
  match x with
  | Some 0 => None
  | _ => x
  end.

Definition configured (th : option AlertThresholds) : option AlertThresholds :=
  match th with
  | Some t =>
      Some {| th_responseTime := nonzero (th_responseTime t);
              th_sslExpiryDays := nonzero (th_sslExpiryDays t);
              th_domainExpiryDays := nonzero (th_domainExpiryDays t) |}
  | None => None
  end.

End Design.

(** ** Worlds and configurations for the examples *)

Module Examples.
Import JS Dates Monitor Scheduled.

(** A small URL parser for the examples: [http(s)://host[:port][/...]];
    anything else is an invalid URL. *)
Definition is_host_char (c : ascii) : bool :=
  is_lower c || is_digit c || (code c =? 45) || (code c =? 46).

Definition url_re : regex :=
  seq_re [Alt (text "https") (text "http"); text "://"; Grp 1 (plus is_host_char);
          Alt (Cat (lit ":") (Grp 2 (plus is_digit))) Eps;
          Alt Eoi (lit "/")].

Definition simple_URL (s : string) : Completion Url :=
  match match_at url_re (chars s) with
  | Some (_, m) =>
      Normal {| hostname := str (default [] (group 1 m));
                port := str (default [] (group 2 m)) |}
  | None => Throw (ErrorObj "Invalid URL")
  end.

(** 2025-01-01T00:00:00Z *)
Definition new_year_2025 : Z := 1735689600000.

(** A platform parser: the date-time string format, and the two certificate
    dates of the examples in the format certificates carry them. *)
Definition example_Date_parse (s : string) : option Z :=
  match ES_date_time s with
  | Some t => Some t
  | None =>
      if String.eqb s "Jul 20 00:00:00 2025 GMT" then Some 1752969600000
      else if String.eqb s "Jan  1 00:00:00 2024 GMT" then Some 1704067200000
      else None
  end.

(** A platform parser that, as the engines in use do, also reads a day, a
    month name and a year, and reads them as local time: the parser of a
    process whose zone is [offset] milliseconds east of UTC. *)
Definition local_parser (offset : Z) (s : string) : option Z :=
  match ES_date_time s with
  | Some t => Some t
  | None =>
      match match_at (Cat day_month_year_re Eoi) (chars s), day_month_year_iso s with
      | Some _, Some iso => (fun t => t - offset) <$> ES_date_time iso
      | _, _ => None
      end
  end.

Definition example_whois : string :=
  "Domain Name: EXAMPLE.COM" +:+ String LF ""
  +:+ "Registry Expiry Date: 2025-01-11T00:00:00Z" +:+ String LF "".

(** The host of the examples: a certificate that ends in 200 days, a
    registration that ends in 10 days, port 443 open and the others closed, a
    ping of 12.5 ms, and the given answers to the two page requests (the
    first one between the readings 40.003 and 190.503 of the clock). *)
Definition world_of (page keyword_page : Completion Response) : World :=
  {| URL_parse := simple_URL;
     Date_parse := example_Date_parse;
     psl_domain := fun _ => Some "example.com";
     RegExp_count := fun _ _ => Throw (ErrorObj "Invalid regular expression");
     now_timestamp := new_year_2025;
     now_ssl := new_year_2025;
     now_domain := new_year_2025;
     perf_start := 40003 # 1000;
     perf_end := 190503 # 1000;
     fetch_status := fun _ => page;
     resolve4 := fun _ => Normal ["93.184.216.34"];
     resolveMx := fun _ => Throw (ErrorObj "queryMx ENODATA");
     resolveTxt := fun _ => Normal [["v=spf1"; "-all"]];
     resolveNs := fun _ => Normal ["a.iana-servers.net"];
     tls_connect := fun _ _ =>
       Normal {| issuer_CN := Some "Example CA";
                 valid_from := Some "Jan  1 00:00:00 2024 GMT";
                 valid_to := Some "Jul 20 00:00:00 2025 GMT" |};
     fetch_rdap := fun _ => Throw (ErrorObj "getaddrinfo ENOTFOUND rdap.org");
     exec_whois := fun _ => Normal (example_whois, "");
     net_connect := fun port _ =>
       if port =? 443 then Connected (10 # 1) (71 # 2) else SocketError;
     exec_ping := fun _ => Normal "64 bytes from 93.184.216.34: icmp_seq=1 ttl=56 time=12.5 ms";
     fetch_keyword := fun _ => keyword_page |}.

(** The same world with another outcome of the TLS connection, and with
    another answer of the registry. *)
Definition with_tls (answer : Completion PeerCertificate) (w : World) : World :=
  {| URL_parse := URL_parse w; Date_parse := Date_parse w; psl_domain := psl_domain w;
     RegExp_count := RegExp_count w; now_timestamp := now_timestamp w;
     now_ssl := now_ssl w; now_domain := now_domain w; perf_start := perf_start w;
     perf_end := perf_end w; fetch_status := fetch_status w; resolve4 := resolve4 w;
     resolveMx := resolveMx w; resolveTxt := resolveTxt w; resolveNs := resolveNs w;
     tls_connect := fun _ _ => answer; fetch_rdap := fetch_rdap w;
     exec_whois := exec_whois w; net_connect := net_connect w; exec_ping := exec_ping w;
     fetch_keyword := fetch_keyword w |}.

(** The same world with other readings of the clock around the availability
    request. *)
Definition with_clock (startTime endTime : Q) (w : World) : World :=
  {| URL_parse := URL_parse w; Date_parse := Date_parse w; psl_domain := psl_domain w;
     RegExp_count := RegExp_count w; now_timestamp := now_timestamp w;
     now_ssl := now_ssl w; now_domain := now_domain w; perf_start := startTime;
     perf_end := endTime; fetch_status := fetch_status w; resolve4 := resolve4 w;
     resolveMx := resolveMx w; resolveTxt := resolveTxt w; resolveNs := resolveNs w;
     tls_connect := tls_connect w; fetch_rdap := fetch_rdap w;
     exec_whois := exec_whois w; net_connect := net_connect w; exec_ping := exec_ping w;
     fetch_keyword := fetch_keyword w |}.

Definition with_rdap (answer : Completion RdapResponse) (w : World) : World :=
  {| URL_parse := URL_parse w; Date_parse := Date_parse w; psl_domain := psl_domain w;
     RegExp_count := RegExp_count w; now_timestamp := now_timestamp w;
     now_ssl := now_ssl w; now_domain := now_domain w; perf_start := perf_start w;
     perf_end := perf_end w; fetch_status := fetch_status w; resolve4 := resolve4 w;
     resolveMx := resolveMx w; resolveTxt := resolveTxt w; resolveNs := resolveNs w;
     tls_connect := tls_connect w; fetch_rdap := fun _ => answer;
     exec_whois := exec_whois w; net_connect := net_connect w; exec_ping := exec_ping w;
     fetch_keyword := fetch_keyword w |}.


(** A peer certificate object without validity dates. *)
Definition undated_certificate : PeerCertificate :=
  {| issuer_CN := None; valid_from := None; valid_to := None |}.

(** A registry answer with a registration and an expiration event. *)
Definition registry_answer : RdapResponse :=
  {| rdap_ok := true;
     rdap_events :=
       Some [Some {| eventAction := Some "registration";
                     eventDate := Some "1995-08-14T04:00:00Z" |};
             Some {| eventAction := Some "Expiration";
                     eventDate := Some "2025-03-02T00:00:00Z" |}] |}.

Definition page (code_ : Z) (body : string) : Completion Response :=
  Normal {| status := code_; statusText := ""; text_ := Normal body |}.

Definition healthy : World :=
  world_of (page 200 "Welcome to Example") (page 200 "Welcome to Example").

Definition not_modified : World :=
  world_of (page 304 "") (page 304 "").

Definition refused : World :=
  world_of (Throw (ErrorObj "connect ECONNREFUSED"))
           (Throw (ErrorObj "connect ECONNREFUSED")).

Definition release_notes : World :=
  world_of (page 200 "release v100 is out") (page 200 "release v100 is out").

Definition mailbox : EmailNotifications :=
  {| enabled := true; recipients := ["ops@example.com"];
     smtp := {| smtp_host := "smtp.example.com"; smtp_port := 587;
                smtp_secure := false; smtp_user := "monitor@example.com";
                smtp_pass := "secret" |} |}.

Definition job_config (url_ sched : string) (th : option AlertThresholds)
  : MonitoringConfig :=
  {| cfg_url := url_; cfg_keyword := None; schedule := sched;
     emailNotifications := Some mailbox; alertThresholds := th |}.

(** A cron library that accepts every expression, and one that accepts
    none. *)
Definition any_expression : Cron :=
  {| valid_expression := fun _ => true;
     schedule_error := fun e => ErrorObj (e +:+ " is a invalid expression for minute") |}.

Definition no_expression : Cron :=
  {| valid_expression := fun _ => false;
     schedule_error := fun e => ErrorObj (e +:+ " is a invalid expression for minute") |}.

(** The report of the end-to-end scenario of the design document: HTTP 200
    in 150 ms, a certificate with 200 days left, a registration with 10 days
    left, port 443 open. *)
Definition scenario_report : MonitoringResult :=
  {| url := "https://example.com";
     timestamp := new_year_2025;
     websiteMonitoring :=
       {| wm_status := online; wm_statusCode := Some 200; wm_error := None |};
     responseTime := {| rt_value := 150; rt_status := good |};
     dnsMonitoring :=
       {| dns_status := resolved;
          dns_records := Some {| dns_A := ["93.184.216.34"]; dns_MX := [];
                                 dns_TXT := []; dns_NS := [] |};
          dns_error := None |};
     sslMonitoring :=
       {| ssl_status := valid;
          ssl_certificate :=
            Some {| cert_issuer := "Example CA"; cert_validFrom := 1704067200000;
                    cert_validTo := 1752969600000; cert_daysUntilExpiry := 200 |};
          ssl_error := None |};
     domainExpiration :=
       {| de_status := expiring_soon; de_expiryDate := Some 1736553600000;
          de_daysUntilExpiry := Some 10; de_error := None |};
     portMonitoring := {[ 443 := {| port_status := open; port_responseTime := Some 26 |} ]};
     pingMonitoring :=
       {| ping_status := success; ping_responseTime := Some (12 # 1); ping_error := None |};
     keywordMonitoring := None |}.

(** The same host a few hours after its certificate ran out: the day count
    is 0 and the status [expired]. *)
Definition just_expired_report : MonitoringResult :=
  set_sslMonitoring
    {| ssl_status := expired;
       ssl_certificate :=
         Some {| cert_issuer := "Example CA"; cert_validFrom := 1704067200000;
                 cert_validTo := 1735680000000; cert_daysUntilExpiry := 0 |};
       ssl_error := None |}
    scenario_report.

Definition thresholds (latency ssl domain : option Z) : option AlertThresholds :=
  Some {| th_responseTime := latency; th_sslExpiryDays := ssl;
          th_domainExpiryDays := domain |}.

(** A scheduler with one job on the example host, notifications enabled. *)
Definition one_job : Scheduler :=
  (addJob any_expression "site"
     (job_config "https://example.com" "*/5 * * * *" None) empty_scheduler).1.

(** A scheduler with one job whose target is not a URL. *)
Definition one_bad_job : Scheduler :=
  (addJob any_expression "bad"
     (job_config "not a url" "*/5 * * * *" None) empty_scheduler).1.

Definition example_job (th : option AlertThresholds) : MonitoringJob :=
  {| id := "example"; config := job_config "https://example.com" "*/5 * * * *" th;
     lastRun := None; lastResult := None; isActive := true |}.

End Examples.

(** * Properties *)

#[global] Arguments JS.exec : simpl never.
#[global] Arguments JS.test : simpl never.
#[global] Arguments JS.match_at : simpl never.
#[global] Arguments JS.count_matches : simpl never.
#[global] Arguments JS.trim : simpl never.
#[global] Arguments JS.parseInt : simpl never.
#[global] Arguments JS.show : simpl never.
#[global] Arguments Dates.parseDateString : simpl never.
#[global] Arguments Dates.daysUntil : simpl never.
#[global] Arguments Monitor.whois_candidate : simpl never.
#[global] Arguments Monitor.last_two_labels : simpl never.
#[global] Arguments Monitor.find_expiry_event : simpl never.
#[global] Arguments Monitor.keyword_regex : simpl never.
#[global] Arguments Monitor.parseFloat : simpl never.
#[global] Arguments Monitor.round : simpl never.
#[global] Arguments JS.Number_of : simpl never.
#[global] Arguments JS.Number_sub : simpl never.
#[global] Arguments Monitor.performance_now : simpl never.
#[global] Arguments Monitor.scan_all : simpl never.
#[global] Arguments String.append : simpl never.

Import JS Dates Monitor Scheduled Api Design Examples.

(** ** Expiry arithmetic *)





(** The entry of the early return of the free-text step is an error entry. *)
Lemma whois_expiry_entry (w : World) (domain : string) (entry : DomainExpiration) :
  whois_expiry w domain = Normal (inl entry) ->
  exists msg, entry = domain_failure (Some msg).
Proof.
  unfold whois_expiry.
  destruct (exec_whois w ("whois " +:+ domain)) as [[so se]|e]; cbn [mbind Completion_bind];
    [|discriminate].
  generalize (whois_candidate (so +:+ String LF "" +:+ se)). intros c.
  destruct (truthy c); cbn [mret Completion_ret]; [discriminate|].
  intros [= <-]. eexists. reflexivity.
Qed.


(** ** Numbers *)

Lemma round_half_even_spec (n d : Z) :
  0 < d -> 2 * Z.abs (round_half_even n d * d - n) <= d.
Proof.
  intros Hd. unfold round_half_even.
  pose proof (Z.div_mod n d ltac:(lia)) as Hdm.
  pose proof (Z.mod_pos_bound n d Hd) as Hr.
  destruct (Z.compare_spec (2 * (n mod d)) d) as [H|H|H].
  - destruct (Z.even (n / d)); nia.
  - nia.
  - nia.
Qed.

Lemma binade_spec (n d : Z) :
  0 < n -> 0 < d ->
  d * 2 ^ Z.max 0 (binade n d) <= n * 2 ^ Z.max 0 (- binade n d).
Proof.
  intros Hn Hd. unfold binade.
  destruct (Z.leb_spec (d * 2 ^ Z.max 0 (Z.log2 n - Z.log2 d))
              (n * 2 ^ Z.max 0 (- (Z.log2 n - Z.log2 d)))) as [H|H]; [exact H|].
  pose proof (Z.log2_spec n Hn) as [Hn1 Hn2].
  pose proof (Z.log2_spec d Hd) as [Hd1 Hd2].
  pose proof (Z.log2_nonneg n) as Ha. pose proof (Z.log2_nonneg d) as Hb.
  set (a := Z.log2 n) in *. set (b := Z.log2 d) in *.
  destruct (Z.le_gt_cases (b + 1) a) as [Hab|Hab].
  - rewrite (Z.max_r 0 (a - b - 1)) by lia. rewrite (Z.max_l 0 (- (a - b - 1))) by lia.
    rewrite Z.pow_0_r, Z.mul_1_r.
    assert (Hp : 2 ^ a = 2 ^ (b + 1) * 2 ^ (a - b - 1)).
    { rewrite <- Z.pow_add_r by lia. f_equal. lia. }
    assert (0 < 2 ^ (a - b - 1)) by (apply Z.pow_pos_nonneg; lia).
    replace (Z.succ b) with (b + 1) in Hd2 by lia. nia.
  - rewrite (Z.max_l 0 (a - b - 1)) by lia. rewrite (Z.max_r 0 (- (a - b - 1))) by lia.
    rewrite Z.pow_0_r, Z.mul_1_r.
    assert (Hp : 2 ^ (b + 1) = 2 ^ a * 2 ^ (- (a - b - 1))).
    { rewrite <- Z.pow_add_r by lia. f_equal. lia. }
    assert (0 < 2 ^ (- (a - b - 1))) by (apply Z.pow_pos_nonneg; lia).
    replace (Z.succ b) with (b + 1) in Hd2 by lia. nia.
Qed.

Lemma Qabs_diff_le (A xn : Z) (p xd q : positive) (r : Z) :
  Z.abs (A * Zpos xd - xn * Zpos p) * Zpos q <= r * (Zpos p * Zpos xd) ->
  (Qabs ((A # p) - (xn # xd)) <= r # q)%Q.
Proof.
  intros H. unfold Qle, Qabs, Qminus, Qplus, Qopp. cbn [Qnum Qden].
  rewrite Pos2Z.inj_mul.
  replace (A * Zpos xd + - xn * Zpos p) with (A * Zpos xd - xn * Zpos p) by lia.
  exact H.
Qed.

(** A Number is within a relative distance of [2^-53], or within [2^-1075],
    of the rational it stands for. *)
Lemma Number_of_error (x : Q) :
  (Qabs (Number_of x - x) <= Qabs x * (1 # 2 ^ 53) + (1 # 2 ^ 1075))%Q.
Proof.
  destruct x as [xn xd]. unfold Number_of. cbn [Qnum Qden].
  destruct (Z.eqb_spec (Z.abs xn) 0) as [H0|H0].
  { assert (xn = 0) by lia. subst xn. unfold Qle. cbn. lia. }
  set (n := Z.abs xn). set (d := Zpos xd).
  set (k := binade n d).
  set (e := Z.max (k - 52) (-1074)).
  set (P := 2 ^ Z.max 0 (- e)). set (R := 2 ^ Z.max 0 e).
  set (m := round_half_even (n * P) (d * R)).
  assert (Hn : 0 < n) by (unfold n; lia).
  assert (Hd : 0 < d) by (unfold d; lia).
  assert (HP : 0 < P) by (apply Z.pow_pos_nonneg; lia).
  assert (HR : 0 < R) by (apply Z.pow_pos_nonneg; lia).
  rewrite Qred_correct.
  pose proof (round_half_even_spec (n * P) (d * R) ltac:(nia)) as Hm. fold m in Hm.
  pose proof (binade_spec n d Hn Hd) as Hk. fold k in Hk.
  apply Qle_trans with (y := (R # (2 * Z.to_pos P))%Q).
  - apply Qabs_diff_le. rewrite Z2Pos.id by exact HP. fold d.
    rewrite Pos2Z.inj_mul, Z2Pos.id by exact HP.
    assert (Hx : xn = Z.sgn xn * n) by (unfold n; destruct xn; reflexivity).
    assert (Hs : Z.sgn xn * m * R * d - xn * P = Z.sgn xn * (m * (d * R) - n * P)).
    { rewrite Hx at 2. ring. }
    assert (Hsgn : Z.abs (Z.sgn xn) = 1)
      by (destruct xn; [contradiction H0; reflexivity | reflexivity | reflexivity]).
    rewrite Hs, Z.abs_mul, Hsgn, Z.mul_1_l.
    apply Z.mul_le_mono_nonneg_r with (p := P) in Hm; [|lia].
    clearbody m P R d n. clear - Hm. nia.
  - assert (H53 : Zpos (2 ^ 53) = 2 ^ 53) by reflexivity.
    destruct (Z.le_gt_cases (-1074) (k - 52)) as [He|He].
    + apply Qle_trans with (y := (Qabs (xn # xd) * (1 # 2 ^ 53))%Q).
      * unfold Qle, Qabs, Qmult. cbn [Qnum Qden].
        rewrite !Pos2Z.inj_mul, Z2Pos.id by exact HP. fold n d. rewrite H53.
        assert (Ee : e = k - 52) by (unfold e; lia).
        destruct (Z.le_gt_cases 0 e) as [He0|He0].
        -- assert (EP : P = 1) by (unfold P; rewrite Z.max_l by lia; reflexivity).
           assert (ER : R * 2 ^ 53 = 2 * 2 ^ k).
           { unfold R. rewrite Z.max_r by lia. rewrite Ee, <- Z.pow_add_r by lia.
             replace (k - 52 + 53) with (Z.succ k) by lia. apply Z.pow_succ_r. lia. }
           rewrite (Z.max_r 0 k) in Hk by lia. rewrite (Z.max_l 0 (- k)) in Hk by lia.
           rewrite Z.pow_0_r in Hk. subst P. nia.
        -- assert (ER : R = 1) by (unfold R; rewrite Z.max_l by lia; reflexivity).
           assert (EP : 2 * P = 2 ^ (53 - k)).
           { unfold P. rewrite Z.max_r by lia. rewrite Ee.
             replace (53 - k) with (Z.succ (- (k - 52))) by lia.
             rewrite Z.pow_succ_r by lia. reflexivity. }
           rewrite ER. destruct (Z.le_gt_cases 0 k) as [Hk0|Hk0].
           ++ rewrite (Z.max_r 0 k) in Hk by lia. rewrite (Z.max_l 0 (- k)) in Hk by lia.
              rewrite Z.pow_0_r in Hk.
              assert (E53 : 2 ^ 53 = 2 ^ k * 2 ^ (53 - k)).
              { rewrite <- Z.pow_add_r by lia. f_equal. lia. }
              assert (0 < 2 ^ (53 - k)) by (apply Z.pow_pos_nonneg; lia).
              replace (n * 1 * (2 * P)) with (n * 2 ^ (53 - k)) by (rewrite <- EP; ring).
              rewrite E53. nia.
           ++ rewrite (Z.max_l 0 k) in Hk by lia. rewrite (Z.max_r 0 (- k)) in Hk by lia.
              rewrite Z.pow_0_r in Hk.
              assert (E53 : 2 ^ (53 - k) = 2 ^ (- k) * 2 ^ 53).
              { rewrite <- Z.pow_add_r by lia. f_equal. lia. }
              replace (n * 1 * (2 * P)) with (n * 2 ^ (53 - k)) by (rewrite <- EP; ring).
              rewrite E53. assert (0 < 2 ^ 53) by reflexivity. nia.
      * rewrite <- (Qplus_0_r (Qabs (xn # xd) * (1 # 2 ^ 53))) at 1.
        apply Qplus_le_r. discriminate.
    + assert (Ee : e = -1074) by (unfold e; lia).
      apply Qle_trans with (y := (1 # 2 ^ 1075)%Q).
      * assert (ER : R = 1) by (unfold R; rewrite Ee; reflexivity).
        assert (EP : P = 2 ^ 1074) by (unfold P; rewrite Ee; reflexivity).
        rewrite ER, EP. unfold Qle. cbn [Qnum Qden].
        rewrite Pos2Z.inj_mul, Z2Pos.id by (apply Z.pow_pos_nonneg; lia).
        rewrite Pos2Z.inj_pow.
        change (Zpos 1075) with (Z.succ 1074). rewrite Z.pow_succ_r by lia. lia.
      * rewrite <- (Qplus_0_l (1 # 2 ^ 1075)) at 1.
        apply Qplus_le_l. apply Qmult_le_0_compat; [apply Qabs_nonneg | discriminate].
Qed.

(** The readings 40.003 and 190.503 are held as the nearest doubles, and
    their difference as Numbers is 150.5; the difference of the readings
    200.001 and 1200.001 is 1000. *)
Example Number_of_readings :
  Number_of (40003 # 1000) = (2814960873339093 # 70368744177664)%Q
  /\ Number_sub (Number_of (190503 # 1000)) (Number_of (40003 # 1000)) = (301 # 2)%Q
  /\ Number_sub (Number_of (1200001 # 1000)) (Number_of (200001 # 1000)) = (1000 # 1)%Q.
Proof. vm_compute. repeat split. Qed.

Example show_integers :
  show 150 = "150" /\ show (-30) = "-30" /\ show 0 = "0"
  /\ show 9007199254740992 = "9007199254740992"
  /\ show 123456789012345678901 = "123456789012345680000"
  /\ show (10 ^ 21) = "1e+21"
  /\ show (2 ^ 70) = "1.1805916207174113e+21".
Proof. vm_compute. repeat split. Qed.

(** ** The availability probe *)

Lemma ok_spec (response : Response) :
  ok response = true <-> 200 <= status response < 300.
Proof. unfold ok. rewrite andb_true_iff, Z.leb_le, Z.ltb_lt. reflexivity. Qed.

(** [Math.round] is within half a unit of its argument. *)
Lemma round_spec (x : Q) :
  (x - (1 # 2) < inject_Z (round x) /\ inject_Z (round x) <= x + (1 # 2))%Q.
Proof.
  unfold round.
  pose proof (Qfloor_le (x + (1 # 2))) as Hle.
  pose proof (Qlt_floor (x + (1 # 2))) as Hlt.
  rewrite inject_Z_plus in Hlt.
  split; [|exact Hle].
  apply Qplus_lt_l with (z := 1 # 2).
  setoid_replace (x - (1 # 2) + (1 # 2))%Q with x using relation Qeq by ring.
  apply Qplus_lt_l with (z := 1 # 2).
  setoid_replace (inject_Z (Qfloor (x + (1 # 2))) + (1 # 2) + (1 # 2))%Q
    with (inject_Z (Qfloor (x + (1 # 2))) + inject_Z 1)%Q using relation Qeq by ring.
  exact Hlt.
Qed.

(** The rounded difference of two Numbers is within half a unit, and the
    rounding of one subtraction, of their difference as rationals. *)
Lemma round_Number_sub_error (a b : Q) :
  (Qabs (inject_Z (round (Number_sub a b)) - (a - b))
   <= (1 # 2) + (Qabs (a - b) * (1 # 2 ^ 53) + (1 # 2 ^ 1075)))%Q.
Proof.
  pose proof (round_spec (Number_sub a b)) as [Hlo Hhi].
  assert (H1 : (Qabs (inject_Z (round (Number_sub a b)) - Number_sub a b) <= 1 # 2)%Q).
  { apply Qabs_Qle_condition. split.
    - apply Qlt_le_weak. apply Qplus_lt_l with (z := Number_sub a b).
      setoid_replace (inject_Z (round (Number_sub a b)) - Number_sub a b + Number_sub a b)%Q
        with (inject_Z (round (Number_sub a b))) using relation Qeq by ring.
      setoid_replace (- (1 # 2) + Number_sub a b)%Q
        with (Number_sub a b - (1 # 2))%Q using relation Qeq by ring.
      exact Hlo.
    - apply Qplus_le_l with (z := Number_sub a b).
      setoid_replace (inject_Z (round (Number_sub a b)) - Number_sub a b + Number_sub a b)%Q
        with (inject_Z (round (Number_sub a b))) using relation Qeq by ring.
      setoid_replace ((1 # 2) + Number_sub a b)%Q
        with (Number_sub a b + (1 # 2))%Q using relation Qeq by ring.
      exact Hhi. }
  pose proof (Number_of_error (a - b)) as H2. fold (Number_sub a b) in H2.
  setoid_replace (inject_Z (round (Number_sub a b)) - (a - b))%Q
    with ((inject_Z (round (Number_sub a b)) - Number_sub a b)
          + (Number_sub a b - (a - b)))%Q using relation Qeq by ring.
  eapply Qle_trans; [apply Qabs_triangle|].
  apply Qplus_le_compat; assumption.
Qed.

(** C5, as the code has it. For every completed response of the availability
    request the probe returns; the status is [online] exactly when the status
    code is in 200..299 (the [ok] flag of the response) and [offline]
    otherwise; the entry carries the status code; and the latency reported
    is the span between the two clock readings around the request (their
    difference as the subtraction of Numbers gives it), rounded to the
    nearest millisecond: it is within half a millisecond of that span, and
    within half a millisecond and the rounding of one subtraction of the
    difference of the two readings as rationals. *)
Theorem availability_of_response (w : World) (url : string) (r0 : MonitoringResult)
    (response : Response) (Hresponse : fetch_status w url = Normal response) :
  let startTime := performance_now (perf_start w) in
  let endTime := performance_now (perf_end w) in
  let span := Number_sub endTime startTime in
  exists r : MonitoringResult,
    monitorWebsiteStatus w url r0 = Normal r
    /\ (wm_status (websiteMonitoring r) = online <-> 200 <= status response < 300)
    /\ (wm_status (websiteMonitoring r) = offline <-> ~ (200 <= status response < 300))
    /\ wm_statusCode (websiteMonitoring r) = Some (status response)
    /\ rt_value (responseTime r) = round span
    /\ (span - (1 # 2) < inject_Z (rt_value (responseTime r))
        /\ inject_Z (rt_value (responseTime r)) <= span + (1 # 2))%Q
    /\ (Qabs (inject_Z (rt_value (responseTime r)) - (endTime - startTime))
        <= (1 # 2) + (Qabs (endTime - startTime) * (1 # 2 ^ 53) + (1 # 2 ^ 1075)))%Q.
Proof.
  cbv zeta. unfold monitorWebsiteStatus, try_catch. rewrite Hresponse.
  cbn [mbind mret Completion_bind Completion_ret].
  eexists. split; [reflexivity|].
  cbn [websiteMonitoring responseTime set_responseTime set_websiteMonitoring
       wm_status wm_statusCode rt_value].
  pose proof (ok_spec response) as Hok.
  split; [|split; [|split; [reflexivity|split; [reflexivity|
    split; [apply round_spec | apply round_Number_sub_error]]]]].
  - destruct (ok response).
    + split; [intros _; apply Hok; reflexivity | reflexivity].
    + split; [discriminate | intros H; apply Hok in H; discriminate].
  - destruct (ok response).
    + split; [discriminate | intros Hn; exfalso; apply Hn, Hok; reflexivity].
    + split; [intros _ H; apply Hok in H; discriminate | reflexivity].
Qed.

Lemma availability_of_response_witness :
  exists r : MonitoringResult,
    monitorWebsiteStatus healthy "https://example.com"
      (initial_result healthy "https://example.com") = Normal r
    /\ wm_status (websiteMonitoring r) = online
    /\ rt_value (responseTime r) = 151.
Proof.
  destruct (availability_of_response healthy "https://example.com"
              (initial_result healthy "https://example.com")
              {| status := 200; statusText := ""; text_ := Normal "Welcome to Example" |}
              eq_refl)
    as (r & Hrun & Honline & _ & _ & Hvalue & _).
  exists r. split; [exact Hrun|]. split.
  - apply Honline. cbn. lia.
  - rewrite Hvalue. vm_compute. reflexivity.
Defined.

(** C5, as stated, fails: a completed response with status 304 is in the
    2xx-3xx range and the probe reports [offline]. *)
Lemma not_modified_is_offline :
  ~ (forall (w : World) (url : string) (r0 r : MonitoringResult) (response : Response),
        fetch_status w url = Normal response ->
        monitorWebsiteStatus w url r0 = Normal r ->
        (wm_status (websiteMonitoring r) = online <-> 200 <= status response < 400)).
Proof.
  intros H.
  pose proof (H not_modified "https://example.com"
                (initial_result not_modified "https://example.com") _ _
                eq_refl eq_refl) as [_ Hback].
  cbn in Hback.
  assert (Hrange : 200 <= 304 < 400) by lia.
  specialize (Hback Hrange). discriminate Hback.
Qed.

(** ** Each probe writes its own entry *)

Ltac unfold_monad := cbn [mbind mret Completion_bind Completion_ret].

Ltac status_in := solve [cbn; repeat (first [left; reflexivity | right])].

Lemma monitorWebsiteStatus_writes (w : World) (url : string) :
  exists (wm : WebsiteMonitoring) (rt : ResponseTime),
    (forall r, monitorWebsiteStatus w url r
               = Normal (set_responseTime rt (set_websiteMonitoring wm r)))
    /\ In (wm_status wm) website_statuses
    /\ In (rt_status rt) latency_statuses
    /\ (forall e, fetch_status w url = Throw e ->
          wm = website_error (Some (message_or e "Unknown error"))
          /\ rt = {| rt_value := 0; rt_status := critical |}).
Proof.
  unfold monitorWebsiteStatus, try_catch.
  destruct (fetch_status w url) as [response|e]; unfold_monad.
  - do 2 eexists. split; [reflexivity|]. split; [|split; [|discriminate]].
    + destruct (ok response); status_in.
    + cbn [rt_status]. unfold latency_status.
      destruct (Qlt_le_dec _ 1000); [|destruct (Qlt_le_dec _ 3000)]; status_in.
  - do 2 eexists. split; [reflexivity|]. split; [status_in|]. split; [status_in|].
    intros e' [= <-]. split; reflexivity.
Qed.

Lemma monitorDNS_writes (w : World) (url : string) :
  exists v : DnsMonitoring,
    (forall r, monitorDNS w url r = Normal (set_dnsMonitoring v r))
    /\ In (dns_status v) dns_statuses
    /\ (forall e, URL_parse w url = Throw e ->
          v = dns_failure (Some (message_or e "DNS resolution failed"))).
Proof.
  unfold monitorDNS, try_catch.
  destruct (URL_parse w url) as [u|e]; unfold_monad.
  - eexists. split; [reflexivity|]. split; [status_in | discriminate].
  - eexists. split; [reflexivity|]. split; [status_in|]. intros e' [= <-]. reflexivity.
Qed.

Lemma expiry_status_in (days : Z) : In (expiry_status days) expiry_statuses.
Proof.
  unfold expiry_status. destruct (0 <? days); [destruct (30 <? days)|]; status_in.
Qed.

Lemma monitorSSL_writes (w : World) (url : string) :
  exists v : SslMonitoring,
    (forall r, monitorSSL w url r = Normal (set_sslMonitoring v r))
    /\ In (ssl_status v) expiry_statuses
    /\ (forall e, URL_parse w url = Throw e ->
          v = ssl_failure (Some (message_or e "SSL check failed")))
    /\ (forall u e, URL_parse w url = Normal u ->
          tls_connect w (hostname u) (parseInt (or_string (Some (port u)) "443")) = Throw e ->
          v = ssl_failure (Some (message_or e "SSL check failed"))).
Proof.
  unfold monitorSSL, try_catch.
  destruct (URL_parse w url) as [u|e]; unfold_monad.
  - destruct (tls_connect w (hostname u) (parseInt (or_string (Some (port u)) "443")))
      as [c|e] eqn:Htls; unfold_monad.
    + destruct (toISOString (new_Date (Date_parse w) (valid_from c))) as [t1|e1];
        unfold_monad;
        [destruct (toISOString (new_Date (Date_parse w) (valid_to c))) as [t2|e2];
         unfold_monad|];
        (eexists; split; [reflexivity|];
         split; [first [apply expiry_status_in | status_in]|];
         split; [discriminate|]; intros u' e' [= <-] He; congruence).
    + eexists. split; [reflexivity|]. split; [status_in|]. split; [discriminate|].
      intros u' e' [= <-] He. congruence.
  - eexists. split; [reflexivity|]. split; [status_in|].
    split; [intros e' [= <-]; reflexivity | discriminate].
Qed.

Lemma monitorDomainExpiration_writes (w : World) (url : string) :
  exists v : DomainExpiration,
    (forall r, monitorDomainExpiration w url r = Normal (set_domainExpiration v r))
    /\ In (de_status v) expiry_statuses
    /\ (forall e, URL_parse w url = Throw e ->
          v = domain_failure (Some (message_or e "Domain expiration check failed")))
    /\ (forall u e, URL_parse w url = Normal u ->
          rdap_expiry w (registrable_domain w (hostname u)) = Normal None ->
          exec_whois w ("whois " +:+ registrable_domain w (hostname u)) = Throw e ->
          v = domain_failure (Some (message_or e "Domain expiration check failed"))).
Proof.
  unfold monitorDomainExpiration, try_catch.
  destruct (URL_parse w url) as [u|e]; unfold_monad.
  2:{ eexists. split; [reflexivity|]. split; [status_in|].
      split; [intros e' [= <-]; reflexivity | discriminate]. }
  destruct (rdap_expiry w (registrable_domain w (hostname u))) as [x|e] eqn:Hrdap;
    unfold_monad.
  2:{ eexists. split; [reflexivity|]. split; [status_in|].
      split; [discriminate|]. intros u' e' [= <-] Hr. congruence. }
  destruct (truthy x) eqn:Hx; unfold_monad.
  - assert (Hnot : x <> None) by (intros ->; discriminate).
    destruct (parseDateString (Date_parse w) (default "" x)); unfold_monad;
      (eexists; split; [reflexivity|];
       split; [first [apply expiry_status_in | status_in]|];
       split; [discriminate|]; intros u' e' [= <-] Hr; congruence).
  - destruct (whois_expiry w (registrable_domain w (hostname u)))
      as [[entry|s]|e] eqn:Hw; unfold_monad.
    + apply whois_expiry_entry in Hw as H'. destruct H' as [msg ->].
      eexists. split; [reflexivity|]. split; [status_in|]. split; [discriminate|].
      intros u' e' [= <-] _ He. unfold whois_expiry in Hw. rewrite He in Hw. discriminate.
    + destruct (parseDateString (Date_parse w) s); unfold_monad;
        (eexists; split; [reflexivity|];
         split; [first [apply expiry_status_in | status_in]|];
         split; [discriminate|];
         intros u' e' [= <-] _ He; unfold whois_expiry in Hw; rewrite He in Hw;
         discriminate).
    + eexists. split; [reflexivity|]. split; [status_in|]. split; [discriminate|].
      intros u' e' [= <-] _ He. unfold whois_expiry in Hw. rewrite He in Hw.
      injection Hw as <-. reflexivity.
Qed.

Lemma monitorPing_writes (w : World) (url : string) :
  exists v : PingMonitoring,
    (forall r, monitorPing w url r = Normal (set_pingMonitoring v r))
    /\ In (ping_status v) ping_statuses
    /\ (forall e, URL_parse w url = Throw e ->
          v = ping_failure (Some (message_or e "Ping failed")))
    /\ (forall u e, URL_parse w url = Normal u ->
          exec_ping w ("ping -c 1 " +:+ hostname u) = Throw e ->
          v = ping_failure (Some (message_or e "Ping failed"))).
Proof.
  unfold monitorPing, try_catch.
  destruct (URL_parse w url) as [u|e]; unfold_monad.
  - destruct (exec_ping w ("ping -c 1 " +:+ hostname u)) as [out|e] eqn:Hping;
      unfold_monad.
    + destruct (exec ping_re out) as [[[i len] m]|];
        (eexists; split; [reflexivity|]; split; [status_in|];
         split; [discriminate|]; intros u' e' [= <-] He; congruence).
    + eexists. split; [reflexivity|]. split; [status_in|]. split; [discriminate|].
      intros u' e' [= <-] He. congruence.
  - eexists. split; [reflexivity|]. split; [status_in|].
    split; [intros e' [= <-]; reflexivity | discriminate].
Qed.

Lemma monitorKeyword_writes (w : World) (url keyword : string) :
  exists v : KeywordMonitoring,
    (forall r, monitorKeyword w url keyword r = Normal (set_keywordMonitoring v r))
    /\ In (kw_status v) keyword_statuses
    /\ (forall e, fetch_keyword w url = Throw e ->
          v = keyword_failure (Some (message_or e "Keyword monitoring failed"))).
Proof.
  unfold monitorKeyword, try_catch.
  destruct (fetch_keyword w url) as [response|e]; unfold_monad.
  - destruct (negb (ok response)); unfold_monad.
    + eexists. split; [reflexivity|]. split; [status_in | discriminate].
    + destruct (text_ response) as [content|e]; unfold_monad;
        [destruct (count_occurrences w keyword content) as [n|e]; unfold_monad|];
        (eexists; split; [reflexivity|]; split; [|discriminate]);
        try status_in.
      cbn [kw_status]. destruct (0 <? n)%nat; status_in.
  - eexists. split; [reflexivity|]. split; [status_in|]. intros e' [= <-]. reflexivity.
Qed.

Lemma scan_port_spec (w : World) (hostname : string) (r : MonitoringResult) (p : Z) :
  scan_port w hostname r p
  = Normal (set_port p (port_entry (net_connect w p hostname)) r).
Proof.
  unfold scan_port, try_catch. destruct (net_connect w p hostname); reflexivity.
Qed.

Lemma for_of_scan_port (w : World) (hostname : string) (l : list Z) :
  forall r, for_of (scan_port w hostname) l r = Normal (scan_all w hostname l r).
Proof.
  induction l as [|p l IH]; intros r; [reflexivity|].
  cbn [for_of]. rewrite scan_port_spec. unfold_monad. rewrite IH. reflexivity.
Qed.

Lemma monitorPorts_spec (w : World) (url : string) (r : MonitoringResult) :
  monitorPorts w url r
  = match URL_parse w url with
    | Normal u => Normal (scan_all w (hostname u) ports r)
    | Throw e => Throw e
    end.
Proof.
  unfold monitorPorts. destruct (URL_parse w url) as [u|e]; unfold_monad; [|reflexivity].
  apply for_of_scan_port.
Qed.

(** The loop touches the port map only. *)
Lemma scan_all_frame (w : World) (hostname : string) (l : list Z) :
  forall r,
    url (scan_all w hostname l r) = url r
    /\ timestamp (scan_all w hostname l r) = timestamp r
    /\ websiteMonitoring (scan_all w hostname l r) = websiteMonitoring r
    /\ responseTime (scan_all w hostname l r) = responseTime r
    /\ dnsMonitoring (scan_all w hostname l r) = dnsMonitoring r
    /\ sslMonitoring (scan_all w hostname l r) = sslMonitoring r
    /\ domainExpiration (scan_all w hostname l r) = domainExpiration r
    /\ pingMonitoring (scan_all w hostname l r) = pingMonitoring r
    /\ keywordMonitoring (scan_all w hostname l r) = keywordMonitoring r.
Proof.
  induction l as [|p l IH]; intros r; [repeat split|].
  unfold scan_all in *. cbn [fold_left].
  specialize (IH (set_port p (port_entry (net_connect w p hostname)) r)).
  exact IH.
Qed.

(** A port outside the list keeps what the map had for it. *)
Lemma scan_all_other (w : World) (hostname : string) (l : list Z) (p : Z) :
  forall r, ~ In p l ->
    portMonitoring (scan_all w hostname l r) !! p = portMonitoring r !! p.
Proof.
  induction l as [|q l IH]; intros r Hp; [reflexivity|].
  unfold scan_all in *. cbn [fold_left]. rewrite IH.
  - cbn [portMonitoring set_port]. apply lookup_insert_ne.
    intros ->. apply Hp. left. reflexivity.
  - intros H. apply Hp. right. exact H.
Qed.

(** A port of the list gets the entry of its own socket, whatever happened
    on the others. *)
Lemma scan_all_entry (w : World) (hostname : string) (l : list Z) (p : Z) :
  forall r, In p l ->
    portMonitoring (scan_all w hostname l r) !! p
    = Some (port_entry (net_connect w p hostname)).
Proof.
  induction l as [|q l IH]; intros r Hp; [destruct Hp|].
  destruct (In_dec Z.eq_dec p l) as [Hin|Hout].
  - unfold scan_all in *. cbn [fold_left]. apply IH. exact Hin.
  - destruct Hp as [->|Hin]; [|contradiction].
    unfold scan_all. cbn [fold_left].
    pose proof (scan_all_other w hostname l p
                  (set_port p (port_entry (net_connect w p hostname)) r) Hout) as H.
    unfold scan_all in H. rewrite H.
    cbn [portMonitoring set_port]. apply lookup_insert_eq.
Qed.

Lemma port_entry_status (o : SocketOutcome) : In (port_status (port_entry o)) port_statuses.
Proof. destruct o; status_in. Qed.

(** What one run of the aggregator computes: the entries of the probes, each
    a function of the world and the target alone, written one after the
    other into the initial report; the URL parse of the port scan decides
    whether there is a report at all. *)
Lemma monitorWebsite_eq (w : World) (url : string) (keyword : option string)
    wm rt dns ssl de ping kw :
  (forall r, monitorWebsiteStatus w url r
             = Normal (set_responseTime rt (set_websiteMonitoring wm r))) ->
  (forall r, monitorDNS w url r = Normal (set_dnsMonitoring dns r)) ->
  (forall r, monitorSSL w url r = Normal (set_sslMonitoring ssl r)) ->
  (forall r, monitorDomainExpiration w url r = Normal (set_domainExpiration de r)) ->
  (forall r, monitorPing w url r = Normal (set_pingMonitoring ping r)) ->
  (forall r, monitorKeyword w url (default "" keyword) r
             = Normal (set_keywordMonitoring kw r)) ->
  monitorWebsite w url keyword
  = match URL_parse w url with
    | Normal u =>
        Normal
          (with_keyword keyword kw
             (set_pingMonitoring ping
                (scan_all w (hostname u) ports
                   (set_domainExpiration de
                      (set_sslMonitoring ssl
                         (set_dnsMonitoring dns
                            (set_responseTime rt
                               (set_websiteMonitoring wm (initial_result w url)))))))))
    | Throw e => Throw e
    end.
Proof.
  intros Hwm Hdns Hssl Hde Hping Hkw.
  unfold monitorWebsite.
  rewrite Hwm. unfold_monad. rewrite Hdns. unfold_monad. rewrite Hssl. unfold_monad.
  rewrite Hde. unfold_monad. rewrite monitorPorts_spec.
  destruct (URL_parse w url) as [u|e]; unfold_monad; [|reflexivity].
  rewrite Hping. unfold_monad.
  unfold with_keyword.
  destruct (truthy keyword); unfold_monad; [rewrite Hkw|]; reflexivity.
Qed.

(** Writing the ping or the keyword entry leaves the other fields. *)
Lemma fields_set_pingMonitoring (v : PingMonitoring) (r : MonitoringResult) :
  websiteMonitoring (set_pingMonitoring v r) = websiteMonitoring r
  /\ responseTime (set_pingMonitoring v r) = responseTime r
  /\ dnsMonitoring (set_pingMonitoring v r) = dnsMonitoring r
  /\ sslMonitoring (set_pingMonitoring v r) = sslMonitoring r
  /\ domainExpiration (set_pingMonitoring v r) = domainExpiration r
  /\ portMonitoring (set_pingMonitoring v r) = portMonitoring r
  /\ pingMonitoring (set_pingMonitoring v r) = v
  /\ keywordMonitoring (set_pingMonitoring v r) = keywordMonitoring r.
Proof. repeat split. Qed.

Lemma fields_set_keywordMonitoring (v : KeywordMonitoring) (r : MonitoringResult) :
  websiteMonitoring (set_keywordMonitoring v r) = websiteMonitoring r
  /\ responseTime (set_keywordMonitoring v r) = responseTime r
  /\ dnsMonitoring (set_keywordMonitoring v r) = dnsMonitoring r
  /\ sslMonitoring (set_keywordMonitoring v r) = sslMonitoring r
  /\ domainExpiration (set_keywordMonitoring v r) = domainExpiration r
  /\ portMonitoring (set_keywordMonitoring v r) = portMonitoring r
  /\ pingMonitoring (set_keywordMonitoring v r) = pingMonitoring r
  /\ keywordMonitoring (set_keywordMonitoring v r) = Some v.
Proof. repeat split. Qed.

(** The fields of the report so assembled. *)
Lemma assembled_fields (w : World) (h : string) (r0 r1 r : MonitoringResult)
    wm rt dns ssl de ping :
  r1 = set_domainExpiration de
         (set_sslMonitoring ssl
            (set_dnsMonitoring dns
               (set_responseTime rt (set_websiteMonitoring wm r0)))) ->
  r = set_pingMonitoring ping (scan_all w h ports r1) ->
  websiteMonitoring r = wm /\ responseTime r = rt /\ dnsMonitoring r = dns
  /\ sslMonitoring r = ssl /\ domainExpiration r = de /\ pingMonitoring r = ping
  /\ keywordMonitoring r = keywordMonitoring r0
  /\ (forall p, In p ports ->
        portMonitoring r !! p = Some (port_entry (net_connect w p h))).
Proof.
  intros E1 E.
  destruct (scan_all_frame w h ports r1)
    as (_ & _ & Hwm & Hrt & Hdns & Hssl & Hde & _ & Hkw).
  destruct (fields_set_pingMonitoring ping (scan_all w h ports r1))
    as (Pwm & Prt & Pdns & Pssl & Pde & Ppm & Pping & Pkw).
  rewrite <- E in Pwm, Prt, Pdns, Pssl, Pde, Ppm, Pping, Pkw.
  rewrite Pwm, Prt, Pdns, Pssl, Pde, Pping, Pkw, Hwm, Hrt, Hdns, Hssl, Hde, Hkw.
  split; [rewrite E1; reflexivity|]. split; [rewrite E1; reflexivity|].
  split; [rewrite E1; reflexivity|]. split; [rewrite E1; reflexivity|].
  split; [rewrite E1; reflexivity|]. split; [reflexivity|].
  split; [rewrite E1; reflexivity|].
  intros p Hp. rewrite Ppm. apply scan_all_entry. exact Hp.
Qed.

(** ** The aggregator *)

(** C1 fails on the code at a target that does not parse. The DNS, TLS,
    domain and ping probes turn the parse failure into their error entry, each
    inside its own [try]; the port scan parses the target outside its [try],
    so the failure leaves [monitorPorts] and with it [monitorWebsite]: there is
    no report. *)
Theorem unparsable_target_aborts_the_run (w : World) (url : string)
    (keyword : option string) (e : Thrown) (Hparse : URL_parse w url = Throw e) :
  (forall r, monitorDNS w url r
             = Normal (set_dnsMonitoring
                         (dns_failure (Some (message_or e "DNS resolution failed"))) r))
  /\ (forall r, monitorSSL w url r
                = Normal (set_sslMonitoring
                            (ssl_failure (Some (message_or e "SSL check failed"))) r))
  /\ (forall r, monitorDomainExpiration w url r
                = Normal (set_domainExpiration
                            (domain_failure
                               (Some (message_or e "Domain expiration check failed"))) r))
  /\ (forall r, monitorPing w url r
                = Normal (set_pingMonitoring
                            (ping_failure (Some (message_or e "Ping failed"))) r))
  /\ (forall r, monitorPorts w url r = Throw e)
  /\ monitorWebsite w url keyword = Throw e.
Proof.
  destruct (monitorDNS_writes w url) as (dns & Hdns & _ & Fdns).
  destruct (monitorSSL_writes w url) as (ssl & Hssl & _ & Fssl & _).
  destruct (monitorDomainExpiration_writes w url) as (de & Hde & _ & Fde & _).
  destruct (monitorPing_writes w url) as (ping & Hping & _ & Fping & _).
  rewrite <- (Fdns e Hparse), <- (Fssl e Hparse), <- (Fde e Hparse), <- (Fping e Hparse).
  do 4 (split; [assumption|]).
  split.
  - intros r. rewrite monitorPorts_spec, Hparse. reflexivity.
  - destruct (monitorWebsiteStatus_writes w url) as (wm & rt & Hwm & _).
    destruct (monitorKeyword_writes w url (default "" keyword)) as (kw & Hkw & _).
    rewrite (monitorWebsite_eq w url keyword _ _ _ _ _ _ _ Hwm Hdns Hssl Hde Hping Hkw).
    rewrite Hparse. reflexivity.
Qed.

Lemma unparsable_target_aborts_the_run_witness :
  monitorWebsite healthy "not a url" None = Throw (ErrorObj "Invalid URL").
Proof.
  apply (unparsable_target_aborts_the_run healthy "not a url" None
           (ErrorObj "Invalid URL")).
  vm_compute. reflexivity.
Defined.

(** C2. A run that returns a report returns one in which each of the seven
    categories carries a status of its vocabulary, every port of the scan set
    has an entry, and the keyword category is there exactly when a keyword
    was supplied, an empty keyword counting as none (the test is
    [if (keyword)]). A probe that failed shows as the error entry of its own
    category: [error] for the availability, TLS, domain, port, ping and
    keyword categories, [critical] with value 0 for the latency. *)
Theorem report_has_every_category (w : World) (url : string) (keyword : option string)
    (r : MonitoringResult) (Hrun : monitorWebsite w url keyword = Normal r) :
  In (wm_status (websiteMonitoring r)) website_statuses
  /\ In (rt_status (responseTime r)) latency_statuses
  /\ In (dns_status (dnsMonitoring r)) dns_statuses
  /\ In (ssl_status (sslMonitoring r)) expiry_statuses
  /\ In (de_status (domainExpiration r)) expiry_statuses
  /\ (forall p, In p ports ->
        exists entry, portMonitoring r !! p = Some entry
                      /\ In (port_status entry) port_statuses)
  /\ In (ping_status (pingMonitoring r)) ping_statuses
  /\ match keyword with
     | Some k =>
         if String.eqb k "" then keywordMonitoring r = None
         else exists entry, keywordMonitoring r = Some entry
                            /\ In (kw_status entry) keyword_statuses
     | None => keywordMonitoring r = None
     end
  /\ (forall e, fetch_status w url = Throw e ->
        wm_status (websiteMonitoring r) = error
        /\ responseTime r = {| rt_value := 0; rt_status := critical |})
  /\ (forall u e, URL_parse w url = Normal u ->
        tls_connect w (hostname u) (parseInt (or_string (Some (port u)) "443")) = Throw e ->
        ssl_status (sslMonitoring r) = error)
  /\ (forall u e, URL_parse w url = Normal u ->
        rdap_expiry w (registrable_domain w (hostname u)) = Normal None ->
        exec_whois w ("whois " +:+ registrable_domain w (hostname u)) = Throw e ->
        de_status (domainExpiration r) = error)
  /\ (forall u e p, URL_parse w url = Normal u -> In p ports ->
        net_connect w p (hostname u) = Rejected e ->
        portMonitoring r !! p = Some {| port_status := error; port_responseTime := None |})
  /\ (forall u e, URL_parse w url = Normal u ->
        exec_ping w ("ping -c 1 " +:+ hostname u) = Throw e ->
        ping_status (pingMonitoring r) = error)
  /\ (forall e, truthy keyword = true -> fetch_keyword w url = Throw e ->
        exists entry, keywordMonitoring r = Some entry /\ kw_status entry = error).
Proof.
  destruct (monitorWebsiteStatus_writes w url) as (wm & rt & Hwm & Vwm & Vrt & Fwm).
  destruct (monitorDNS_writes w url) as (dns & Hdns & Vdns & _).
  destruct (monitorSSL_writes w url) as (ssl & Hssl & Vssl & _ & Fssl).
  destruct (monitorDomainExpiration_writes w url) as (de & Hde & Vde & _ & Fde).
  destruct (monitorPing_writes w url) as (ping & Hping & Vping & _ & Fping).
  destruct (monitorKeyword_writes w url (default "" keyword)) as (kw & Hkw & Vkw & Fkw).
  rewrite (monitorWebsite_eq w url keyword _ _ _ _ _ _ _ Hwm Hdns Hssl Hde Hping Hkw)
    in Hrun.
  destruct (URL_parse w url) as [u|e0] eqn:Hu; [|discriminate].
  remember (set_domainExpiration de
              (set_sslMonitoring ssl
                 (set_dnsMonitoring dns
                    (set_responseTime rt
                       (set_websiteMonitoring wm (initial_result w url))))))
    as r1 eqn:E1.
  remember (set_pingMonitoring ping (scan_all w (hostname u) ports r1)) as r2 eqn:E2.
  destruct (assembled_fields w (hostname u) (initial_result w url) r1 r2
              wm rt dns ssl de ping E1 E2)
    as (Ewm & Ert & Edns & Essl & Ede & Eping & Ekw & Eports).
  destruct (fields_set_keywordMonitoring kw r2)
    as (Kwm & Krt & Kdns & Kssl & Kde & Kpm & Kping & Kkw).
  assert (Hsame : websiteMonitoring r = wm /\ responseTime r = rt /\ dnsMonitoring r = dns
                  /\ sslMonitoring r = ssl /\ domainExpiration r = de
                  /\ pingMonitoring r = ping /\ portMonitoring r = portMonitoring r2
                  /\ keywordMonitoring r
                     = if truthy keyword then Some kw else None).
  { unfold with_keyword in Hrun.
    destruct (truthy keyword); injection Hrun as <-.
    - rewrite Kwm, Krt, Kdns, Kssl, Kde, Kpm, Kping, Kkw.
      repeat split; assumption.
    - repeat split; assumption. }
  destruct Hsame as (Swm & Srt & Sdns & Sssl & Sde & Sping & Epm & Ekey).
  rewrite Swm, Srt, Sdns, Sssl, Sde, Sping, Epm.
  split; [exact Vwm|]. split; [exact Vrt|]. split; [exact Vdns|].
  split; [exact Vssl|]. split; [exact Vde|].
  split.
  { intros p Hp. eexists. split; [apply Eports; exact Hp | apply port_entry_status]. }
  split; [exact Vping|].
  split.
  { rewrite Ekey. destruct keyword as [k|]; cbn [truthy]; [|reflexivity].
    destruct (String.eqb k ""); cbn [negb]; [reflexivity|].
    exists kw. split; [reflexivity | exact Vkw]. }
  split.
  { intros e He. destruct (Fwm e He) as [-> ->]. split; reflexivity. }
  split.
  { intros u' e [= <-] He. rewrite (Fssl u e eq_refl He). reflexivity. }
  split.
  { intros u' e [= <-] Hr He. rewrite (Fde u e eq_refl Hr He). reflexivity. }
  split.
  { intros u' e p [= <-] Hp He. rewrite (Eports p Hp), He. reflexivity. }
  split.
  { intros u' e [= <-] He. rewrite (Fping u e eq_refl He). reflexivity. }
  intros e Ht He. rewrite Ekey, Ht. exists kw. split; [reflexivity|].
  rewrite (Fkw e He). reflexivity.
Qed.

Lemma report_has_every_category_witness :
  exists r : MonitoringResult,
    monitorWebsite refused "https://example.com" (Some "welcome") = Normal r
    /\ wm_status (websiteMonitoring r) = error
    /\ (exists entry, keywordMonitoring r = Some entry /\ kw_status entry = error)
    /\ (exists entry, portMonitoring r !! 443 = Some entry
                      /\ In (port_status entry) port_statuses).
Proof.
  destruct (monitorWebsite refused "https://example.com" (Some "welcome")) as [r|e] eqn:Hrun;
    [|vm_compute in Hrun; discriminate Hrun].
  exists r. split; [reflexivity|].
  destruct (report_has_every_category refused "https://example.com" (Some "welcome") r Hrun)
    as (_ & _ & _ & _ & _ & Hports & _ & _ & Hfetch & _ & _ & _ & _ & Hkw).
  split; [|split].
  - apply (Hfetch (ErrorObj "connect ECONNREFUSED")). reflexivity.
  - apply (Hkw (ErrorObj "connect ECONNREFUSED")); reflexivity.
  - apply Hports. vm_compute. tauto.
Defined.

(** ** The date normalizer *)

Lemma parseDateString_unfold (P : string -> option Z) (s : string) :
  s <> "" ->
  parseDateString P s
  = match P (normalize s) with
    | Some d => Some d
    | None =>
        match day_month_year_iso (normalize s) with
        | Some iso =>
            match P iso with
            | Some d2 => Some d2
            | None => P (normalize s)
            end
        | None => P (normalize s)
        end
    end.
Proof.
  intros Hs. unfold parseDateString.
  destruct (String.eqb_spec s ""); [contradiction | reflexivity].
Qed.

Lemma normalize_GMT : normalize "2025-07-20T00:00:00.000 GMT" = "2025-07-20T00:00:00.000Z".
Proof. vm_compute. reflexivity. Qed.

Lemma normalize_Z_GMT :
  normalize "2025-07-20T00:00:00.000Z GMT" = "2025-07-20T00:00:00.000ZZ".
Proof. vm_compute. reflexivity. Qed.

Lemma normalize_day_month_year : normalize "20-Jul-2025" = "20-Jul-2025".
Proof. vm_compute. reflexivity. Qed.

Lemma iso_of_20_Jul_2025 : day_month_year_iso "20-Jul-2025" = Some "2025-07-20T00:00:00Z".
Proof. vm_compute. reflexivity. Qed.

Lemma no_day_month_year_in_ZZ : day_month_year_iso "2025-07-20T00:00:00.000ZZ" = None.
Proof. vm_compute. reflexivity. Qed.

Lemma format_2025_07_20 :
  ES_date_time "2025-07-20T00:00:00Z" = Some 1752969600000
  /\ ES_date_time "2025-07-20T00:00:00.000Z" = Some 1752969600000
  /\ ES_date_time "2025-07-20T00:00:00.000ZZ" = None
  /\ ES_date_time "20-Jul-2025" = None.
Proof. vm_compute. repeat split. Qed.

Lemma ES_date_time_honours_format : honours_format ES_date_time.
Proof. intros s t H. exact H. Qed.

(** C4 on the code. The order of the three attempts is as stated: the
    general parse, the day/month-name/year pattern, the last-resort parse,
    first success winning. Both examples of the claim are missed.

    ["2025-07-20T00:00:00.000Z GMT"]: the trailing [GMT] is not stripped but
    replaced by the designator [Z], also when a [Z] is already there, so the
    string handed to the platform parser is ["2025-07-20T00:00:00.000ZZ"]; this
    is outside the date-time string format, and on a platform that rejects it
    the result is [null], although the string without the token, and the
    string with [GMT] in the place of the designator, both map to
    2025-07-20T00:00:00Z.

    ["20-Jul-2025"]: the pattern that reads it as midnight UTC is tried only
    after the general parse, so where the platform's general parse accepts
    the string the result is the platform's reading of it (local midnight on
    the engines in use) and not the instant of the pattern. *)
Theorem normalizer_misses_its_examples (P : string -> option Z)
    (Hformat : honours_format P)
    (Hdoubled : P "2025-07-20T00:00:00.000ZZ" = None) :
  normalize "2025-07-20T00:00:00.000Z GMT" = "2025-07-20T00:00:00.000ZZ"
  /\ parseDateString P "2025-07-20T00:00:00.000Z GMT" = None
  /\ parseDateString P "2025-07-20T00:00:00.000Z" = Some 1752969600000
  /\ parseDateString P "2025-07-20T00:00:00.000 GMT" = Some 1752969600000
  /\ parseDateString P "20-Jul-2025"
     = match P "20-Jul-2025" with
       | Some t => Some t
       | None => Some 1752969600000
       end
  /\ (forall s t, s <> "" -> P (normalize s) = Some t -> parseDateString P s = Some t)
  /\ (forall s iso t, s <> "" -> P (normalize s) = None ->
        day_month_year_iso (normalize s) = Some iso -> P iso = Some t ->
        parseDateString P s = Some t)
  /\ (forall s, s <> "" -> P (normalize s) = None ->
        (forall iso, day_month_year_iso (normalize s) = Some iso -> P iso = None) ->
        parseDateString P s = None)
  /\ parseDateString P "" = None.
Proof.
  destruct format_2025_07_20 as (Hz & Hms & _ & _).
  split; [exact normalize_Z_GMT|].
  split.
  { rewrite parseDateString_unfold by discriminate.
    rewrite normalize_Z_GMT, no_day_month_year_in_ZZ, Hdoubled. reflexivity. }
  split.
  { rewrite parseDateString_unfold by discriminate.
    replace (normalize "2025-07-20T00:00:00.000Z") with "2025-07-20T00:00:00.000Z"
      by (vm_compute; reflexivity).
    rewrite (Hformat _ _ Hms). reflexivity. }
  split.
  { rewrite parseDateString_unfold by discriminate.
    rewrite normalize_GMT, (Hformat _ _ Hms). reflexivity. }
  split.
  { rewrite parseDateString_unfold by discriminate.
    rewrite normalize_day_month_year, iso_of_20_Jul_2025, (Hformat _ _ Hz).
    destruct (P "20-Jul-2025"); reflexivity. }
  split.
  { intros s t Hs Ht. rewrite parseDateString_unfold by exact Hs. rewrite Ht. reflexivity. }
  split.
  { intros s iso t Hs Hno Hiso Ht. rewrite parseDateString_unfold by exact Hs.
    rewrite Hno, Hiso, Ht. reflexivity. }
  split.
  { intros s Hs Hno Hiso. rewrite parseDateString_unfold by exact Hs. rewrite Hno.
    destruct (day_month_year_iso (normalize s)) as [iso|]; [|reflexivity].
    rewrite (Hiso iso eq_refl). reflexivity. }
  reflexivity.
Qed.

Lemma local_parser_honours_format (offset : Z) : honours_format (local_parser offset).
Proof. intros s t H. unfold local_parser. rewrite H. reflexivity. Qed.

(** In a process two hours east of UTC: the first example gives no date, the
    second one the instant 2025-07-19T22:00:00Z. *)
Lemma normalizer_misses_its_examples_witness :
  parseDateString (local_parser 7200000) "2025-07-20T00:00:00.000Z GMT" = None
  /\ parseDateString (local_parser 7200000) "20-Jul-2025" = Some 1752962400000.
Proof.
  destruct (normalizer_misses_its_examples (local_parser 7200000)
              (local_parser_honours_format 7200000)
              ltac:(vm_compute; reflexivity))
    as (_ & Hgmt & _ & _ & Hdmy & _).
  split; [exact Hgmt|].
  etransitivity; [exact Hdmy|]. vm_compute. reflexivity.
Defined.

(** ** The alert rules *)

Section AlertRules.

Variables (config : MonitoringConfig) (result : MonitoringResult).

Let th := configured (alertThresholds config).

Lemma push_latency (l : list string) :
  push_if (truthy_num (threshold th_responseTime config)
           && (default 0 (threshold th_responseTime config)
               <? rt_value (responseTime result)))
    ("Response time " +:+ show (rt_value (responseTime result))
     +:+ "ms exceeds threshold of "
     +:+ show (default 0 (threshold th_responseTime config)) +:+ "ms") l
  = l ++ latency_rule th result.
Proof.
  unfold push_if, latency_rule, threshold, th, configured.
  destruct (alertThresholds config) as [[t1 t2 t3]|]; cbn;
    [|rewrite app_nil_r; reflexivity].
  destruct t1 as [[|x|x]|];
    cbn [mbind option_bind th_responseTime nonzero truthy_num default andb negb Z.eqb];
    try (rewrite app_nil_r; reflexivity);
    destruct (_ <? _); rewrite ?app_nil_r; reflexivity.
Qed.

Lemma push_days (f : AlertThresholds -> option Z) (days : option Z)
    (msg : Z -> string) (l : list string) :
  days <> Some 0 ->
  push_if (truthy_num (threshold f config) && truthy_num days
           && (default 0 days <=? default 0 (threshold f config)))
    (msg (default 0 days)) l
  = l ++ match nonzero (threshold f config), days with
         | Some min, Some d => if d <=? min then [msg d] else []
         | _, _ => []
         end.
Proof.
  intros Hdays. unfold push_if.
  destruct (threshold f config) as [[|x|x]|];
    destruct days as [[|d|d]|]; try congruence;
    cbn [nonzero truthy_num default andb negb Z.eqb];
    try (rewrite app_nil_r; reflexivity);
    destruct (_ <=? _); rewrite ?app_nil_r; reflexivity.
Qed.

Lemma push_ssl_days (l : list string) :
  ssl_days result <> Some 0 ->
  push_if (truthy_num (threshold th_sslExpiryDays config)
           && truthy_num (ssl_days result)
           && (default 0 (ssl_days result)
               <=? default 0 (threshold th_sslExpiryDays config)))
    ("SSL certificate expires in " +:+ show (default 0 (ssl_days result)) +:+ " days") l
  = l ++ ssl_days_rule th result.
Proof.
  intros Hdays.
  rewrite (push_days th_sslExpiryDays (ssl_days result)
             (fun d => "SSL certificate expires in " +:+ show d +:+ " days") l Hdays).
  unfold ssl_days_rule, th, threshold, configured.
  destruct (alertThresholds config) as [[t1 t2 t3]|]; reflexivity.
Qed.

Lemma push_domain_days (l : list string) :
  domain_days result <> Some 0 ->
  push_if (truthy_num (threshold th_domainExpiryDays config)
           && truthy_num (domain_days result)
           && (default 0 (domain_days result)
               <=? default 0 (threshold th_domainExpiryDays config)))
    ("Domain expires in " +:+ show (default 0 (domain_days result)) +:+ " days") l
  = l ++ domain_days_rule th result.
Proof.
  intros Hdays.
  rewrite (push_days th_domainExpiryDays (domain_days result)
             (fun d => "Domain expires in " +:+ show d +:+ " days") l Hdays).
  unfold domain_days_rule, th, threshold, configured.
  destruct (alertThresholds config) as [[t1 t2 t3]|]; reflexivity.
Qed.

Lemma push_availability (l : list string) :
  push_if (negb (status_is (wm_status (websiteMonitoring result)) online))
    ("Website is " +:+ status_string (wm_status (websiteMonitoring result))) l
  = l ++ availability_rule result.
Proof.
  unfold push_if, status_is, availability_rule. rewrite bool_decide_decide.
  destruct (decide (wm_status (websiteMonitoring result) = online));
    cbn [negb]; rewrite ?app_nil_r; reflexivity.
Qed.

Lemma push_status (a b : Status) (msg : string) (l : list string) :
  push_if (status_is a b) msg l = l ++ (if decide (a = b) then [msg] else []).
Proof.
  unfold push_if, status_is. rewrite bool_decide_decide.
  destruct (decide (a = b)); rewrite ?app_nil_r; reflexivity.
Qed.

Lemma alerts_of_eq :
  ssl_days result <> Some 0 -> domain_days result <> Some 0 ->
  alerts_of config result = evaluator th result.
Proof.
  intros Hssl Hdomain. unfold alerts_of, evaluator.
  rewrite push_latency, (push_ssl_days _ Hssl), (push_domain_days _ Hdomain),
    push_availability, !push_status.
  unfold ssl_expired_rule, domain_expired_rule.
  rewrite app_nil_l, <- !app_assoc. reflexivity.
Qed.

(** A day count of 0 fails the guard of its rule. *)
Lemma push_zero_days (f : AlertThresholds -> option Z) (days : option Z)
    (msg : string) (l : list string) :
  days = Some 0 ->
  push_if (truthy_num (threshold f config) && truthy_num days
           && (default 0 days <=? default 0 (threshold f config))) msg l
  = l.
Proof.
  intros ->. cbn [truthy_num Z.eqb negb]. rewrite andb_false_r. reflexivity.
Qed.

(** The six rules, each on its own and in order; the two day-count rules are
    pinned down for day counts other than 0. *)
Lemma alerts_of_parts :
  exists ssl_alert domain_alert : list string,
    alerts_of config result
    = latency_rule th result ++ ssl_alert ++ domain_alert
      ++ availability_rule result ++ ssl_expired_rule result
      ++ domain_expired_rule result
    /\ (ssl_days result <> Some 0 -> ssl_alert = ssl_days_rule th result)
    /\ (domain_days result <> Some 0 -> domain_alert = domain_days_rule th result)
    /\ (ssl_alert = [] \/ ssl_alert = ssl_days_rule th result)
    /\ (domain_alert = [] \/ domain_alert = domain_days_rule th result).
Proof.
  assert (Hs : exists a,
             (forall l,
                push_if (truthy_num (threshold th_sslExpiryDays config)
                         && truthy_num (ssl_days result)
                         && (default 0 (ssl_days result)
                             <=? default 0 (threshold th_sslExpiryDays config)))
                  ("SSL certificate expires in " +:+ show (default 0 (ssl_days result))
                   +:+ " days") l
                = l ++ a)
             /\ (ssl_days result <> Some 0 -> a = ssl_days_rule th result)
             /\ (a = [] \/ a = ssl_days_rule th result)).
  { destruct (decide (ssl_days result = Some 0)) as [H0|H0].
    - exists []. split; [|split; [contradiction | left; reflexivity]].
      intros l. rewrite (push_zero_days _ _ _ _ H0), app_nil_r. reflexivity.
    - exists (ssl_days_rule th result).
      split; [|split; [reflexivity | right; reflexivity]].
      intros l. apply push_ssl_days. exact H0. }
  assert (Hd : exists a,
             (forall l,
                push_if (truthy_num (threshold th_domainExpiryDays config)
                         && truthy_num (domain_days result)
                         && (default 0 (domain_days result)
                             <=? default 0 (threshold th_domainExpiryDays config)))
                  ("Domain expires in " +:+ show (default 0 (domain_days result))
                   +:+ " days") l
                = l ++ a)
             /\ (domain_days result <> Some 0 -> a = domain_days_rule th result)
             /\ (a = [] \/ a = domain_days_rule th result)).
  { destruct (decide (domain_days result = Some 0)) as [H0|H0].
    - exists []. split; [|split; [contradiction | left; reflexivity]].
      intros l. rewrite (push_zero_days _ _ _ _ H0), app_nil_r. reflexivity.
    - exists (domain_days_rule th result).
      split; [|split; [reflexivity | right; reflexivity]].
      intros l. apply push_domain_days. exact H0. }
  destruct Hs as (sa & Hs & Hs1 & Hs2), Hd as (da & Hd & Hd1 & Hd2).
  exists sa, da. split; [|repeat split; assumption].
  unfold alerts_of.
  rewrite push_latency, Hs, Hd, push_availability, !push_status.
  unfold ssl_expired_rule, domain_expired_rule.
  rewrite app_nil_l, <- !app_assoc. reflexivity.
Qed.

End AlertRules.

Lemma checkAlerts_eq (job : MonitoringJob) (result : MonitoringResult) (s : Scheduler) :
  checkAlerts job result s
  = if notifications_enabled (config job)
    then match alerts_of (config job) result with
         | [] => s
         | _ :: _ => sendAlertEmail job result (alerts_of (config job) result) s
         end
    else s.
Proof.
  unfold checkAlerts.
  destruct (notifications_enabled (config job)); cbn [negb]; [|reflexivity].
  destruct (alerts_of (config job) result); reflexivity.
Qed.

(** C6, as the code has it. For every report and every configuration, the
    evaluation applies the six rules independently and in order, none cutting
    another short: the list of alerts is made of six parts, which are in this
    order the alerts of the latency rule (latency above the configured
    maximum), of the TLS day-count rule, of the domain day-count rule, of the
    availability rule (status other than [online]), and of the rules for a TLS
    status [expired] and a domain status [expired], the last three without
    any threshold. A threshold that is absent or zero switches off its own
    rule only. For a day count other than 0 the part of a day-count rule is
    what the rule says (days to expiry present and at or below the configured
    minimum); for a day count of 0 it is left open whether the part is
    empty or the rule's alert. The list is handed to the mail step when
    notifications are enabled and it is not empty; an empty list, or
    notifications that are not enabled, mean no action. *)
Theorem alert_evaluation (job : MonitoringJob) (result : MonitoringResult)
    (s : Scheduler) :
  let th := configured (alertThresholds (config job)) in
  let alerts := alerts_of (config job) result in
  (exists ssl_alert domain_alert : list string,
     alerts = latency_rule th result ++ ssl_alert ++ domain_alert
              ++ availability_rule result ++ ssl_expired_rule result
              ++ domain_expired_rule result
     /\ (ssl_days result <> Some 0 -> ssl_alert = ssl_days_rule th result)
     /\ (domain_days result <> Some 0 -> domain_alert = domain_days_rule th result)
     /\ (ssl_alert = [] \/ ssl_alert = ssl_days_rule th result)
     /\ (domain_alert = [] \/ domain_alert = domain_days_rule th result))
  /\ (forall n, emailNotifications (config job) = Some n -> enabled n = true ->
        alerts <> [] ->
        checkAlerts job result s
        = set_outbox
            (outbox s ++
             [{| mail_from := smtp_user (smtp n); mail_to := recipients n;
                 mail_subject := "Website Monitoring Alert - " +:+ url result;
                 mail_alerts := alerts |}]) s)
  /\ (alerts = [] -> checkAlerts job result s = s)
  /\ (notifications_enabled (config job) = false -> checkAlerts job result s = s).
Proof.
  intros th alerts. subst th alerts.
  split; [apply alerts_of_parts|].
  rewrite checkAlerts_eq.
  split; [|split].
  - intros n Hn Hen Hne. unfold notifications_enabled, sendAlertEmail.
    rewrite Hn, Hen.
    destruct (alerts_of (config job) result) eqn:Ha; [contradiction | reflexivity].
  - intros ->. destruct (notifications_enabled (config job)); reflexivity.
  - intros ->. reflexivity.
Qed.

(** A report with a TLS day count of 0, a domain day count of 10 and a
    latency of 150 ms, under thresholds of 100 ms, 7 days and 30 days: the
    latency alert comes first, the domain alert before the alert for the
    expired certificate. *)
Lemma alert_evaluation_witness :
  exists ssl_alert : list string,
    alerts_of (config (example_job (thresholds (Some 100) (Some 7) (Some 30))))
      just_expired_report
    = ["Response time 150ms exceeds threshold of 100ms"] ++ ssl_alert
      ++ ["Domain expires in 10 days"; "SSL certificate has expired"].
Proof.
  destruct (alert_evaluation (example_job (thresholds (Some 100) (Some 7) (Some 30)))
              just_expired_report empty_scheduler)
    as ((ssl_alert & domain_alert & Halerts & _ & Hdomain & _) & _).
  exists ssl_alert. rewrite Halerts, (Hdomain ltac:(vm_compute; discriminate)).
  vm_compute. reflexivity.
Defined.

(** C6, as stated, fails where a number is zero. A configured maximum of 0
    is ignored: the scenario report, 150 ms, raises no latency alert. A day
    count of 0 is treated as missing: a certificate that ran out today, with a
    minimum of 7 days configured, raises the expired alert only. *)
Lemma zero_is_treated_as_absent :
  alerts_of (job_config "https://example.com" "*/5 * * * *" (thresholds (Some 0) None None))
    scenario_report = []
  /\ evaluator (thresholds (Some 0) None None) scenario_report
     = ["Response time 150ms exceeds threshold of 0ms"]
  /\ alerts_of (job_config "https://example.com" "*/5 * * * *" (thresholds None (Some 7) None))
       just_expired_report = ["SSL certificate has expired"]
  /\ evaluator (thresholds None (Some 7) None) just_expired_report
     = ["SSL certificate expires in 0 days"; "SSL certificate has expired"]
  /\ ~ (forall config result,
          alerts_of config result = evaluator (alertThresholds config) result).
Proof.
  assert (H1 : alerts_of (job_config "https://example.com" "*/5 * * * *"
                            (thresholds (Some 0) None None)) scenario_report = [])
    by (vm_compute; reflexivity).
  assert (H2 : evaluator (thresholds (Some 0) None None) scenario_report
               = ["Response time 150ms exceeds threshold of 0ms"])
    by (vm_compute; reflexivity).
  split; [exact H1|]. split; [exact H2|].
  split; [vm_compute; reflexivity|]. split; [vm_compute; reflexivity|].
  intros Hall.
  specialize (Hall (job_config "https://example.com" "*/5 * * * *"
                      (thresholds (Some 0) None None)) scenario_report).
  rewrite H1 in Hall. cbn [alertThresholds job_config] in Hall.
  rewrite H2 in Hall. discriminate Hall.
Qed.

(** ** The keyword probe *)

(** C9 fails on the code at a keyword with a dot. The keyword ["v1.0"] does
    not occur in the page ["release v100 is out"], in any case of letters;
    read as a pattern, its dot matches the first [0], and the probe reports
    [found] with one occurrence. *)
Theorem keyword_is_read_as_a_pattern :
  occurrences_i (chars "v1.0") (chars "release v100 is out") = 0%nat
  /\ count_occurrences release_notes "v1.0" "release v100 is out" = Normal 1%nat
  /\ exists r,
       monitorKeyword release_notes "https://example.com" "v1.0"
         (initial_result release_notes "https://example.com") = Normal r
       /\ keywordMonitoring r
          = Some {| kw_status := found; kw_keyword := Some "v1.0";
                    kw_occurrences := Some 1%nat; kw_error := None |}.
Proof.
  split; [vm_compute; reflexivity|]. split; [vm_compute; reflexivity|].
  eexists. split; [vm_compute; reflexivity|]. reflexivity.
Qed.

(** ** The scheduler *)

Section SchedulerFacts.

Variable cron : Cron.

Lemma delete_last {A} (l : list A) (x : A) : delete (length l) (l ++ [x]) = l.
Proof. induction l as [|a l IH]; [reflexivity|]. cbn. f_equal. exact IH. Qed.

Lemma lookup_last {A} (l : list A) (x : A) : (l ++ [x]) !! length l = Some x.
Proof. induction l as [|a l IH]; [reflexivity|]. exact IH. Qed.

Lemma set_running_same (s : Scheduler) : set_running (running s) s = s.
Proof. destruct s. reflexivity. Qed.

Lemma set_running_twice (l1 l2 : list Execution) (s : Scheduler) :
  set_running l2 (set_running l1 s) = set_running l2 s.
Proof. reflexivity. Qed.

(** The settling of an execution whose probe run threw. *)
Lemma settle_thrown (s : Scheduler) (n : nat) (ex : Execution) (w : World)
    (now : Z) (e : Thrown) :
  running s !! n = Some ex ->
  monitorWebsite w (ex_url ex) (ex_keyword ex) = Throw e ->
  step cron s (Settle n w now)
  = (set_running (delete n (running s)) s, Settled (Throw e)).
Proof.
  intros Hex Hthrow. cbn [step]. rewrite Hex, Hthrow. reflexivity.
Qed.

(** The settling of an execution whose probe run returned a report. *)
Lemma settle_returned (s : Scheduler) (n : nat) (ex : Execution) (w : World)
    (now : Z) (result : MonitoringResult) (job : MonitoringJob) :
  running s !! n = Some ex ->
  heap s !! ex_job ex = Some job ->
  monitorWebsite w (ex_url ex) (ex_keyword ex) = Normal result ->
  step cron s (Settle n w now)
  = (checkAlerts (record_run now result job) result
       (set_heap (alter (record_run now result) (ex_job ex) (heap s))
          (set_running (delete n (running s)) s)),
     Settled (Normal result)).
Proof.
  intros Hex Hjob Hrun. cbn [step]. rewrite Hex, Hrun.
  unfold runJob_resume. cbn [heap set_heap set_running].
  rewrite list_lookup_alter_eq, Hjob. reflexivity.
Qed.

(** C10. Whichever way an execution was started, by the tick of a cron task
    or by [runJobNow], when its probe run throws the promise of [runJob]
    rejects with the same error and the scheduler is as it was before the
    trigger: [lastRun] and [lastResult] of the job, like every other job
    field, are unchanged, and nothing was handed to the mail step. *)
Theorem failed_run_leaves_job_untouched (s : Scheduler) (ref : nat)
    (job : MonitoringJob) (w : World) (now : Z) (e : Thrown)
    (Hjob : heap s !! ref = Some job) (Hactive : isActive job = true)
    (Hthrow : monitorWebsite w (cfg_url (config job)) (cfg_keyword (config job))
              = Throw e) :
  (forall n ex, running s !! n = Some ex ->
     monitorWebsite w (ex_url ex) (ex_keyword ex) = Throw e ->
     let s' := (step cron s (Settle n w now)).1 in
     (step cron s (Settle n w now)).2 = Settled (Throw e)
     /\ heap s' = heap s /\ jobs s' = jobs s /\ outbox s' = outbox s)
  /\ (forall k sched, tasks s !! k = Some (sched, ref) ->
        let s1 := (step cron s (Tick k)).1 in
        (step cron s (Tick k)).2 = Pending
        /\ step cron s1 (Settle (length (running s)) w now)
           = (s, Settled (Throw e)))
  /\ (jobs s !! id job = Some ref ->
        let s1 := (step cron s (RunJobNow (id job))).1 in
        (step cron s (RunJobNow (id job))).2 = Pending
        /\ step cron s1 (Settle (length (running s)) w now)
           = (s, Settled (Throw e)))
  /\ runJob_resume ref (Throw e) now s = (s, Throw e).
Proof.
  assert (Hcall : step cron (runJob_call ref job s)
                    (Settle (length (running s)) w now) = (s, Settled (Throw e))).
  { erewrite settle_thrown.
    - unfold runJob_call. cbn [running set_running]. rewrite delete_last.
      rewrite set_running_twice, set_running_same. reflexivity.
    - unfold runJob_call. cbn [running set_running]. apply lookup_last.
    - exact Hthrow. }
  split; [|split; [|split; [|reflexivity]]].
  - intros n ex Hex Hex_throw. cbv zeta.
    rewrite (settle_thrown s n ex w now e Hex Hex_throw). repeat split.
  - intros k sched Hk. cbv zeta. cbn [step]. rewrite Hk. unfold cron_callback.
    rewrite Hjob, Hactive. split; [reflexivity | exact Hcall].
  - intros Hid. cbv zeta. cbn [step]. unfold runJobNow.
    rewrite Hid, Hjob, Hactive. split; [reflexivity | exact Hcall].
Qed.

(** An execution that starts adds one to the executions in flight of its
    job. *)
Lemma in_flight_runJob_call (s : Scheduler) (ref : nat) (job : MonitoringJob) :
  heap s !! ref = Some job ->
  in_flight (id job) (runJob_call ref job s) = S (in_flight (id job) s).
Proof.
  intros Hjob. unfold in_flight, runJob_call. cbn [running set_running].
  rewrite filter_app, length_app.
  replace (filter (fun ex => executes (set_running _ s) (id job) ex = true) (running s))
    with (filter (fun ex => executes s (id job) ex = true) (running s)) by reflexivity.
  rewrite filter_cons_True.
  - cbn. lia.
  - unfold executes. cbn [heap set_running ex_job]. rewrite Hjob. apply String.eqb_refl.
Qed.

(** C7, as the code has it. The scheduler keeps no record of executions in
    flight and skips nothing: the tick of a cron task whose job is active, and
    [runJobNow] for a registered active job, start an execution whatever is
    already running, so the number in flight for the job grows by one each
    time; and every execution whose probe run returns a report records the run
    and performs the alert step itself. *)
Theorem triggers_start_executions_regardless (s : Scheduler) (ref : nat)
    (job : MonitoringJob)
    (Hjob : heap s !! ref = Some job) (Hactive : isActive job = true) :
  (forall k sched, tasks s !! k = Some (sched, ref) ->
     step cron s (Tick k) = (runJob_call ref job s, Pending))
  /\ (jobs s !! id job = Some ref ->
      step cron s (RunJobNow (id job)) = (runJob_call ref job s, Pending))
  /\ running (runJob_call ref job s)
     = running s ++ [{| ex_job := ref; ex_url := cfg_url (config job);
                        ex_keyword := cfg_keyword (config job) |}]
  /\ in_flight (id job) (runJob_call ref job s) = S (in_flight (id job) s)
  /\ (forall n ex w now result,
        running s !! n = Some ex -> ex_job ex = ref ->
        monitorWebsite w (ex_url ex) (ex_keyword ex) = Normal result ->
        step cron s (Settle n w now)
        = (checkAlerts (record_run now result job) result
             (set_heap (alter (record_run now result) ref (heap s))
                (set_running (delete n (running s)) s)),
           Settled (Normal result))).
Proof.
  split; [|split; [|split; [reflexivity|split]]].
  - intros k sched Hk. cbn [step]. rewrite Hk. unfold cron_callback.
    rewrite Hjob, Hactive. reflexivity.
  - intros Hid. cbn [step]. unfold runJobNow. rewrite Hid, Hjob, Hactive. reflexivity.
  - apply in_flight_runJob_call. exact Hjob.
  - intros n ex w now result Hex <- Hrun.
    apply settle_returned; assumption.
Qed.

End SchedulerFacts.

Lemma failed_run_leaves_job_untouched_witness :
  step any_expression (step any_expression one_bad_job (Tick 0)).1 (Settle 0 healthy 1)
  = (one_bad_job, Settled (Throw (ErrorObj "Invalid URL"))).
Proof.
  destruct (failed_run_leaves_job_untouched any_expression one_bad_job 0
              {| id := "bad"; config := job_config "not a url" "*/5 * * * *" None;
                 lastRun := None; lastResult := None; isActive := true |}
              healthy 1 (ErrorObj "Invalid URL") eq_refl eq_refl
              ltac:(vm_compute; reflexivity))
    as (_ & Htick & _).
  apply (Htick 0%nat "*/5 * * * *" eq_refl).
Defined.

Lemma triggers_start_executions_regardless_witness :
  in_flight "site" (step any_expression (step any_expression one_job (Tick 0)).1
                      (RunJobNow "site")).1 = 2%nat.
Proof.
  destruct (triggers_start_executions_regardless any_expression
              (step any_expression one_job (Tick 0)).1 0
              {| id := "site"; config := job_config "https://example.com" "*/5 * * * *" None;
                 lastRun := None; lastResult := None; isActive := true |}
              eq_refl eq_refl)
    as (_ & Hnow & _ & Hcount & _).
  specialize (Hnow eq_refl). cbn [id] in Hnow, Hcount.
  rewrite Hnow. cbn [fst]. rewrite Hcount. vm_compute. reflexivity.
Defined.

(** C7, as stated, fails: nothing is skipped. With one job registered, its
    cron task ticks twice and [runJobNow] is called before any probe run has
    settled: three executions of the job are in flight. The site is down; each
    of the three, when its probe run settles, sends the alert mail. *)
Lemma overlapping_executions_all_alert :
  let s := run_events any_expression one_job [Tick 0; Tick 0; RunJobNow "site"] in
  let s' := run_events any_expression s
              [Settle 0 refused 1; Settle 0 refused 2; Settle 0 refused 3] in
  in_flight "site" s = 3%nat
  /\ ~ (in_flight "site" s <= 1)%nat
  /\ in_flight "site" s' = 0%nat
  /\ length (outbox one_job) = 0%nat
  /\ map mail_alerts (outbox s')
     = [["Website is error"]; ["Website is error"]; ["Website is error"]].
Proof.
  assert (H : in_flight "site"
                (run_events any_expression one_job [Tick 0; Tick 0; RunJobNow "site"])
              = 3%nat) by (vm_compute; reflexivity).
  cbv zeta. rewrite H.
  split; [reflexivity|]. split; [lia|]. vm_compute. repeat split.
Qed.

(** ** Registration *)

Section Registration.

Variable cron : Cron.

Lemma filter_none {A} (P : A -> Prop) `{forall x, Decision (P x)} (l : list A) :
  Forall (fun x => ~ P x) l -> filter P l = [].
Proof.
  induction 1 as [|x l Hx _ IH]; [reflexivity|].
  rewrite filter_cons_False by exact Hx. exact IH.
Qed.

Lemma addJob_eq (id_ : string) (config_ : MonitoringConfig) (s : Scheduler) :
  valid_expression cron (schedule config_) = true ->
  addJob cron id_ config_ s
  = ({| heap := heap s ++ [{| id := id_; config := config_; lastRun := None;
                              lastResult := None; isActive := true |}];
        jobs := <[id_ := length (heap s)]> (jobs s);
        tasks := tasks s ++ [(schedule config_, length (heap s))];
        running := running s;
        outbox := outbox s |}, Returned).
Proof. intros Hvalid. unfold addJob. rewrite Hvalid. reflexivity. Qed.

Lemma tasks_of_fresh_job (s : Scheduler) (sched : string) :
  well_formed s ->
  filter (fun task : string * nat => task.2 = length (heap s))
    (tasks s ++ [(sched, length (heap s))])
  = [(sched, length (heap s))].
Proof.
  intros Hwf. rewrite filter_app, filter_none.
  - rewrite filter_cons_True by reflexivity. reflexivity.
  - eapply Forall_impl; [exact Hwf|]. cbn. intros task Hlt. lia.
Qed.

(** C8, as the code has it. [addJob] knows no duplicate: for an expression
    the cron library accepts it returns normally whether or not the id is
    registered, puts a fresh active job with the given configuration under the
    id, replacing without notice what was there, and registers one new cron
    task on [config.schedule] for that fresh job, which therefore has exactly
    one trigger. [updateJobConfig] does the same after it has deactivated the
    job registered before. *)
Theorem addJob_replaces_silently (id_ : string) (config_ : MonitoringConfig)
    (s : Scheduler) (Hwf : well_formed s)
    (Hvalid : valid_expression cron (schedule config_) = true) :
  let fresh := {| id := id_; config := config_; lastRun := None;
                  lastResult := None; isActive := true |} in
  let ref := length (heap s) in
  let s' := (addJob cron id_ config_ s).1 in
  (addJob cron id_ config_ s).2 = Returned
  /\ jobs s' !! id_ = Some ref
  /\ heap s' !! ref = Some fresh
  /\ getJob id_ s' = Some fresh
  /\ tasks s' = tasks s ++ [(schedule config_, ref)]
  /\ filter (fun task : string * nat => task.2 = ref) (tasks s')
     = [(schedule config_, ref)]
  /\ well_formed s'
  /\ (forall ref0 job0, jobs s !! id_ = Some ref0 -> heap s !! ref0 = Some job0 ->
        let s'' := (updateJobConfig cron id_ config_ s).1 in
        (updateJobConfig cron id_ config_ s).2 = Returned
        /\ heap s'' !! ref0 = Some (deactivate job0)
        /\ getJob id_ s'' = Some fresh
        /\ filter (fun task : string * nat => task.2 = ref) (tasks s'')
           = [(schedule config_, ref)]).
Proof.
  cbv zeta. rewrite (addJob_eq id_ config_ s Hvalid). cbn [fst snd jobs heap tasks].
  assert (Hfresh : forall (h : list MonitoringJob) x, (h ++ [x]) !! length h = Some x)
    by (intros h x; induction h; [reflexivity | assumption]).
  split; [reflexivity|].
  split; [apply lookup_insert_eq|].
  split; [apply Hfresh|].
  split.
  { unfold getJob. cbn [jobs heap]. rewrite lookup_insert_eq. cbn. apply Hfresh. }
  split; [reflexivity|].
  split; [apply tasks_of_fresh_job; exact Hwf|].
  split.
  { unfold well_formed. cbn [tasks heap]. rewrite length_app. cbn [length].
    apply Forall_app. split.
    - eapply Forall_impl; [exact Hwf|]. cbn. intros task Hlt. lia.
    - constructor; [cbn; lia | constructor]. }
  intros ref0 job0 Hid Href0.
  unfold updateJobConfig. rewrite Hid.
  assert (Hlen : length (alter deactivate ref0 (heap s)) = length (heap s))
    by apply length_alter.
  rewrite addJob_eq by exact Hvalid. cbn [fst snd jobs heap tasks set_heap].
  assert (Hlt : (ref0 < length (heap s))%nat) by (eapply lookup_lt_Some; exact Href0).
  split; [reflexivity|].
  split.
  { rewrite lookup_app_l by (rewrite Hlen; exact Hlt).
    rewrite list_lookup_alter_eq, Href0. reflexivity. }
  split.
  { unfold getJob. cbn [jobs heap]. rewrite lookup_insert_eq. cbn.
    rewrite Hlen. rewrite <- Hlen at 1. apply Hfresh. }
  rewrite Hlen.
  pose proof (tasks_of_fresh_job s (schedule config_) Hwf) as Ht. exact Ht.
Qed.

End Registration.

Lemma addJob_replaces_silently_witness :
  getJob "site"
    (addJob any_expression "site" (job_config "https://example.org" "0 * * * *" None)
       one_job).1
  = Some {| id := "site"; config := job_config "https://example.org" "0 * * * *" None;
            lastRun := None; lastResult := None; isActive := true |}.
Proof.
  assert (Hwf : well_formed one_job).
  { unfold well_formed. vm_compute. repeat constructor. }
  destruct (addJob_replaces_silently any_expression "site"
              (job_config "https://example.org" "0 * * * *" None) one_job Hwf eq_refl)
    as (_ & _ & _ & Hget & _).
  exact Hget.
Defined.

(** C8, as stated, fails: a second [addJob] under an id that is active
    returns normally, without an error and without a policy to consult, and
    afterwards two cron tasks are live for the id, the earlier one still on
    the earlier schedule. *)
Lemma duplicate_addJob_leaves_two_triggers :
  let config2 := job_config "https://example.org" "0 * * * *" None in
  (addJob any_expression "site" config2 one_job).2 = Returned
  /\ live_triggers "site" (addJob any_expression "site" config2 one_job).1
     = [("*/5 * * * *", 0%nat); ("0 * * * *", 1%nat)]
  /\ ~ (length (live_triggers "site" (addJob any_expression "site" config2 one_job).1)
        = 1%nat).
Proof.
  assert (H : live_triggers "site"
                (addJob any_expression "site"
                   (job_config "https://example.org" "0 * * * *" None) one_job).1
              = [("*/5 * * * *", 0%nat); ("0 * * * *", 1%nat)])
    by (vm_compute; reflexivity).
  cbv zeta. rewrite H. split; [reflexivity|]. split; [reflexivity|]. cbn. lia.
Qed.

(** * Further properties of the code *)

(** ** The report of a run *)

(** A run on a target that parses returns a report, and the report is the
    initial one with the entry of each probe in its own field. *)
Lemma monitorWebsite_fields (w : World) (url : string) (keyword : option string)
    (u : Url) :
  URL_parse w url = Normal u ->
  exists r wm rt dns ssl de ping kw,
    monitorWebsite w url keyword = Normal r
    /\ (forall r0, monitorWebsiteStatus w url r0
                   = Normal (set_responseTime rt (set_websiteMonitoring wm r0)))
    /\ (forall r0, monitorDNS w url r0 = Normal (set_dnsMonitoring dns r0))
    /\ (forall r0, monitorSSL w url r0 = Normal (set_sslMonitoring ssl r0))
    /\ (forall r0, monitorDomainExpiration w url r0
                   = Normal (set_domainExpiration de r0))
    /\ (forall r0, monitorPing w url r0 = Normal (set_pingMonitoring ping r0))
    /\ (forall r0, monitorKeyword w url (default "" keyword) r0
                   = Normal (set_keywordMonitoring kw r0))
    /\ websiteMonitoring r = wm /\ responseTime r = rt /\ dnsMonitoring r = dns
    /\ sslMonitoring r = ssl /\ domainExpiration r = de /\ pingMonitoring r = ping
    /\ keywordMonitoring r = (if truthy keyword then Some kw else None)
    /\ (forall p, In p ports ->
          portMonitoring r !! p = Some (port_entry (net_connect w p (hostname u))))
    /\ (forall p, ~ In p ports -> portMonitoring r !! p = None).
Proof.
  intros Hu.
  destruct (monitorWebsiteStatus_writes w url) as (wm & rt & Hwm & _).
  destruct (monitorDNS_writes w url) as (dns & Hdns & _).
  destruct (monitorSSL_writes w url) as (ssl & Hssl & _).
  destruct (monitorDomainExpiration_writes w url) as (de & Hde & _).
  destruct (monitorPing_writes w url) as (ping & Hping & _).
  destruct (monitorKeyword_writes w url (default "" keyword)) as (kw & Hkw & _).
  pose proof (monitorWebsite_eq w url keyword _ _ _ _ _ _ _ Hwm Hdns Hssl Hde Hping Hkw)
    as Hrun.
  rewrite Hu in Hrun.
  remember (set_domainExpiration de
              (set_sslMonitoring ssl
                 (set_dnsMonitoring dns
                    (set_responseTime rt
                       (set_websiteMonitoring wm (initial_result w url))))))
    as r1 eqn:E1.
  remember (set_pingMonitoring ping (scan_all w (hostname u) ports r1)) as r2 eqn:E2.
  destruct (assembled_fields w (hostname u) (initial_result w url) r1 r2
              wm rt dns ssl de ping E1 E2)
    as (Ewm & Ert & Edns & Essl & Ede & Eping & Ekw & Eports).
  assert (Eout : forall p, ~ In p ports -> portMonitoring r2 !! p = None).
  { intros p Hp.
    destruct (fields_set_pingMonitoring ping (scan_all w (hostname u) ports r1))
      as (_ & _ & _ & _ & _ & Ppm & _).
    rewrite E2, Ppm, (scan_all_other w (hostname u) ports p r1 Hp), E1.
    apply lookup_empty. }
  destruct (fields_set_keywordMonitoring kw r2)
    as (Kwm & Krt & Kdns & Kssl & Kde & Kpm & Kping & Kkw).
  exists (with_keyword keyword kw r2), wm, rt, dns, ssl, de, ping, kw.
  split; [exact Hrun|].
  do 6 (split; [assumption|]).
  unfold with_keyword. destruct (truthy keyword).
  - rewrite Kwm, Krt, Kdns, Kssl, Kde, Kpm, Kping, Kkw. repeat split; assumption.
  - repeat split; assumption.
Qed.

(** Independence of the categories. In the report of a run, the target
    and the time stamp are those of the run, and each category holds what its
    probe writes when run alone on any report: neither the order of the probes
    nor what the other probes found has an influence. *)
Theorem categories_are_independent (w : World) (url : string)
    (keyword : option string) (r : MonitoringResult)
    (Hrun : monitorWebsite w url keyword = Normal r) :
  (forall r0 r', monitorWebsiteStatus w url r0 = Normal r' ->
     websiteMonitoring r' = websiteMonitoring r /\ responseTime r' = responseTime r)
  /\ (forall r0 r', monitorDNS w url r0 = Normal r' -> dnsMonitoring r' = dnsMonitoring r)
  /\ (forall r0 r', monitorSSL w url r0 = Normal r' -> sslMonitoring r' = sslMonitoring r)
  /\ (forall r0 r', monitorDomainExpiration w url r0 = Normal r' ->
        domainExpiration r' = domainExpiration r)
  /\ (forall r0 r' p, monitorPorts w url r0 = Normal r' -> In p ports ->
        portMonitoring r' !! p = portMonitoring r !! p)
  /\ (forall r0 r', monitorPing w url r0 = Normal r' -> pingMonitoring r' = pingMonitoring r)
  /\ (forall r0 r' k, keyword = Some k -> k <> "" ->
        monitorKeyword w url k r0 = Normal r' ->
        keywordMonitoring r' = keywordMonitoring r).
Proof.
  destruct (URL_parse w url) as [u|e] eqn:Hu.
  2:{ destruct (monitorWebsiteStatus_writes w url) as (wm & rt & Hwm & _).
      destruct (monitorDNS_writes w url) as (dns & Hdns & _).
      destruct (monitorSSL_writes w url) as (ssl & Hssl & _).
      destruct (monitorDomainExpiration_writes w url) as (de & Hde & _).
      destruct (monitorPing_writes w url) as (ping & Hping & _).
      destruct (monitorKeyword_writes w url (default "" keyword)) as (kw & Hkw & _).
      rewrite (monitorWebsite_eq w url keyword _ _ _ _ _ _ _ Hwm Hdns Hssl Hde Hping Hkw),
        Hu in Hrun.
      discriminate Hrun. }
  destruct (monitorWebsite_fields w url keyword u Hu)
    as (r'' & wm & rt & dns & ssl & de & ping & kw & Hrun' & Hwm & Hdns & Hssl & Hde
        & Hping & Hkw & Ewm & Ert & Edns & Essl & Ede & Eping & Ekw & Eports & _).
  rewrite Hrun in Hrun'. injection Hrun' as <-.
  split.
  { intros r0 r' H. rewrite Hwm in H. injection H as <-. rewrite Ewm, Ert. split; reflexivity. }
  split.
  { intros r0 r' H. rewrite Hdns in H. injection H as <-. rewrite Edns. reflexivity. }
  split.
  { intros r0 r' H. rewrite Hssl in H. injection H as <-. rewrite Essl. reflexivity. }
  split.
  { intros r0 r' H. rewrite Hde in H. injection H as <-. rewrite Ede. reflexivity. }
  split.
  { intros r0 r' p H Hp. rewrite monitorPorts_spec, Hu in H. injection H as <-.
    rewrite (Eports p Hp). apply scan_all_entry. exact Hp. }
  split.
  { intros r0 r' H. rewrite Hping in H. injection H as <-. rewrite Eping. reflexivity. }
  intros r0 r' k -> Hk H. cbn [default] in Hkw. rewrite Hkw in H. injection H as <-.
  rewrite Ekw. cbn [truthy]. destruct (String.eqb_spec k ""); [contradiction|]. reflexivity.
Qed.

Lemma categories_are_independent_witness :
  exists r r',
    monitorWebsite refused "https://example.com" None = Normal r
    /\ monitorSSL refused "https://example.com" scenario_report = Normal r'
    /\ sslMonitoring r' = sslMonitoring r.
Proof.
  destruct (monitorWebsite refused "https://example.com" None) as [r|e] eqn:Hrun;
    [|vm_compute in Hrun; discriminate Hrun].
  destruct (monitorSSL refused "https://example.com" scenario_report) as [r'|e] eqn:Hssl;
    [|vm_compute in Hssl; discriminate Hssl].
  exists r, r'. split; [reflexivity|]. split; [reflexivity|].
  destruct (categories_are_independent refused "https://example.com" None r Hrun)
    as (_ & _ & H & _).
  exact (H scenario_report r' Hssl).
Defined.

(** ** The availability probe: latency *)

Lemma round_le (x : Q) (n : Z) : (x < inject_Z n)%Q -> round x <= n.
Proof.
  intros Hx. unfold round.
  assert (H : (x + (1 # 2) < inject_Z (n + 1))%Q).
  { rewrite inject_Z_plus. apply Qplus_lt_le_compat; [exact Hx|]. discriminate. }
  pose proof (Qfloor_le (x + (1 # 2))) as Hfl.
  assert (Hlt : (inject_Z (Qfloor (x + (1 # 2))) < inject_Z (n + 1))%Q)
    by (eapply Qle_lt_trans; eassumption).
  rewrite <- Zlt_Qlt in Hlt. lia.
Qed.

(** The latency bucket is decided on the span as measured (the difference of
    the two readings as the subtraction of Numbers gives it), before it is
    rounded to an integer: [good] below 1000 ms, [warning] from 1000 ms and
    below 3000 ms, [critical] from 3000 ms. The value reported with [good] is
    therefore at most 1000 and the value reported with [warning] at most
    3000. *)
Theorem latency_bucket (w : World) (url : string) (r0 r : MonitoringResult)
    (response : Response)
    (Hresponse : fetch_status w url = Normal response)
    (Hrun : monitorWebsiteStatus w url r0 = Normal r) :
  let span :=
    Number_sub (performance_now (perf_end w)) (performance_now (perf_start w)) in
  (rt_status (responseTime r) = good <-> (span < 1000)%Q)
  /\ (rt_status (responseTime r) = warning <-> (1000 <= span /\ span < 3000)%Q)
  /\ (rt_status (responseTime r) = critical <-> (3000 <= span)%Q)
  /\ (rt_status (responseTime r) = good -> rt_value (responseTime r) <= 1000)
  /\ (rt_status (responseTime r) = warning -> rt_value (responseTime r) <= 3000).
Proof.
  cbv zeta. unfold monitorWebsiteStatus, try_catch in Hrun. rewrite Hresponse in Hrun.
  cbn [mbind mret Completion_bind Completion_ret] in Hrun. injection Hrun as <-.
  cbn [responseTime set_responseTime rt_status rt_value]. unfold latency_status.
  destruct (Qlt_le_dec (Number_sub (performance_now (perf_end w))
                          (performance_now (perf_start w))) 1000) as [H1|H1];
    [|destruct (Qlt_le_dec (Number_sub (performance_now (perf_end w))
                              (performance_now (perf_start w))) 3000) as [H3|H3]].
  - split; [split; [intros _; exact H1 | reflexivity]|].
    split; [split; [discriminate | intros [Hle _]; exfalso; exact (Qlt_not_le _ _ H1 Hle)]|].
    split; [split; [discriminate|]|].
    { intros Hle. exfalso. apply (Qlt_not_le _ _ H1).
      eapply Qle_trans; [|exact Hle]. discriminate. }
    split; [intros _; apply (round_le _ 1000); exact H1 | discriminate].
  - split; [split; [discriminate | intros Hlt; exfalso; exact (Qlt_not_le _ _ Hlt H1)]|].
    split; [split; [intros _; split; assumption | reflexivity]|].
    split; [split; [discriminate | intros Hle; exfalso; exact (Qlt_not_le _ _ H3 Hle)]|].
    split; [discriminate | intros _; apply (round_le _ 3000); exact H3].
  - split; [split; [discriminate | intros Hlt; exfalso; exact (Qlt_not_le _ _ Hlt H1)]|].
    split; [split; [discriminate | intros [_ Hlt]; exfalso; exact (Qlt_not_le _ _ Hlt H3)]|].
    split; [split; [intros _; exact H3 | reflexivity]|].
    split; discriminate.
Qed.

(** Between the readings 200.001 and 1200.001 the subtraction of Numbers
    gives 1000: the bucket is [warning]. *)
Lemma latency_bucket_witness :
  exists r,
    monitorWebsiteStatus (with_clock (200001 # 1000) (1200001 # 1000) healthy)
      "https://example.com" scenario_report = Normal r
    /\ rt_status (responseTime r) = warning
    /\ rt_value (responseTime r) = 1000.
Proof.
  destruct (monitorWebsiteStatus (with_clock (200001 # 1000) (1200001 # 1000) healthy)
              "https://example.com" scenario_report)
    as [r|e] eqn:Hrun; [|vm_compute in Hrun; discriminate Hrun].
  exists r. split; [reflexivity|].
  destruct (latency_bucket (with_clock (200001 # 1000) (1200001 # 1000) healthy)
              "https://example.com" scenario_report r
              {| status := 200; statusText := ""; text_ := Normal "Welcome to Example" |}
              eq_refl Hrun) as (_ & Hwarning & _).
  split; [apply Hwarning; vm_compute; split; [discriminate | reflexivity]|].
  vm_compute in Hrun. injection Hrun as <-. reflexivity.
Defined.

(** ** The DNS probe *)

(** For a target that parses, the DNS status is [resolved] whatever the four
    lookups do: a lookup that fails leaves its own record set empty and does
    not touch the others, so a host for which all four fail is reported
    [resolved] with four empty sets. The MX set holds the exchange names and
    the TXT set the chunks of all records in order. *)
Theorem dns_lookups_degrade_separately (w : World) (url : string) (u : Url)
    (r0 : MonitoringResult) (Hu : URL_parse w url = Normal u) :
  exists r records,
    monitorDNS w url r0 = Normal r
    /\ dnsMonitoring r
       = {| dns_status := resolved; dns_records := Some records; dns_error := None |}
    /\ (forall l, resolve4 w (hostname u) = Normal l -> dns_A records = l)
    /\ (forall e, resolve4 w (hostname u) = Throw e -> dns_A records = [])
    /\ (forall l, resolveMx w (hostname u) = Normal l -> dns_MX records = map exchange l)
    /\ (forall e, resolveMx w (hostname u) = Throw e -> dns_MX records = [])
    /\ (forall l, resolveTxt w (hostname u) = Normal l -> dns_TXT records = concat l)
    /\ (forall e, resolveTxt w (hostname u) = Throw e -> dns_TXT records = [])
    /\ (forall l, resolveNs w (hostname u) = Normal l -> dns_NS records = l)
    /\ (forall e, resolveNs w (hostname u) = Throw e -> dns_NS records = []).
Proof.
  unfold monitorDNS, try_catch. rewrite Hu. unfold_monad.
  do 2 eexists. split; [reflexivity|]. split; [reflexivity|].
  cbn [dns_A dns_MX dns_TXT dns_NS].
  repeat split; intros x Hx; rewrite Hx; reflexivity.
Qed.

Lemma dns_lookups_degrade_separately_witness :
  exists r records,
    monitorDNS healthy "https://example.com" scenario_report = Normal r
    /\ dns_records (dnsMonitoring r) = Some records
    /\ dns_MX records = [].
Proof.
  destruct (dns_lookups_degrade_separately healthy "https://example.com"
              {| hostname := "example.com"; port := "" |} scenario_report
              ltac:(vm_compute; reflexivity))
    as (r & records & Hrun & Hentry & _ & _ & _ & Hmx & _).
  exists r, records. split; [exact Hrun|]. rewrite Hentry. split; [reflexivity|].
  apply (Hmx (ErrorObj "queryMx ENODATA")). reflexivity.
Defined.

(** ** The port scan *)

(** The report of a run has an entry for exactly the fourteen ports of the
    scan set, and the entry of a port is decided by what happened on its own
    socket alone: [open] with the connect time (the difference of the two
    readings as the subtraction of Numbers gives it, rounded to an integer),
    [closed] on a socket error, [timeout] on a socket timeout, [error] when
    the attempt threw. *)
Theorem port_entries (w : World) (url : string) (keyword : option string)
    (r : MonitoringResult) (Hrun : monitorWebsite w url keyword = Normal r) :
  exists u,
    URL_parse w url = Normal u
    /\ (forall p, In p ports ->
          portMonitoring r !! p = Some (port_entry (net_connect w p (hostname u))))
    /\ (forall p, ~ In p ports -> portMonitoring r !! p = None)
    /\ (forall p t0 t1, In p ports -> net_connect w p (hostname u) = Connected t0 t1 ->
          portMonitoring r !! p
          = Some {| port_status := open;
                    port_responseTime :=
                      Some (round (Number_sub (performance_now t1)
                                     (performance_now t0))) |})
    /\ (forall p, In p ports -> net_connect w p (hostname u) = SocketError ->
          portMonitoring r !! p
          = Some {| port_status := closed; port_responseTime := None |})
    /\ (forall p, In p ports -> net_connect w p (hostname u) = SocketTimeout ->
          portMonitoring r !! p
          = Some {| port_status := timeout; port_responseTime := None |}).
Proof.
  destruct (URL_parse w url) as [u|e] eqn:Hu.
  2:{ destruct (monitorWebsiteStatus_writes w url) as (wm & rt & Hwm & _).
      destruct (monitorDNS_writes w url) as (dns & Hdns & _).
      destruct (monitorSSL_writes w url) as (ssl & Hssl & _).
      destruct (monitorDomainExpiration_writes w url) as (de & Hde & _).
      destruct (monitorPing_writes w url) as (ping & Hping & _).
      destruct (monitorKeyword_writes w url (default "" keyword)) as (kw & Hkw & _).
      rewrite (monitorWebsite_eq w url keyword _ _ _ _ _ _ _ Hwm Hdns Hssl Hde Hping Hkw),
        Hu in Hrun.
      discriminate Hrun. }
  destruct (monitorWebsite_fields w url keyword u Hu)
    as (r'' & wm & rt & dns & ssl & de & ping & kw & Hrun' & _ & _ & _ & _
        & _ & _ & _ & _ & _ & _ & _ & _ & _ & Eports & Eout).
  rewrite Hrun in Hrun'. injection Hrun' as <-.
  exists u. split; [reflexivity|]. split; [exact Eports|]. split; [exact Eout|].
  split; [|split].
  - intros p t0 t1 Hp Hc. rewrite (Eports p Hp), Hc. reflexivity.
  - intros p Hp Hc. rewrite (Eports p Hp), Hc. reflexivity.
  - intros p Hp Hc. rewrite (Eports p Hp), Hc. reflexivity.
Qed.

Lemma port_entries_witness :
  exists r,
    monitorWebsite healthy "https://example.com" None = Normal r
    /\ portMonitoring r !! 443
       = Some {| port_status := open; port_responseTime := Some 26 |}
    /\ portMonitoring r !! 8443 = None.
Proof.
  destruct (monitorWebsite healthy "https://example.com" None) as [r|e] eqn:Hrun;
    [|vm_compute in Hrun; discriminate Hrun].
  exists r. split; [reflexivity|].
  destruct (port_entries healthy "https://example.com" None r Hrun)
    as (u & Hu & _ & Hout & Hopen & _).
  vm_compute in Hu. injection Hu as <-.
  split.
  - rewrite (Hopen 443 (10 # 1)%Q (71 # 2)%Q); [reflexivity | vm_compute; tauto | reflexivity].
  - apply Hout. vm_compute. intros H. repeat (destruct H as [H|H]; [discriminate H|]).
    exact H.
Defined.

(** ** The expiry checks *)






(** A certificate whose validity dates the platform cannot read, or that
    lacks them, gives an [error] entry with the message of the failed date
    conversion, not a classification. *)
Theorem unreadable_certificate_dates (w : World) (url : string) (u : Url)
    (pc : PeerCertificate) (r0 : MonitoringResult)
    (Hu : URL_parse w url = Normal u)
    (Htls : tls_connect w (hostname u) (parseInt (or_string (Some (port u)) "443"))
            = Normal pc)
    (Hdates : new_Date (Date_parse w) (valid_from pc) = None
              \/ new_Date (Date_parse w) (valid_to pc) = None) :
  monitorSSL w url r0
  = Normal (set_sslMonitoring (ssl_failure (Some "Invalid time value")) r0).
Proof.
  unfold monitorSSL, try_catch. rewrite Hu. unfold_monad. rewrite Htls. unfold_monad.
  destruct Hdates as [H|H].
  - rewrite H. reflexivity.
  - rewrite H. destruct (new_Date (Date_parse w) (valid_from pc)); reflexivity.
Qed.

Lemma unreadable_certificate_dates_witness :
  monitorSSL (with_tls (Normal undated_certificate) healthy) "https://example.com"
    scenario_report
  = Normal (set_sslMonitoring (ssl_failure (Some "Invalid time value")) scenario_report).
Proof.
  apply (unreadable_certificate_dates _ _ {| hostname := "example.com"; port := "" |}
           undated_certificate).
  - vm_compute. reflexivity.
  - reflexivity.
  - left. reflexivity.
Defined.

(** ** The domain check: the registry step and its priority *)


(** When the registry gives an expiry string, the free-text lookup plays no
    part: whatever the [whois] command would answer, the entry is the same,
    and it is decided by the date normalizer on that string, an error entry
    quoting the string when it cannot be parsed. *)
Theorem registry_answer_has_priority (w : World) (url : string) (u : Url)
    (expiryStr : string) (r0 : MonitoringResult)
    (Hu : URL_parse w url = Normal u)
    (Hrdap : rdap_expiry w (registrable_domain w (hostname u)) = Normal (Some expiryStr))
    (Hstr : expiryStr <> "") :
  (forall answer,
     monitorDomainExpiration (with_whois answer w) url r0
     = monitorDomainExpiration w url r0)
  /\ (forall t, parseDateString (Date_parse w) expiryStr = Some t ->
        monitorDomainExpiration w url r0
        = Normal (set_domainExpiration
                    {| de_status := expiry_status (daysUntil t (now_domain w));
                       de_expiryDate := Some t;
                       de_daysUntilExpiry := Some (daysUntil t (now_domain w));
                       de_error := None |} r0))
  /\ (parseDateString (Date_parse w) expiryStr = None ->
      monitorDomainExpiration w url r0
      = Normal (set_domainExpiration
                  (domain_failure
                     (Some ("Found expiry string but could not parse it: "
                            +:+ String DQ expiryStr +:+ String DQ ""))) r0)).
Proof.
  assert (Htruthy : truthy (Some expiryStr) = true).
  { cbn [truthy]. destruct (String.eqb_spec expiryStr ""); [contradiction | reflexivity]. }
  assert (Heq : monitorDomainExpiration w url r0
                = match parseDateString (Date_parse w) expiryStr with
                  | Some t =>
                      Normal (set_domainExpiration
                                {| de_status := expiry_status (daysUntil t (now_domain w));
                                   de_expiryDate := Some t;
                                   de_daysUntilExpiry := Some (daysUntil t (now_domain w));
                                   de_error := None |} r0)
                  | None =>
                      Normal (set_domainExpiration
                                (domain_failure
                                   (Some ("Found expiry string but could not parse it: "
                                          +:+ String DQ expiryStr +:+ String DQ ""))) r0)
                  end).
  { unfold monitorDomainExpiration, try_catch. rewrite Hu. unfold_monad.
    rewrite Hrdap. unfold_monad. rewrite Htruthy. unfold_monad.
    change (default "" (Some expiryStr)) with expiryStr.
    destruct (parseDateString (Date_parse w) expiryStr); reflexivity. }
  split; [|split].
  - intros answer. rewrite Heq.
    unfold monitorDomainExpiration, try_catch.
    change (URL_parse (with_whois answer w) url) with (URL_parse w url).
    rewrite Hu. unfold_monad.
    change (rdap_expiry (with_whois answer w)
              (registrable_domain (with_whois answer w) (hostname u)))
      with (rdap_expiry w (registrable_domain w (hostname u))).
    rewrite Hrdap. unfold_monad. rewrite Htruthy. unfold_monad.
    change (default "" (Some expiryStr)) with expiryStr.
    change (Date_parse (with_whois answer w)) with (Date_parse w).
    change (now_domain (with_whois answer w)) with (now_domain w).
    destruct (parseDateString (Date_parse w) expiryStr); reflexivity.
  - intros t Ht. rewrite Heq, Ht. reflexivity.
  - intros Ht. rewrite Heq, Ht. reflexivity.
Qed.

Lemma registry_answer_has_priority_witness :
  exists r,
    monitorDomainExpiration
      (with_whois (fun _ => Throw (ErrorObj "whois: command not found"))
         (with_rdap (Normal registry_answer) healthy))
      "https://example.com" scenario_report = Normal r
    /\ de_daysUntilExpiry (domainExpiration r) = Some 60.
Proof.
  destruct (registry_answer_has_priority (with_rdap (Normal registry_answer) healthy)
              "https://example.com" {| hostname := "example.com"; port := "" |}
              "2025-03-02T00:00:00Z" scenario_report
              ltac:(vm_compute; reflexivity) ltac:(vm_compute; reflexivity)
              ltac:(discriminate))
    as (Hsame & Hdate & _).
  rewrite Hsame.
  rewrite (Hdate 1740873600000 ltac:(vm_compute; reflexivity)).
  eexists. split; [reflexivity|]. vm_compute. reflexivity.
Defined.

(** ** The keyword probe *)

(** The entry of a page that was fetched and read, when counting returns. *)
Lemma monitorKeyword_counted (w : World) (url keyword content : string)
    (r0 : MonitoringResult) (response : Response) (n : nat) :
  fetch_keyword w url = Normal response -> ok response = true ->
  text_ response = Normal content -> count_occurrences w keyword content = Normal n ->
  monitorKeyword w url keyword r0
  = Normal (set_keywordMonitoring
              {| kw_status := if (0 <? n)%nat then found else not_found;
                 kw_keyword := Some keyword;
                 kw_occurrences := Some n;
                 kw_error := None |} r0).
Proof.
  intros Hfetch Hok Ht Hc. unfold monitorKeyword, try_catch. rewrite Hfetch. unfold_monad.
  rewrite Hok. cbn [negb]. rewrite Ht. unfold_monad. rewrite Hc. reflexivity.
Qed.

(** What the keyword entry is in each case: a response that is not a success
    gives an error entry quoting the status, without the body being looked at;
    a body that cannot be read, or a keyword the pattern compiler rejects,
    gives an error entry with the message of the failure; otherwise the entry
    carries the keyword and the number of matches, [found] when there is at
    least one. *)
Theorem keyword_entry_cases (w : World) (url keyword : string)
    (r0 : MonitoringResult) (response : Response)
    (Hfetch : fetch_keyword w url = Normal response) :
  (ok response = false ->
   monitorKeyword w url keyword r0
   = Normal (set_keywordMonitoring
               (keyword_failure
                  (Some ("HTTP " +:+ show (status response) +:+ ": "
                         +:+ statusText response))) r0))
  /\ (forall e, ok response = true -> text_ response = Throw e ->
        monitorKeyword w url keyword r0
        = Normal (set_keywordMonitoring
                    (keyword_failure (Some (message_or e "Keyword monitoring failed")))
                    r0))
  /\ (forall content e, ok response = true -> text_ response = Normal content ->
        count_occurrences w keyword content = Throw e ->
        monitorKeyword w url keyword r0
        = Normal (set_keywordMonitoring
                    (keyword_failure (Some (message_or e "Keyword monitoring failed")))
                    r0))
  /\ (forall content n, ok response = true -> text_ response = Normal content ->
        count_occurrences w keyword content = Normal n ->
        monitorKeyword w url keyword r0
        = Normal (set_keywordMonitoring
                    {| kw_status := if (0 <? n)%nat then found else not_found;
                       kw_keyword := Some keyword;
                       kw_occurrences := Some n;
                       kw_error := None |} r0)).
Proof.
  unfold monitorKeyword, try_catch. rewrite Hfetch. unfold_monad.
  split; [intros ->; reflexivity|].
  split; [intros e -> ->; reflexivity|].
  split.
  - intros content e Hok Ht Hc. rewrite Hok. cbn [negb]. rewrite Ht. unfold_monad.
    rewrite Hc. reflexivity.
  - intros content n Hok Ht Hc. rewrite Hok. cbn [negb]. rewrite Ht. unfold_monad.
    rewrite Hc. reflexivity.
Qed.

Lemma keyword_entry_cases_witness :
  monitorKeyword not_modified "https://example.com" "welcome" scenario_report
  = Normal (set_keywordMonitoring (keyword_failure (Some "HTTP 304: ")) scenario_report).
Proof.
  destruct (keyword_entry_cases not_modified "https://example.com" "welcome"
              scenario_report
              {| status := 304; statusText := ""; text_ := Normal "" |} eq_refl)
    as (Hnot_ok & _).
  apply Hnot_ok. reflexivity.
Defined.

(** A pattern made of one case-insensitive literal per character matches at
    the head of a text exactly when the text starts with those characters,
    case ignored, and then consumes as many characters. *)
Lemma run_word_lit_i {R} (kw : list ascii) :
  forall (s : list ascii) (caps : Captures) (k : list ascii -> Captures -> option R),
    run (word lit_i kw) s caps k
    = if starts_with_i kw s then k (drop (length kw) s) caps else None.
Proof.
  induction kw as [|c kw IH]; intros s caps k; [reflexivity|].
  destruct kw as [|c2 kw].
  - cbn [word lit_i run starts_with_i length]. destruct s as [|x s]; [reflexivity|].
    rewrite andb_true_r. cbn [drop]. reflexivity.
  - change (word lit_i (c :: c2 :: kw)) with (Cat (lit_i c) (word lit_i (c2 :: kw))).
    cbn [run lit_i]. destruct s as [|x s]; [reflexivity|].
    cbn [starts_with_i]. destruct (ci_eq c x); [|reflexivity].
    rewrite IH. reflexivity.
Qed.

Lemma word_pattern_atom (l : list ascii) :
  forallb (fun c => negb (is_syntax_char c)) l = true ->
  word pattern_atom l = word lit_i l
  /\ forallb (fun c => ascii_eqb c "."%char || negb (is_syntax_char c)) l = true.
Proof.
  induction l as [|c l IH]; intros H; [split; reflexivity|].
  cbn [forallb] in H. apply andb_true_iff in H as [Hc Hl].
  destruct (IH Hl) as [IHw IHf].
  assert (Hdot : ascii_eqb c "."%char = false).
  { destruct (ascii_eqb c "."%char) eqn:E; [|reflexivity].
    unfold is_syntax_char in Hc. apply negb_true_iff in Hc.
    assert (Hex : existsb (ascii_eqb c) (chars "^$\.*+?()[]{}|") = true).
    { apply existsb_exists. exists "."%char. split; [|exact E].
      vm_compute. tauto. }
    congruence. }
  split.
  - destruct l as [|c2 l].
    + cbn [word]. unfold pattern_atom. rewrite Hdot. reflexivity.
    + change (word pattern_atom (c :: c2 :: l))
        with (Cat (pattern_atom c) (word pattern_atom (c2 :: l))).
      change (word lit_i (c :: c2 :: l)) with (Cat (lit_i c) (word lit_i (c2 :: l))).
      rewrite IHw. unfold pattern_atom. rewrite Hdot. reflexivity.
  - cbn [forallb]. rewrite Hc, IHf, orb_true_r. reflexivity.
Qed.

Lemma match_at_word_lit_i (kw s : list ascii) :
  match_at (word lit_i kw) s
  = if starts_with_i kw s
    then Some ((length s - length (drop (length kw) s))%nat, [])
    else None.
Proof. unfold match_at. rewrite run_word_lit_i. reflexivity. Qed.

Lemma starts_with_i_nil (kw : list ascii) :
  kw <> [] -> starts_with_i kw [] = false.
Proof. destruct kw; [contradiction | reflexivity]. Qed.

Lemma count_matches_nil (r : regex) (skip : nat) :
  count_matches r [] skip
  = match skip, match_at r [] with
    | O, Some _ => 1%nat
    | _, _ => 0%nat
    end.
Proof. reflexivity. Qed.

Lemma count_matches_cons (r : regex) (c : ascii) (s : list ascii) (skip : nat) :
  count_matches r (c :: s) skip
  = match skip with
    | S n => count_matches r s n
    | O =>
        match match_at r (c :: s) with
        | Some (len, _) => S (count_matches r s (Nat.pred len))
        | None => count_matches r s 0
        end
    end.
Proof. reflexivity. Qed.

(** The matches found left to right without overlap are at most the
    positions at which the keyword occurs, and there is one exactly when the
    keyword occurs somewhere. *)
Lemma count_matches_literal (kw : list ascii) (Hkw : kw <> []) :
  forall (s : list ascii) (skip : nat),
    (count_matches (word lit_i kw) s skip <= occurrences_i kw s)%nat
    /\ (skip = 0%nat ->
        (count_matches (word lit_i kw) s 0 = 0%nat <-> occurrences_i kw s = 0%nat)).
Proof.
  induction s as [|c s IH]; intros skip.
  - rewrite !count_matches_nil. cbn [occurrences_i]. rewrite match_at_word_lit_i.
    rewrite (starts_with_i_nil kw Hkw). destruct skip; split; try lia; intros; reflexivity.
  - rewrite !count_matches_cons. cbn [occurrences_i]. rewrite match_at_word_lit_i.
    destruct (starts_with_i kw (c :: s)) eqn:Hs.
    + split.
      * destruct skip as [|n]; [|pose proof (proj1 (IH n)); lia].
        pose proof (proj1 (IH (Nat.pred (length (c :: s)
                                          - length (drop (length kw) (c :: s)))))).
        lia.
      * intros ->. split; intros H; lia.
    + split.
      * destruct skip as [|n]; [pose proof (proj1 (IH 0%nat)) | pose proof (proj1 (IH n))];
          lia.
      * intros ->. destruct (IH 0%nat) as [_ Hiff]. specialize (Hiff eq_refl).
        cbn [Nat.add]. exact Hiff.
Qed.

(** For a keyword made of ordinary characters (none of the pattern syntax
    characters), the probe does count occurrences of the string: on a page
    that is fetched, the status is [found] exactly when the keyword occurs in
    the body, case ignored, and the count (matches taken left to right without
    overlap) never exceeds the number of positions at which it occurs. *)
Theorem ordinary_keyword_is_counted (w : World) (url keyword content : string)
    (r0 : MonitoringResult) (response : Response)
    (Hordinary : ordinary keyword) (Hnonempty : keyword <> "")
    (Hfetch : fetch_keyword w url = Normal response)
    (Hok : ok response = true) (Htext : text_ response = Normal content) :
  exists n,
    monitorKeyword w url keyword r0
    = Normal (set_keywordMonitoring
                {| kw_status := if (0 <? n)%nat then found else not_found;
                   kw_keyword := Some keyword;
                   kw_occurrences := Some n;
                   kw_error := None |} r0)
    /\ (n <= occurrences_i (chars keyword) (chars content))%nat
    /\ (n = 0%nat <-> occurrences_i (chars keyword) (chars content) = 0%nat).
Proof.
  destruct (word_pattern_atom (chars keyword) Hordinary) as [Hword Hfrag].
  assert (Hkw : chars keyword <> []).
  { intros H. apply Hnonempty. destruct keyword; [reflexivity | discriminate H]. }
  exists (count_matches (word lit_i (chars keyword)) (chars content) 0).
  destruct (count_matches_literal (chars keyword) Hkw (chars content) 0%nat) as [Hle Hiff].
  split; [|split; [exact Hle | exact (Hiff eq_refl)]].
  apply (monitorKeyword_counted w url keyword content r0 response _ Hfetch Hok Htext).
  unfold count_occurrences, keyword_regex. rewrite Hfrag, Hword. reflexivity.
Qed.

Lemma ordinary_keyword_is_counted_witness :
  exists n,
    monitorKeyword release_notes "https://example.com" "RELEASE" scenario_report
    = Normal (set_keywordMonitoring
                {| kw_status := if (0 <? n)%nat then found else not_found;
                   kw_keyword := Some "RELEASE";
                   kw_occurrences := Some n;
                   kw_error := None |} scenario_report)
    /\ n <> 0%nat.
Proof.
  destruct (ordinary_keyword_is_counted release_notes "https://example.com" "RELEASE"
              "release v100 is out" scenario_report
              {| status := 200; statusText := ""; text_ := Normal "release v100 is out" |}
              ltac:(vm_compute; reflexivity) ltac:(discriminate)
              eq_refl eq_refl eq_refl)
    as (n & Hrun & _ & Hzero).
  exists n. split; [exact Hrun|].
  intros Hn. apply Hzero in Hn. vm_compute in Hn. discriminate Hn.
Defined.

(** ** The registry over time *)

Lemma sendAlertEmail_frame (job : MonitoringJob) (result : MonitoringResult)
    (alerts : list string) (s : Scheduler) :
  heap (sendAlertEmail job result alerts s) = heap s
  /\ jobs (sendAlertEmail job result alerts s) = jobs s
  /\ tasks (sendAlertEmail job result alerts s) = tasks s
  /\ running (sendAlertEmail job result alerts s) = running s.
Proof.
  unfold sendAlertEmail. destruct (emailNotifications (config job)); repeat split.
Qed.

(** The alert step touches the outbox only. *)
Lemma checkAlerts_frame (job : MonitoringJob) (result : MonitoringResult)
    (s : Scheduler) :
  heap (checkAlerts job result s) = heap s
  /\ jobs (checkAlerts job result s) = jobs s
  /\ tasks (checkAlerts job result s) = tasks s
  /\ running (checkAlerts job result s) = running s.
Proof.
  rewrite checkAlerts_eq.
  destruct (notifications_enabled (config job)); [|repeat split].
  destruct (alerts_of (config job) result); [repeat split|].
  apply sendAlertEmail_frame.
Qed.

Lemma runJob_resume_frame (ref : nat) (c : Completion MonitoringResult) (now : Z)
    (s : Scheduler) :
  heap (runJob_resume ref c now s).1
  = match c with
    | Normal result => alter (record_run now result) ref (heap s)
    | Throw _ => heap s
    end
  /\ jobs (runJob_resume ref c now s).1 = jobs s
  /\ tasks (runJob_resume ref c now s).1 = tasks s
  /\ running (runJob_resume ref c now s).1 = running s
  /\ (runJob_resume ref c now s).2 = c.
Proof.
  unfold runJob_resume. destruct c as [result|e]; [|repeat split].
  cbn [heap set_heap].
  destruct (alter (record_run now result) ref (heap s) !! ref) as [job|];
    [|repeat split].
  cbn [fst snd].
  destruct (checkAlerts_frame job result
              (set_heap (alter (record_run now result) ref (heap s)) s))
    as (-> & -> & -> & ->).
  repeat split.
Qed.

Section Reachable.

Variable cron : Cron.

Lemma addJob_state (id_ : string) (config_ : MonitoringConfig) (s : Scheduler) :
  heap (addJob cron id_ config_ s).1
  = heap s ++ [{| id := id_; config := config_; lastRun := None; lastResult := None;
                  isActive := true |}]
  /\ jobs (addJob cron id_ config_ s).1 = <[id_ := length (heap s)]> (jobs s)
  /\ tasks (addJob cron id_ config_ s).1
     = (if valid_expression cron (schedule config_)
        then tasks s ++ [(schedule config_, length (heap s))]
        else tasks s)
  /\ running (addJob cron id_ config_ s).1 = running s
  /\ outbox (addJob cron id_ config_ s).1 = outbox s
  /\ (addJob cron id_ config_ s).2
     = (if valid_expression cron (schedule config_) then Returned
        else Threw (schedule_error cron (schedule config_))).
Proof.
  unfold addJob. destruct (valid_expression cron (schedule config_)); repeat split.
Qed.

(** [addJob] restores the invariant at its id and keeps it at the others. *)
Lemma addJob_invariant (id_ : string) (config_ : MonitoringConfig) (s : Scheduler) :
  (forall id' ref, id' <> id_ -> jobs s !! id' = Some ref ->
     exists job, heap s !! ref = Some job /\ id job = id' /\ isActive job = true) ->
  registry_invariant (addJob cron id_ config_ s).1.
Proof.
  intros Hinv id' ref Hid.
  destruct (addJob_state id_ config_ s) as (Hh & Hj & _).
  rewrite Hh. rewrite Hj in Hid.
  destruct (decide (id_ = id')) as [<-|Hne].
  - rewrite lookup_insert_eq in Hid. injection Hid as <-.
    eexists. split; [apply lookup_last|]. split; reflexivity.
  - rewrite lookup_insert_ne in Hid by exact Hne.
    destruct (Hinv id' ref (not_eq_sym Hne) Hid) as (job & Hjob & Hrest).
    exists job. split; [|exact Hrest]. apply lookup_app_l_Some. exact Hjob.
Qed.

(** Deactivating the job of an id leaves the jobs of the other ids. *)
Lemma deactivate_others (id_ : string) (ref : nat) (s : Scheduler) :
  registry_invariant s -> jobs s !! id_ = Some ref ->
  forall id' ref', id' <> id_ -> jobs s !! id' = Some ref' ->
    exists job, alter deactivate ref (heap s) !! ref' = Some job
                /\ id job = id' /\ isActive job = true.
Proof.
  intros Hinv Hid id' ref' Hne Hid'.
  destruct (Hinv id_ ref Hid) as (job & Hjob & Hjid & _).
  destruct (Hinv id' ref' Hid') as (job' & Hjob' & Hjid' & Hact').
  exists job'. split; [|split; assumption].
  rewrite list_lookup_alter_ne; [exact Hjob'|].
  intros <-. rewrite Hjob in Hjob'. injection Hjob' as <-. congruence.
Qed.

Lemma removeJob_invariant (id_ : string) (s : Scheduler) :
  registry_invariant s -> registry_invariant (removeJob id_ s).
Proof.
  intros Hinv. unfold removeJob.
  destruct (jobs s !! id_) as [ref|] eqn:Hid; [|exact Hinv].
  intros id' ref' H. cbn [jobs heap set_jobs set_heap] in *.
  apply lookup_delete_Some in H as [Hne H].
  apply (deactivate_others id_ ref s Hinv Hid id' ref' (not_eq_sym Hne) H).
Qed.

Lemma updateJobConfig_invariant (id_ : string) (config_ : MonitoringConfig)
    (s : Scheduler) :
  registry_invariant s ->
  registry_invariant (updateJobConfig cron id_ config_ s).1.
Proof.
  intros Hinv. unfold updateJobConfig.
  destruct (jobs s !! id_) as [ref|] eqn:Hid; [|exact Hinv].
  apply addJob_invariant. intros id' ref' Hne H.
  cbn [jobs heap set_heap] in *.
  apply (deactivate_others id_ ref s Hinv Hid id' ref' Hne H).
Qed.

Lemma record_run_invariant (ref : nat) (now : Z) (result : MonitoringResult)
    (s s' : Scheduler) :
  registry_invariant s ->
  heap s' = alter (record_run now result) ref (heap s) -> jobs s' = jobs s ->
  registry_invariant s'.
Proof.
  intros Hinv Hh Hj id' ref' H. rewrite Hj in H. rewrite Hh.
  destruct (Hinv id' ref' H) as (job & Hjob & Hjid & Hact).
  destruct (decide (ref = ref')) as [<-|Hne].
  - exists (record_run now result job).
    rewrite list_lookup_alter_eq, Hjob. repeat split; assumption.
  - exists job. rewrite list_lookup_alter_ne by exact Hne. repeat split; assumption.
Qed.

Lemma same_registry_invariant (s s' : Scheduler) :
  registry_invariant s -> heap s' = heap s -> jobs s' = jobs s ->
  registry_invariant s'.
Proof. intros Hinv Hh Hj id' ref' H. rewrite Hj in H. rewrite Hh. exact (Hinv id' ref' H). Qed.

Lemma step_invariant (s : Scheduler) (ev : Event) :
  registry_invariant s -> registry_invariant (step cron s ev).1.
Proof.
  intros Hinv. destruct ev as [i c|i|i c|i|k|n w now]; cbn [step fst].
  - apply addJob_invariant. intros id' ref' _ H. exact (Hinv id' ref' H).
  - apply removeJob_invariant. exact Hinv.
  - apply updateJobConfig_invariant. exact Hinv.
  - unfold runJobNow. destruct (jobs s !! i) as [ref|]; [|exact Hinv].
    destruct (heap s !! ref) as [job|]; [|exact Hinv].
    destruct (isActive job); exact Hinv.
  - destruct (tasks s !! k) as [[sched ref]|]; [|exact Hinv].
    unfold cron_callback. destruct (heap s !! ref) as [job|]; [|exact Hinv].
    destruct (isActive job); exact Hinv.
  - destruct (running s !! n) as [ex|]; [|exact Hinv].
    destruct (runJob_resume_frame (ex_job ex)
                (monitorWebsite w (ex_url ex) (ex_keyword ex)) now
                (set_running (delete n (running s)) s))
      as (Hh & Hj & _).
    destruct (runJob_resume (ex_job ex) (monitorWebsite w (ex_url ex) (ex_keyword ex))
                now (set_running (delete n (running s)) s)) as [s' c] eqn:Hres.
    cbn [fst] in *.
    destruct (monitorWebsite w (ex_url ex) (ex_keyword ex)) as [result|e].
    + eapply record_run_invariant; [exact Hinv | exact Hh | exact Hj].
    + eapply same_registry_invariant; [exact Hinv | exact Hh | exact Hj].
Qed.

Lemma length_heap_step (s : Scheduler) (ev : Event) :
  (length (heap s) <= length (heap (step cron s ev).1))%nat.
Proof.
  destruct ev as [i c|i|i c|i|k|n w now]; cbn [step fst].
  - destruct (addJob_state i c s) as (-> & _). rewrite length_app. lia.
  - unfold removeJob. destruct (jobs s !! i); [|lia].
    cbn [heap set_jobs set_heap]. rewrite length_alter. lia.
  - unfold updateJobConfig. destruct (jobs s !! i); [|cbn; lia].
    destruct (addJob_state i c (set_heap (alter deactivate n (heap s)) s)) as (-> & _).
    cbn [heap set_heap]. rewrite length_app, length_alter. lia.
  - unfold runJobNow. destruct (jobs s !! i) as [ref|]; [|cbn; lia].
    destruct (heap s !! ref) as [job|]; [|cbn; lia].
    destruct (isActive job); cbn; lia.
  - destruct (tasks s !! k) as [[sched ref]|]; [|cbn; lia].
    unfold cron_callback. destruct (heap s !! ref) as [job|]; [|cbn; lia].
    destruct (isActive job); cbn; lia.
  - destruct (running s !! n) as [ex|]; [|cbn; lia].
    destruct (runJob_resume_frame (ex_job ex)
                (monitorWebsite w (ex_url ex) (ex_keyword ex)) now
                (set_running (delete n (running s)) s))
      as (Hh & _).
    destruct (runJob_resume (ex_job ex) (monitorWebsite w (ex_url ex) (ex_keyword ex))
                now (set_running (delete n (running s)) s)) as [s' c] eqn:Hres.
    cbn [fst] in *. rewrite Hh.
    destruct (monitorWebsite w (ex_url ex) (ex_keyword ex));
      cbn [heap set_running]; rewrite ?length_alter; lia.
Qed.

Lemma tasks_step (s : Scheduler) (ev : Event) :
  tasks (step cron s ev).1 = tasks s
  \/ exists sched n,
       tasks (step cron s ev).1 = tasks s ++ [(sched, n)]
       /\ (n < length (heap (step cron s ev).1))%nat.
Proof.
  destruct ev as [i c|i|i c|i|k|n w now]; cbn [step fst].
  - destruct (addJob_state i c s) as (Hh & _ & Ht & _). rewrite Ht, Hh.
    destruct (valid_expression cron (schedule c)); [right|left; reflexivity].
    exists (schedule c), (length (heap s)). split; [reflexivity|].
    rewrite length_app. cbn [length]. lia.
  - left. unfold removeJob. destruct (jobs s !! i); reflexivity.
  - unfold updateJobConfig. destruct (jobs s !! i); [|left; reflexivity].
    destruct (addJob_state i c (set_heap (alter deactivate n (heap s)) s))
      as (Hh & _ & Ht & _).
    rewrite Ht, Hh. cbn [heap tasks set_heap].
    destruct (valid_expression cron (schedule c)); [right|left; reflexivity].
    exists (schedule c), (length (alter deactivate n (heap s))).
    split; [reflexivity|]. rewrite length_app. cbn [length]. lia.
  - left. unfold runJobNow. destruct (jobs s !! i) as [ref|]; [|reflexivity].
    destruct (heap s !! ref) as [job|]; [|reflexivity].
    destruct (isActive job); reflexivity.
  - left. destruct (tasks s !! k) as [[sched ref]|]; [|reflexivity].
    unfold cron_callback. destruct (heap s !! ref) as [job|]; [|reflexivity].
    destruct (isActive job); reflexivity.
  - left. destruct (running s !! n) as [ex|]; [|reflexivity].
    destruct (runJob_resume_frame (ex_job ex)
                (monitorWebsite w (ex_url ex) (ex_keyword ex)) now
                (set_running (delete n (running s)) s))
      as (_ & _ & Ht & _).
    destruct (runJob_resume (ex_job ex) (monitorWebsite w (ex_url ex) (ex_keyword ex))
                now (set_running (delete n (running s)) s)) as [s' c] eqn:Hres.
    cbn [fst] in *. exact Ht.
Qed.

Lemma step_well_formed (s : Scheduler) (ev : Event) :
  well_formed s -> well_formed (step cron s ev).1.
Proof.
  intros Hwf. unfold well_formed in *.
  pose proof (length_heap_step s ev) as Hlen.
  destruct (tasks_step s ev) as [->|(sched & n & -> & Hn)].
  - eapply Forall_impl; [exact Hwf|]. cbn. intros task Ht. lia.
  - apply Forall_app. split.
    + eapply Forall_impl; [exact Hwf|]. cbn. intros task Ht. lia.
    + constructor; [exact Hn | constructor].
Qed.

(** Every state the events lead to from the empty scheduler keeps both
    invariants. *)
Lemma reachable_invariant (evs : list Event) :
  forall s, registry_invariant s -> well_formed s ->
    registry_invariant (run_events cron s evs)
    /\ well_formed (run_events cron s evs).
Proof.
  induction evs as [|ev evs IH]; intros s Hinv Hwf; [split; assumption|].
  cbn [run_events fold_left]. apply IH; [apply step_invariant | apply step_well_formed];
    assumption.
Qed.

Lemma empty_scheduler_invariant : registry_invariant empty_scheduler.
Proof. intros i ref H. cbn in H. rewrite lookup_empty in H. discriminate H. Qed.

Lemma empty_scheduler_well_formed : well_formed empty_scheduler.
Proof. constructor. Qed.

(** In every state the scheduler can reach from its start, whatever calls,
    ticks and settled runs led there: a job found under an id carries that id
    and is active, so [getJobStatus] reports a registered job as running and
    [runJobNow] returns [null] for unregistered ids only; and every cron task
    refers to a job object. *)
Theorem registered_jobs_are_active (evs : list Event) (id_ : string) :
  let s := run_events cron empty_scheduler evs in
  (forall job, getJob id_ s = Some job -> id job = id_ /\ isActive job = true)
  /\ (is_Some (jobs s !! id_) -> exists job,
        getJobStatus id_ s = (Some job, true)
        /\ runJobNow id_ s
           = (runJob_call (default 0%nat (jobs s !! id_)) job s, Pending))
  /\ (jobs s !! id_ = None ->
      getJobStatus id_ s = (None, false) /\ runJobNow id_ s = (s, Null))
  /\ Forall (fun task : string * nat => is_Some (heap s !! task.2)) (tasks s).
Proof.
  cbv zeta.
  destruct (reachable_invariant evs empty_scheduler empty_scheduler_invariant
              empty_scheduler_well_formed) as [Hinv Hwf].
  set (s := run_events cron empty_scheduler evs) in *.
  split; [|split; [|split]].
  - intros job Hget. unfold getJob in Hget.
    destruct (jobs s !! id_) as [ref|] eqn:Hid; [|discriminate Hget].
    cbn in Hget. destruct (Hinv id_ ref Hid) as (job' & Hjob & Hrest).
    rewrite Hjob in Hget. injection Hget as <-. exact Hrest.
  - intros [ref Hid]. destruct (Hinv id_ ref Hid) as (job & Hjob & _ & Hact).
    exists job. unfold getJobStatus, getJob, runJobNow. rewrite Hid. cbn.
    rewrite Hjob, Hact. split; reflexivity.
  - intros Hid. unfold getJobStatus, getJob, runJobNow. rewrite Hid. split; reflexivity.
  - eapply Forall_impl; [exact Hwf|]. cbn. intros task Ht.
    apply lookup_lt_is_Some. exact Ht.
Qed.

End Reachable.

(** ** Removal, rejected schedules, and runs that settle *)

Section JobLifeCycle.

Variable cron : Cron.

(** After [removeJob] of a registered id the job is gone from the registry
    and its cron task, which stays registered, no longer starts executions;
    [runJobNow] answers [null]; a second removal changes nothing; the jobs of
    the other ids, the executions in flight and the outbox are as before. *)
Theorem removeJob_effects (s : Scheduler) (id_ : string) (ref : nat)
    (Hinv : registry_invariant s) (Hid : jobs s !! id_ = Some ref) :
  let s' := removeJob id_ s in
  getJob id_ s' = None
  /\ runJobNow id_ s' = (s', Null)
  /\ tasks s' = tasks s /\ running s' = running s /\ outbox s' = outbox s
  /\ (forall k sched, tasks s !! k = Some (sched, ref) ->
        step cron s' (Tick k) = (s', Inactive))
  /\ removeJob id_ s' = s'
  /\ (forall id', id' <> id_ -> getJob id' s' = getJob id' s).
Proof.
  cbv zeta.
  assert (Heq : removeJob id_ s
                = set_jobs (delete id_ (jobs s))
                    (set_heap (alter deactivate ref (heap s)) s))
    by (unfold removeJob; rewrite Hid; reflexivity).
  rewrite Heq.
  set (s' := set_jobs (delete id_ (jobs s)) (set_heap (alter deactivate ref (heap s)) s)).
  assert (Hgone : jobs s' !! id_ = None) by apply lookup_delete_eq.
  destruct (Hinv id_ ref Hid) as (job & Hjob & _).
  split; [unfold getJob; rewrite Hgone; reflexivity|].
  split; [unfold runJobNow; rewrite Hgone; reflexivity|].
  do 3 (split; [reflexivity|]).
  split.
  { intros k sched Hk. cbn [step]. change (tasks s') with (tasks s). rewrite Hk.
    unfold cron_callback. change (heap s') with (alter deactivate ref (heap s)).
    rewrite list_lookup_alter_eq, Hjob. reflexivity. }
  split; [unfold removeJob; rewrite Hgone; reflexivity|].
  intros id' Hne. unfold getJob.
  change (jobs s') with (delete id_ (jobs s)).
  rewrite lookup_delete_ne by (apply not_eq_sym; exact Hne).
  destruct (jobs s !! id') as [ref'|] eqn:Hid'; [|reflexivity].
  cbn [mbind option_bind]. change (heap s') with (alter deactivate ref (heap s)).
  destruct (deactivate_others id_ ref s Hinv Hid id' ref' Hne Hid')
    as (job' & Hjob' & _).
  destruct (Hinv id' ref' Hid') as (job'' & Hjob'' & Hjid'' & _).
  destruct (Hinv id_ ref Hid) as (job0 & Hjob0 & Hjid0 & _).
  rewrite list_lookup_alter_ne; [reflexivity|].
  intros <-. rewrite Hjob'' in Hjob0. injection Hjob0 as <-. congruence.
Qed.

(** When the cron library rejects the schedule, [addJob] throws after it has
    put the job into the registry: the job is there and counts as running,
    [runJobNow] starts it, but no cron task was registered for it. *)
Theorem addJob_rejected_schedule (s : Scheduler) (id_ : string)
    (config_ : MonitoringConfig)
    (Hbad : valid_expression cron (schedule config_) = false) :
  let fresh := {| id := id_; config := config_; lastRun := None;
                  lastResult := None; isActive := true |} in
  let s' := (addJob cron id_ config_ s).1 in
  (exists e, (addJob cron id_ config_ s).2 = Threw e)
  /\ getJobStatus id_ s' = (Some fresh, true)
  /\ tasks s' = tasks s
  /\ runJobNow id_ s' = (runJob_call (length (heap s)) fresh s', Pending).
Proof.
  cbv zeta.
  destruct (addJob_state cron id_ config_ s) as (Hh & Hj & Ht & _ & _ & Ho).
  rewrite Hbad in Ht, Ho.
  split; [eexists; exact Ho|].
  assert (Hget : getJob id_ (addJob cron id_ config_ s).1
                 = Some {| id := id_; config := config_; lastRun := None;
                           lastResult := None; isActive := true |}).
  { unfold getJob. rewrite Hj, lookup_insert_eq. cbn [mbind option_bind].
    rewrite Hh. apply lookup_last. }
  split; [unfold getJobStatus; rewrite Hget; reflexivity|].
  split; [exact Ht|].
  unfold runJobNow. rewrite Hj, lookup_insert_eq, Hh, lookup_last. reflexivity.
Qed.

Lemma checkAlerts_outbox (job job' : MonitoringJob) (result : MonitoringResult)
    (s s' : Scheduler) :
  config job = config job' -> outbox s = outbox s' ->
  outbox (checkAlerts job result s) = outbox (checkAlerts job' result s').
Proof.
  intros Hc Ho. rewrite !checkAlerts_eq, <- Hc.
  destruct (notifications_enabled (config job)); [|exact Ho].
  destruct (alerts_of (config job) result); [exact Ho|].
  unfold sendAlertEmail. rewrite <- Hc.
  destruct (emailNotifications (config job)); [|exact Ho].
  cbn [outbox set_outbox]. rewrite Ho. reflexivity.
Qed.

(** A probe run that returns a report is recorded on the job object of its
    execution, and on that object only: its [lastRun] and [lastResult] are set,
    the promise resolves with the report, the execution is no longer in
    flight, and the other job objects, the registry and the cron tasks are
    unchanged; a job still registered shows the run through [getJob]. *)
Theorem successful_run_is_recorded (s : Scheduler) (n : nat) (ex : Execution)
    (job : MonitoringJob) (w : World) (now : Z) (result : MonitoringResult)
    (Hex : running s !! n = Some ex) (Hjob : heap s !! ex_job ex = Some job)
    (Hrun : monitorWebsite w (ex_url ex) (ex_keyword ex) = Normal result) :
  let s' := (step cron s (Settle n w now)).1 in
  (step cron s (Settle n w now)).2 = Settled (Normal result)
  /\ heap s' !! ex_job ex = Some (record_run now result job)
  /\ lastRun (record_run now result job) = Some now
  /\ lastResult (record_run now result job) = Some result
  /\ (forall ref, ref <> ex_job ex -> heap s' !! ref = heap s !! ref)
  /\ jobs s' = jobs s /\ tasks s' = tasks s
  /\ running s' = delete n (running s)
  /\ outbox s' = outbox (checkAlerts job result s)
  /\ (jobs s !! id job = Some (ex_job ex) ->
      getJob (id job) s' = Some (record_run now result job)).
Proof.
  cbv zeta. rewrite (settle_returned cron s n ex w now result job Hex Hjob Hrun).
  cbn [fst snd].
  set (s1 := set_heap (alter (record_run now result) (ex_job ex) (heap s))
               (set_running (delete n (running s)) s)).
  destruct (checkAlerts_frame (record_run now result job) result s1)
    as (Hh & Hj & Ht & Hr).
  rewrite Hh, Hj, Ht, Hr.
  change (heap s1) with (alter (record_run now result) (ex_job ex) (heap s)).
  assert (Hrec : alter (record_run now result) (ex_job ex) (heap s) !! ex_job ex
                 = Some (record_run now result job))
    by (rewrite list_lookup_alter_eq, Hjob; reflexivity).
  split; [reflexivity|]. split; [exact Hrec|]. do 2 (split; [reflexivity|]).
  split; [intros ref Hne; apply list_lookup_alter_ne; apply not_eq_sym; exact Hne|].
  do 3 (split; [reflexivity|]).
  split; [apply checkAlerts_outbox; reflexivity|].
  intros Hid. unfold getJob. rewrite Hj. change (jobs s1) with (jobs s). rewrite Hid.
  cbn [mbind option_bind]. rewrite Hh. exact Hrec.
Qed.

(** A run that is in flight while its job is updated writes to the replaced
    job object: after it settles, the job registered under the id still has no
    [lastRun] and no [lastResult], the record is on the deactivated object, and
    the alert step ran with the replaced configuration. *)
Theorem run_in_flight_across_update (s : Scheduler) (id_ : string)
    (config_ : MonitoringConfig) (ref0 : nat) (job0 : MonitoringJob) (n : nat)
    (ex : Execution) (w : World) (now : Z) (result : MonitoringResult)
    (Hid : jobs s !! id_ = Some ref0) (Hjob0 : heap s !! ref0 = Some job0)
    (Hex : running s !! n = Some ex) (Hexjob : ex_job ex = ref0)
    (Hrun : monitorWebsite w (ex_url ex) (ex_keyword ex) = Normal result) :
  let s1 := (updateJobConfig cron id_ config_ s).1 in
  let s2 := (step cron s1 (Settle n w now)).1 in
  getJob id_ s2 = Some {| id := id_; config := config_; lastRun := None;
                          lastResult := None; isActive := true |}
  /\ heap s2 !! ref0 = Some (record_run now result (deactivate job0))
  /\ outbox s2 = outbox (checkAlerts job0 result s).
Proof.
  cbv zeta. subst ref0.
  assert (Hlt : (ex_job ex < length (heap s))%nat) by (eapply lookup_lt_Some; exact Hjob0).
  unfold updateJobConfig. rewrite Hid.
  set (s0 := set_heap (alter deactivate (ex_job ex) (heap s)) s).
  destruct (addJob_state cron id_ config_ s0) as (Hh & Hj & _ & Hr & Ho & _).
  set (s1 := (addJob cron id_ config_ s0).1) in *.
  change (heap s0) with (alter deactivate (ex_job ex) (heap s)) in Hh, Hj.
  change (running s0) with (running s) in Hr.
  change (outbox s0) with (outbox s) in Ho.
  rewrite length_alter in Hj.
  assert (Hex1 : running s1 !! n = Some ex) by (rewrite Hr; exact Hex).
  assert (Hjob1 : heap s1 !! ex_job ex = Some (deactivate job0)).
  { rewrite Hh, lookup_app_l by (rewrite length_alter; exact Hlt).
    rewrite list_lookup_alter_eq, Hjob0. reflexivity. }
  rewrite (settle_returned cron s1 n ex w now result (deactivate job0)
             Hex1 Hjob1 Hrun).
  cbn [fst].
  set (s1' := set_heap (alter (record_run now result) (ex_job ex) (heap s1))
                (set_running (delete n (running s1)) s1)).
  destruct (checkAlerts_frame (record_run now result (deactivate job0)) result s1')
    as (Hh' & Hj' & _ & _).
  change (heap s1') with (alter (record_run now result) (ex_job ex) (heap s1)) in Hh'.
  change (jobs s1') with (jobs s1) in Hj'.
  split; [|split].
  - unfold getJob. rewrite Hj', Hj, lookup_insert_eq. cbn [mbind option_bind].
    rewrite Hh', list_lookup_alter_ne by lia. rewrite Hh.
    rewrite <- (length_alter deactivate (heap s) (ex_job ex)). apply lookup_last.
  - rewrite Hh', list_lookup_alter_eq, Hjob1. reflexivity.
  - apply checkAlerts_outbox; [reflexivity | exact Ho].
Qed.

End JobLifeCycle.

Lemma removeJob_effects_witness :
  getJob "site" (removeJob "site" one_job) = None
  /\ step any_expression (removeJob "site" one_job) (Tick 0)
     = (removeJob "site" one_job, Inactive).
Proof.
  destruct (removeJob_effects any_expression one_job "site" 0%nat
              (proj1 (reachable_invariant any_expression
                        [AddJob "site" (job_config "https://example.com" "*/5 * * * *" None)]
                        empty_scheduler empty_scheduler_invariant
                        empty_scheduler_well_formed))
              eq_refl)
    as (Hget & _ & _ & _ & _ & Htick & _).
  split; [exact Hget|]. apply (Htick 0%nat "*/5 * * * *"). reflexivity.
Defined.

Lemma addJob_rejected_schedule_witness :
  getJobStatus "site"
    (addJob no_expression "site" (job_config "https://example.com" "every day" None)
       empty_scheduler).1
  = (Some {| id := "site"; config := job_config "https://example.com" "every day" None;
             lastRun := None; lastResult := None; isActive := true |}, true)
  /\ tasks (addJob no_expression "site"
              (job_config "https://example.com" "every day" None) empty_scheduler).1 = [].
Proof.
  destruct (addJob_rejected_schedule no_expression empty_scheduler "site"
              (job_config "https://example.com" "every day" None) eq_refl)
    as (_ & Hstatus & Htasks & _).
  split; [exact Hstatus | exact Htasks].
Defined.

Lemma successful_run_is_recorded_witness :
  exists job,
    getJob "site" (step any_expression (step any_expression one_job (Tick 0)).1
                     (Settle 0 healthy 5)).1 = Some job
    /\ lastRun job = Some 5.
Proof.
  destruct (monitorWebsite healthy "https://example.com" None) as [result|e] eqn:Hrun;
    [|vm_compute in Hrun; discriminate Hrun].
  destruct (successful_run_is_recorded any_expression
              (step any_expression one_job (Tick 0)).1 0
              {| ex_job := 0; ex_url := "https://example.com"; ex_keyword := None |}
              {| id := "site"; config := job_config "https://example.com" "*/5 * * * *" None;
                 lastRun := None; lastResult := None; isActive := true |}
              healthy 5 result eq_refl eq_refl Hrun)
    as (_ & _ & Hlast & _ & _ & _ & _ & _ & _ & Hget).
  eexists. split; [apply Hget; reflexivity | exact Hlast].
Defined.

Lemma run_in_flight_across_update_witness :
  getJob "site"
    (step any_expression
       (updateJobConfig any_expression "site"
          (job_config "https://example.org" "0 * * * *" None)
          (step any_expression one_job (Tick 0)).1).1
       (Settle 0 healthy 5)).1
  = Some {| id := "site"; config := job_config "https://example.org" "0 * * * *" None;
            lastRun := None; lastResult := None; isActive := true |}.
Proof.
  destruct (monitorWebsite healthy "https://example.com" None) as [result|e] eqn:Hrun;
    [|vm_compute in Hrun; discriminate Hrun].
  destruct (run_in_flight_across_update any_expression
              (step any_expression one_job (Tick 0)).1 "site"
              (job_config "https://example.org" "0 * * * *" None) 0
              {| id := "site"; config := job_config "https://example.com" "*/5 * * * *" None;
                 lastRun := None; lastResult := None; isActive := true |}
              0 {| ex_job := 0; ex_url := "https://example.com"; ex_keyword := None |}
              healthy 5 result eq_refl eq_refl eq_refl eq_refl Hrun)
    as (Hget & _).
  exact Hget.
Defined.

(** ** The alerts that need no threshold *)

Lemma In_push_if (x : string) (cond : bool) (msg : string) (l : list string) :
  In x (push_if cond msg l) <-> In x l \/ (cond = true /\ x = msg).
Proof.
  unfold push_if. destruct cond.
  - rewrite in_app_iff. cbn [In]. split; intros [H|H]; auto.
    + destruct H as [H|[]]. right. split; [reflexivity | symmetry; exact H].
    + destruct H as [_ ->]. right. left. reflexivity.
  - split; [auto|]. intros [H|[H _]]; [exact H | discriminate H].
Qed.

Lemma append_cons (c : ascii) (s t : string) : String c s +:+ t = String c (s +:+ t).
Proof. reflexivity. Qed.

Ltac differ H := exfalso; rewrite ?append_cons in H; discriminate H.

Lemma length_push_if (cond : bool) (msg : string) (l : list string) :
  (length (push_if cond msg l) <= S (length l))%nat.
Proof. unfold push_if. destruct cond; [rewrite length_app; cbn; lia | lia]. Qed.

(** Whatever the thresholds, and also when none is configured: the list of
    alerts contains the expired-certificate alert exactly when the TLS status
    is [expired], the expired-domain alert exactly when the domain status is
    [expired], and the availability alert exactly when the availability status
    is not [online]; and it never has more than six entries. *)
Theorem status_alerts_need_no_threshold (config : MonitoringConfig)
    (result : MonitoringResult) :
  (In "SSL certificate has expired" (alerts_of config result)
   <-> ssl_status (sslMonitoring result) = expired)
  /\ (In "Domain has expired" (alerts_of config result)
      <-> de_status (domainExpiration result) = expired)
  /\ (In ("Website is " +:+ status_string (wm_status (websiteMonitoring result)))
        (alerts_of config result)
      <-> wm_status (websiteMonitoring result) <> online)
  /\ (length (alerts_of config result) <= 6)%nat.
Proof.
  unfold alerts_of, status_is.
  split; [|split; [|split]].
  - rewrite !In_push_if. cbn [In]. rewrite !bool_decide_eq_true.
    split.
    + intros [[[[[[[]|[_ H]]|[_ H]]|[_ H]]|[_ H]]|[H _]]|[_ H]];
        [differ H | differ H | differ H | differ H | exact H | differ H].
    + intros H. left. right. split; [exact H | reflexivity].
  - rewrite !In_push_if. cbn [In]. rewrite !bool_decide_eq_true.
    split.
    + intros [[[[[[[]|[_ H]]|[_ H]]|[_ H]]|[_ H]]|[_ H]]|[H _]];
        [differ H | differ H | differ H | differ H | differ H | exact H].
    + intros H. right. split; [exact H | reflexivity].
  - rewrite !In_push_if. cbn [In]. rewrite negb_true_iff, bool_decide_eq_false.
    split.
    + intros [[[[[[[]|[_ H]]|[_ H]]|[_ H]]|[H _]]|[_ H]]|[_ H]];
        [differ H | differ H | differ H | exact H | differ H | differ H].
    + intros H. left. left. right. split; [exact H | reflexivity].
  - repeat (etransitivity; [apply length_push_if|apply le_n_S]). cbn. lia.
Qed.

(** ** The handlers *)

Lemma monitorWebsite_returns (w : World) (url : string) (keyword : option string)
    (u : Url) :
  URL_parse w url = Normal u -> exists r, monitorWebsite w url keyword = Normal r.
Proof.
  intros Hu.
  destruct (monitorWebsite_fields w url keyword u Hu) as (r & _ & _ & _ & _ & _ & _ & _ & H & _).
  exists r. exact H.
Qed.

(** The status endpoint validates the target before it calls the monitor,
    so the run it starts always returns: the endpoint answers 405 to a method
    other than GET, 400 to a missing or unparsable target, and 200 with the
    report otherwise; it never answers 500. *)
Theorem status_endpoint_answers (w : World) (method : string)
    (x_monitor_url : option string) :
  let response := status_handler w method x_monitor_url in
  http_status response <> 500
  /\ (http_status response = 405 <-> method <> "GET")
  /\ (http_status response = 200 <->
      method = "GET"
      /\ exists url u, x_monitor_url = Some url /\ url <> ""
                       /\ URL_parse w url = Normal u)
  /\ (http_status response = 200 ->
      exists r, body response = ReportBody r
                /\ monitorWebsite w (default "" x_monitor_url) None = Normal r)
  /\ (http_status response = 405 \/ http_status response = 400
      \/ http_status response = 200).
Proof.
  cbv zeta. unfold status_handler.
  destruct (String.eqb_spec method "GET") as [Hm|Hm]; cbn [negb].
  2:{ cbn [http_status body]. split; [discriminate|]. split; [tauto|].
      split; [split; [discriminate | intros [H _]; contradiction]|].
      split; [discriminate | left; reflexivity]. }
  destruct x_monitor_url as [url|]; cbn [truthy negb].
  2:{ cbn [http_status]. split; [discriminate|].
      split; [split; [discriminate | intros H; contradiction]|].
      split; [split; [discriminate | intros [_ (url & u & H & _)]; discriminate H]|].
      split; [discriminate | right; left; reflexivity]. }
  destruct (String.eqb_spec url "") as [Hurl|Hurl]; cbn [negb].
  { cbn [http_status]. split; [discriminate|].
    split; [split; [discriminate | intros H; contradiction]|].
    split; [split; [discriminate|]|].
    { intros [_ (url' & u & [= <-] & Hne & _)]. contradiction. }
    split; [discriminate | right; left; reflexivity]. }
  change (default "" (Some url)) with url.
  destruct (URL_parse w url) as [u|e] eqn:Hu.
  2:{ cbn [http_status]. split; [discriminate|].
      split; [split; [discriminate | intros H; contradiction]|].
      split; [split; [discriminate|]|].
      { intros [_ (url' & u & [= <-] & _ & Hp)]. congruence. }
      split; [discriminate | right; left; reflexivity]. }
  destruct (monitorWebsite_returns w url None u Hu) as [r Hr]. rewrite Hr.
  cbn [http_status body]. split; [discriminate|].
  split; [split; [discriminate | intros H; contradiction]|].
  split; [split; [intros _; split; [exact Hm | exists url, u; auto] | reflexivity]|].
  split; [intros _; exists r; split; reflexivity | right; right; reflexivity].
Qed.

Section JobHandlerFacts.

Variable cron : Cron.

(** What the registration endpoint answers. A request without id, URL or
    schedule gets 400 and changes nothing. Otherwise the job is in the registry
    afterwards whatever the answer: 201 when the cron library accepts the
    schedule, also when the id was registered before, and 500 when it rejects
    the schedule, the job staying registered without a cron task. *)
Theorem handleAddJob_answers (id_ : string) (config_ : MonitoringConfig)
    (s : Scheduler) :
  let fresh := {| id := id_; config := config_; lastRun := None;
                  lastResult := None; isActive := true |} in
  let missing := id_ = "" \/ cfg_url config_ = "" \/ schedule config_ = "" in
  let answer := handleAddJob cron (Some id_) (Some config_) s in
  (forall c, (handleAddJob cron None c s).1 = s
             /\ http_status (handleAddJob cron None c s).2 = 400)
  /\ (forall i, (handleAddJob cron i None s).1 = s
                /\ http_status (handleAddJob cron i None s).2 = 400)
  /\ (missing -> answer.1 = s /\ http_status answer.2 = 400)
  /\ (~ missing -> valid_expression cron (schedule config_) = true ->
      http_status answer.2 = 201 /\ getJob id_ answer.1 = Some fresh
      /\ tasks answer.1 = tasks s ++ [(schedule config_, length (heap s))])
  /\ (~ missing -> valid_expression cron (schedule config_) = false ->
      http_status answer.2 = 500 /\ getJob id_ answer.1 = Some fresh
      /\ tasks answer.1 = tasks s).
Proof.
  cbv zeta.
  split; [intros c; split; reflexivity|].
  split; [intros [i|]; split; reflexivity|].
  unfold handleAddJob.
  destruct (String.eqb_spec id_ "") as [H1|H1];
    [cbn [orb]; split; [intros _; split; reflexivity|]; split; intros Hn; exfalso; tauto|].
  destruct (String.eqb_spec (cfg_url config_) "") as [H2|H2];
    [cbn [orb]; split; [intros _; split; reflexivity|]; split; intros Hn; exfalso; tauto|].
  destruct (String.eqb_spec (schedule config_) "") as [H3|H3];
    [cbn [orb]; split; [intros _; split; reflexivity|]; split; intros Hn; exfalso; tauto|].
  cbn [orb].
  split; [intros [H|[H|H]]; contradiction|].
  destruct (addJob_state cron id_ config_ s) as (Hh & Hj & Ht & _ & _ & Ho).
  destruct (addJob cron id_ config_ s) as [s' o] eqn:Hadd.
  cbn [fst snd] in *.
  assert (Hget : getJob id_ s' = Some {| id := id_; config := config_; lastRun := None;
                                         lastResult := None; isActive := true |}).
  { unfold getJob. rewrite Hj, lookup_insert_eq. cbn [mbind option_bind].
    rewrite Hh. apply lookup_last. }
  split; intros _ Hv; rewrite Hv in Ht, Ho; subst o; cbn [fst snd http_status];
    (split; [reflexivity|]; split; [exact Hget | exact Ht]).
Qed.

(** The update and removal endpoints report success for an id that is not
    registered, and nothing has changed: no job was created, none removed. *)
Theorem handlers_on_unknown_id (id_ : string) (config_ : MonitoringConfig)
    (s : Scheduler) (Hid : id_ <> "") (Hunknown : jobs s !! id_ = None) :
  handleUpdateJob cron (Some id_) (Some config_) s
  = (s, {| http_status := 200;
           body := MessageBody "Monitoring job updated successfully" id_ |})
  /\ handleRemoveJob (Some id_) s
     = (s, {| http_status := 200;
              body := MessageBody "Monitoring job removed successfully" id_ |})
  /\ updateJobConfig cron id_ config_ s = (s, Returned)
  /\ removeJob id_ s = s
  /\ runJobNow id_ s = (s, Null)
  /\ getJob id_ s = None.
Proof.
  assert (Ht : truthy (Some id_) = true).
  { cbn [truthy]. destruct (String.eqb_spec id_ ""); [contradiction | reflexivity]. }
  assert (Hup : updateJobConfig cron id_ config_ s = (s, Returned))
    by (unfold updateJobConfig; rewrite Hunknown; reflexivity).
  assert (Hrm : removeJob id_ s = s) by (unfold removeJob; rewrite Hunknown; reflexivity).
  split.
  { unfold handleUpdateJob. rewrite Ht. cbn [negb].
    change (default "" (Some id_)) with id_. rewrite Hup. reflexivity. }
  split.
  { unfold handleRemoveJob. rewrite Ht. cbn [negb].
    change (default "" (Some id_)) with id_. rewrite Hrm. reflexivity. }
  split; [exact Hup|]. split; [exact Hrm|].
  split; [unfold runJobNow; rewrite Hunknown; reflexivity|].
  unfold getJob. rewrite Hunknown. reflexivity.
Qed.

End JobHandlerFacts.

Lemma handlers_on_unknown_id_witness :
  handleUpdateJob any_expression (Some "other")
    (Some (job_config "https://example.org" "0 * * * *" None)) one_job
  = (one_job, {| http_status := 200;
                 body := MessageBody "Monitoring job updated successfully" "other" |}).
Proof.
  destruct (handlers_on_unknown_id any_expression "other"
              (job_config "https://example.org" "0 * * * *" None) one_job
              ltac:(discriminate) ltac:(vm_compute; reflexivity))
    as (Hupdate & _).
  exact Hupdate.
Defined.

(** ** The domain of a host name *)

Lemma split_aux_app (sep : ascii) (p rest : list ascii) :
  forall cur,
    split_aux sep cur (p ++ sep :: rest) = split_aux sep cur p ++ split sep rest.
Proof.
  assert (Hsep : ascii_eqb sep sep = true) by (unfold ascii_eqb; apply Z.eqb_refl).
  induction p as [|c p IH]; intros cur.
  - cbn [app split_aux]. rewrite Hsep. reflexivity.
  - cbn [app split_aux]. destruct (ascii_eqb c sep).
    + rewrite IH. reflexivity.
    + apply IH.
Qed.

Lemma split_aux_label (a : list ascii) :
  dot_free a -> forall cur, split_aux "."%char cur a = [rev cur ++ a].
Proof.
  unfold dot_free. induction a as [|c a IH]; intros H cur.
  - cbn [split_aux]. rewrite app_nil_r. reflexivity.
  - cbn [forallb] in H. apply andb_true_iff in H as [Hc Ha].
    apply negb_true_iff in Hc. cbn [split_aux]. rewrite Hc, (IH Ha).
    cbn [rev]. rewrite <- app_assoc. reflexivity.
Qed.

Lemma str_chars (s : string) : str (chars s) = s.
Proof. apply string_of_list_ascii_of_string. Qed.

Lemma chars_str (l : list ascii) : chars (str l) = l.
Proof. apply list_ascii_of_string_of_list_ascii. Qed.

Lemma last_two_labels_of (p : list (list ascii)) (a b : list ascii) :
  drop (length (p ++ [a; b]) - 2) (p ++ [a; b]) = [a; b].
Proof.
  rewrite length_app. cbn [length].
  replace (length p + 2 - 2)%nat with (length p) by lia.
  rewrite drop_app_length. reflexivity.
Qed.

(** The domain that is looked up. When the suffix list names a domain, it is
    that domain. Otherwise it is made of the last two labels of the host name:
    a host name without a dot, or with one dot, is taken whole, and of a longer
    one everything before the last two labels is dropped. *)
Theorem registrable_domain_fallback (w : World) (hostname_ : string) :
  (forall d, psl_domain w hostname_ = Some d -> d <> "" ->
     registrable_domain w hostname_ = d)
  /\ (truthy (psl_domain w hostname_) = false ->
      registrable_domain w hostname_ = last_two_labels hostname_)
  /\ (forall a, dot_free a -> last_two_labels (str a) = str a)
  /\ (forall a b, dot_free a -> dot_free b ->
        last_two_labels (str (a ++ "."%char :: b)) = str (a ++ "."%char :: b))
  /\ (forall p a b, dot_free a -> dot_free b ->
        last_two_labels (str (p ++ "."%char :: a ++ "."%char :: b))
        = str (a ++ "."%char :: b)).
Proof.
  split; [|split; [|split; [|split]]].
  - intros d Hd Hne. unfold registrable_domain. rewrite Hd. cbn [truthy].
    destruct (String.eqb_spec d ""); [contradiction | reflexivity].
  - intros Ht. unfold registrable_domain. rewrite Ht. reflexivity.
  - intros a Ha. unfold last_two_labels, split. rewrite chars_str.
    rewrite (split_aux_label a Ha []). reflexivity.
  - intros a b Ha Hb. unfold last_two_labels, split. rewrite chars_str.
    rewrite split_aux_app. unfold split.
    rewrite (split_aux_label a Ha []), (split_aux_label b Hb []). reflexivity.
  - intros p a b Ha Hb. unfold last_two_labels, split. rewrite chars_str.
    rewrite split_aux_app. unfold split. rewrite split_aux_app. unfold split.
    rewrite (split_aux_label a Ha []), (split_aux_label b Hb []).
    cbn [rev app].
    change ([a] ++ [b]) with [a; b].
    rewrite last_two_labels_of. reflexivity.
Qed.

(** ** The ping probe *)








(** ** The day, month-name, year pattern *)

(** A greedy quantifier whose class holds for all of [l], and that can take
    no more (the class fails on what follows, or the maximum is reached),
    takes [l] when the rest of the pattern matches after it. *)
Lemma rep_takes_all {R} (p : ascii -> bool) (l rest : list ascii)
    (k : list ascii -> option R) (x : R) :
  forall (min max : nat),
    forallb p l = true -> (min <= length l)%nat -> (length l <= max)%nat ->
    (match rest with
     | [] => True
     | c :: _ => p c = false
     end \/ length l = max) ->
    k rest = Some x ->
    rep p min (Some max) (l ++ rest) k = Some x.
Proof.
  induction l as [|a l IH]; intros min max Hl Hmin Hmax Hstop Hk.
  - cbn [length] in *. assert (min = 0%nat) as -> by lia. cbn [app].
    destruct rest as [|c rest]; [exact Hk|].
    cbn [rep]. destruct Hstop as [Hc|Hm].
    + rewrite Hc. exact Hk.
    + subst max. cbn [room]. rewrite andb_false_r. exact Hk.
  - cbn [forallb] in Hl. apply andb_true_iff in Hl as [Ha Hl].
    cbn [length] in *. destruct max as [|m]; [lia|].
    cbn [app rep room]. rewrite Ha. cbn [andb fmap option_fmap option_map Nat.pred].
    rewrite (IH (Nat.pred min) m Hl ltac:(lia) ltac:(lia)
               ltac:(destruct Hstop as [H|H]; [left; exact H | right; lia]) Hk).
    reflexivity.
Qed.

Lemma take_consumed {A} (l rest : list A) :
  take (length (l ++ rest) - length rest) (l ++ rest) = l.
Proof.
  rewrite length_app. replace (length l + length rest - length rest)%nat with (length l) by lia.
  apply take_app_length.
Qed.

Lemma is_sep_not_digit (c : ascii) : is_sep c = true -> is_digit c = false.
Proof.
  unfold is_sep, is_digit, between. intros H.
  apply orb_true_iff in H as [H|H]; [apply orb_true_iff in H as [H|H]|];
    apply Z.eqb_eq in H; rewrite H; reflexivity.
Qed.

Lemma is_sep_not_alpha (c : ascii) : is_sep c = true -> is_alpha c = false.
Proof.
  unfold is_sep, is_alpha, is_upper, is_lower, between. intros H.
  apply orb_true_iff in H as [H|H]; [apply orb_true_iff in H as [H|H]|];
    apply Z.eqb_eq in H; rewrite H; reflexivity.
Qed.

Lemma day_month_year_re_shape :
  day_month_year_re
  = Cat (Grp 1 (Rep is_digit 1 (Some 2%nat)))
      (Cat (Chr is_sep)
         (Cat (Grp 2 (Rep is_alpha 3 (Some 9%nat)))
            (Cat (Chr is_sep) (Grp 3 (Rep is_digit 4 (Some 4%nat)))))).
Proof. reflexivity. Qed.

Lemma day_month_year_match (day mon year tail : list ascii) (sep1 sep2 : ascii) :
  forallb is_digit day = true -> (1 <= length day <= 2)%nat ->
  is_sep sep1 = true -> is_sep sep2 = true ->
  forallb is_alpha mon = true -> (3 <= length mon <= 9)%nat ->
  forallb is_digit year = true -> length year = 4%nat ->
  exists len,
    match_at day_month_year_re (day ++ sep1 :: mon ++ sep2 :: year ++ tail)
    = Some (len, [(3%nat, year); (2%nat, mon); (1%nat, day)]).
Proof.
  intros Hday Hdl Hs1 Hs2 Hmon Hml Hyear Hyl.
  eexists. unfold match_at. rewrite day_month_year_re_shape. cbn [run].
  apply rep_takes_all; [exact Hday | lia | lia | left; apply is_sep_not_digit; exact Hs1|].
  rewrite Hs1.
  apply rep_takes_all; [exact Hmon | lia | lia | left; apply is_sep_not_alpha; exact Hs2|].
  rewrite Hs2.
  apply rep_takes_all; [exact Hyear | lia | lia | right; exact Hyl|].
  rewrite (take_consumed year tail), (take_consumed mon (sep2 :: year ++ tail)),
    (take_consumed day (sep1 :: mon ++ sep2 :: year ++ tail)).
  reflexivity.
Qed.

(** A text that starts with a day of one or two digits, a separator out of
    hyphen, slash and space, a name of three to nine letters whose first three
    letters are, case ignored, those of a month, another separator and four
    digits, yields the ISO date of that day at midnight UTC, the day padded to
    two digits, whatever follows; the date normalizer maps it to the instant
    the platform reads from that ISO string when the platform does not accept
    the text as it is. *)
Theorem day_month_year_pattern (P : string -> option Z)
    (day mon year tail : list ascii) (sep1 sep2 : ascii) (mm : string)
    (Hday : forallb is_digit day = true) (Hdl : (1 <= length day <= 2)%nat)
    (Hs1 : is_sep sep1 = true) (Hs2 : is_sep sep2 = true)
    (Hmon : forallb is_alpha mon = true) (Hml : (3 <= length mon <= 9)%nat)
    (Hyear : forallb is_digit year = true) (Hyl : length year = 4%nat)
    (Hmm : assoc (str (map toLowerCase_char (take 3 mon))) months = Some mm) :
  let text := str (day ++ sep1 :: mon ++ sep2 :: year ++ tail) in
  let iso := str year +:+ "-" +:+ mm +:+ "-" +:+ str (padStart2 day) +:+ "T00:00:00Z" in
  day_month_year_iso text = Some iso
  /\ (text = normalize text -> P text = None -> parseDateString P text = P iso).
Proof.
  cbv zeta.
  assert (Hiso : day_month_year_iso (str (day ++ sep1 :: mon ++ sep2 :: year ++ tail))
                 = Some (str year +:+ "-" +:+ mm +:+ "-" +:+ str (padStart2 day)
                         +:+ "T00:00:00Z")).
  { destruct (day_month_year_match day mon year tail sep1 sep2
                Hday Hdl Hs1 Hs2 Hmon Hml Hyear Hyl) as [len Hm].
    unfold day_month_year_iso, exec. rewrite chars_str.
    destruct day as [|d day]; [cbn in Hdl; lia|].
    cbn [app search]. cbn [app] in Hm. rewrite Hm.
    cbn [group Nat.eqb default from_option Datatypes.id]. rewrite Hmm. reflexivity. }
  split; [exact Hiso|].
  intros Hnorm Hno.
  assert (Hne : str (day ++ sep1 :: mon ++ sep2 :: year ++ tail) <> "").
  { destruct day as [|d day]; [cbn in Hdl; lia | discriminate]. }
  rewrite (parseDateString_unfold P _ Hne), <- Hnorm, Hno, Hiso.
  destruct (P (str year +:+ _)); reflexivity.
Qed.

Lemma day_month_year_pattern_witness :
  day_month_year_iso "7/SEPTEMBER/2031 (registrar)" = Some "2031-09-07T00:00:00Z"
  /\ parseDateString ES_date_time "7/SEPTEMBER/2031 (registrar)" = Some 1946505600000.
Proof.
  destruct (day_month_year_pattern ES_date_time
              (chars "7") (chars "SEPTEMBER") (chars "2031") (chars " (registrar)")
              "/"%char "/"%char "09"
              eq_refl ltac:(cbn; lia) eq_refl eq_refl eq_refl ltac:(cbn; lia)
              eq_refl eq_refl ltac:(vm_compute; reflexivity))
    as (Hiso & Hparse).
  split; [exact Hiso|].
  specialize (Hparse ltac:(vm_compute; reflexivity) ltac:(vm_compute; reflexivity)).
  etransitivity; [exact Hparse|]. vm_compute. reflexivity.
Defined.

(** ** Mails *)

(** Mails are never withdrawn, and only the settling of a run sends one: a
    step leaves the outbox as it is, or it is the settling of an execution and
    adds one mail at the end. *)
Theorem outbox_only_grows (cron : Cron) (s : Scheduler)
    (ev : Event) :
  outbox (step cron s ev).1 = outbox s
  \/ exists n w now mail,
       ev = Settle n w now
       /\ outbox (step cron s ev).1 = outbox s ++ [mail].
Proof.
  destruct ev as [i c|i|i c|i|k|n w now]; cbn [step fst].
  - left. destruct (addJob_state cron i c s) as (_ & _ & _ & _ & Ho & _).
    exact Ho.
  - left. unfold removeJob. destruct (jobs s !! i); reflexivity.
  - left. unfold updateJobConfig. destruct (jobs s !! i); [|reflexivity].
    destruct (addJob_state cron i c (set_heap (alter deactivate n (heap s)) s))
      as (_ & _ & _ & _ & Ho & _).
    exact Ho.
  - left. unfold runJobNow. destruct (jobs s !! i) as [ref|]; [|reflexivity].
    destruct (heap s !! ref) as [job|]; [|reflexivity].
    destruct (isActive job); reflexivity.
  - left. destruct (tasks s !! k) as [[sched ref]|]; [|reflexivity].
    unfold cron_callback. destruct (heap s !! ref) as [job|]; [|reflexivity].
    destruct (isActive job); reflexivity.
  - destruct (running s !! n) as [ex|]; [|left; reflexivity].
    unfold runJob_resume.
    destruct (monitorWebsite w (ex_url ex) (ex_keyword ex)) as [result|e];
      [|left; reflexivity].
    cbn [heap set_heap set_running].
    destruct (alter (record_run now result) (ex_job ex) (heap s) !! ex_job ex)
      as [job|]; [|left; reflexivity].
    cbn [fst]. rewrite checkAlerts_eq.
    destruct (notifications_enabled (config job)); [|left; reflexivity].
    destruct (alerts_of (config job) result) as [|a alerts]; [left; reflexivity|].
    unfold sendAlertEmail.
    destruct (emailNotifications (config job)) as [mailcfg|]; [|left; reflexivity].
    right. do 4 eexists. split; reflexivity.
Qed.
